(** * R307 fingerprint voting sketch: sensor protocol driver and voter registry

    A shallow embedding of [sketch_nov10a.ino].  The sketch runs on an
    8-bit AVR board: [int] is 16 bits wide, [uint8_t]/[byte] 8 bits,
    [uint16_t] 16 bits and [unsigned long] 32 bits.  Integers are modelled
    as [Z] with the wrap-around of each C type written out.

    Hardware is modelled by explicit state passing over a [World]:
    - the EEPROM is a map from addresses to bytes;
    - the global frame buffer [packet] and the callers' local [response]
      arrays are lists updated by index; an access outside the declared
      array is undefined in C++ and is the outcome [OutOfBounds] here;
    - what the sketch writes to the sensor and to the LCD is recorded in
      logs ([sent], [lcd]);
    - the serial receive buffer is a FIFO of bytes ([rxbuf]);
    - what the sketch observes (bytes arriving on the serial line, the
      clock, the buttons) is supplied by finite scripts, one element per
      iteration of the polling loop that reads it.  Bytes arrive while
      [readResponse] polls; none arrives while the buffer is drained.
      A loop guarded by a deadline ([millis() - startTime < timeout])
      also ends when its script ends: the script lists the iterations
      made before the deadline passed, the clock being taken to advance.
      A loop without a deadline ([while (true)]) has outcome [NoInput]
      when its script ends before the user decided.
    [delay] and the [Serial] diagnostics have no effect on this state and
    are left out, as are [setup], [loop], [showMainMenu] and
    [showResults], which no statement below is about. *)

From stdpp Require Import base numbers list strings.
From Stdlib Require Import ZArith Lia.

Open Scope Z_scope.

(** ** Machine integers *)

Definition u8 (z : Z) : Z := z mod 256.
Definition u16 (z : Z) : Z := z mod 65536.
Definition u32 (z : Z) : Z := z mod 4294967296.
(** [int]: 16-bit two's complement. *)
Definition int16 (z : Z) : Z := (z + 32768) mod 65536 - 32768.

Definition is_byte (z : Z) : Prop := 0 <= z < 256.

(** ** Constants of the sketch *)

Definition GET_IMAGE : Z := 0x01.
Definition IMAGE_TO_TZ : Z := 0x02.
Definition SEARCH : Z := 0x04.
Definition CREATE_MODEL : Z := 0x05.
Definition STORE_MODEL : Z := 0x06.
Definition DELETE_MODEL : Z := 0x0C.
Definition VERIFY_PASSWORD : Z := 0x13.
Definition GET_TEMPLATE_COUNT : Z := 0x1D.

Definition HEADER_H : Z := 0xEF.
Definition HEADER_L : Z := 0x01.
Definition PACKAGE_ID : Z := 0x01.

Definition EEPROM_VOTE1 : Z := 0.
Definition EEPROM_VOTE2 : Z := 1.
Definition EEPROM_VOTE3 : Z := 2.
Definition EEPROM_VOTED_START : Z := 10.
Definition MAX_FINGERPRINTS : nat := 25.

(** Declared size of the global [uint8_t packet[128]]. *)
Definition PACKET_SIZE : nat := 128.

Inductive pin : Type :=
  | BTN_ENROLL | BTN_DELETE | BTN_VOTE | BTN_UP | BTN_DOWN | BTN_RESULTS
  | BTN_RESET_VOTES | BTN_CANDIDATE1 | BTN_CANDIDATE2 | BTN_CANDIDATE3.

(** ** Outcomes of a call *)

Inductive outcome (A : Type) : Type :=
  | Done (a : A)      (* the call returned *)
  | OutOfBounds       (* an array was indexed outside its declared size *)
  | NoInput           (* an undeadlined polling loop outlived its script *)
  | OutOfFuel.        (* a bounded loop did not finish within its bound *)
Arguments Done {A} a.
Arguments OutOfBounds {A}.
Arguments NoInput {A}.
Arguments OutOfFuel {A}.

Global Instance outcome_bind : MBind outcome := fun A B k m =>
  match m with
  | Done a => k a
  | OutOfBounds => OutOfBounds
  | NoInput => NoInput
  | OutOfFuel => OutOfFuel
  end.

(** ** The hardware state *)

(** What the LCD driver was asked to do, in order. *)
Inductive LcdOp : Type :=
  | Clear
  | SetCursor (col row : Z)
  | Print (s : string)
  | PrintNum (n : Z)
  | PrintHex (n : Z).

(** One iteration of [readResponse]'s loop: the bytes the sensor delivered
    into the receive buffer since the previous iteration, and the value of
    [millis() - startTime] the loop condition computes. *)
Record RxPoll : Type := { rx_arrived : list Z; rx_elapsed : Z }.

(** One iteration of a button-polling loop: elapsed time as above and the
    pins that read LOW (pressed; the inputs are pulled up). *)
Record KeyPoll : Type := { k_elapsed : Z; k_low : pin -> bool }.

Record World : Type := {
  eeprom : Z -> Z;              (* EEPROM cells *)
  vote1 : Z; vote2 : Z; vote3 : Z;
  totalFingerprints : Z;
  packet : list Z;              (* uint8_t packet[128] *)
  rxbuf : list Z;               (* bytes waiting in the receive buffer *)
  line : list (list RxPoll);    (* scripts of the coming readResponse calls *)
  sent : list (list Z);         (* frames written to the sensor, oldest first *)
  lcd : list LcdOp;             (* display operations, oldest first *)
  keys : list KeyPoll           (* script of the coming button polls *)
}.

Definition set_eeprom (e : Z -> Z) (w : World) : World :=
  {| eeprom := e; vote1 := vote1 w; vote2 := vote2 w; vote3 := vote3 w;
     totalFingerprints := totalFingerprints w; packet := packet w;
     rxbuf := rxbuf w; line := line w; sent := sent w; lcd := lcd w;
     keys := keys w |}.
Definition set_votes (v1 v2 v3 : Z) (w : World) : World :=
  {| eeprom := eeprom w; vote1 := v1; vote2 := v2; vote3 := v3;
     totalFingerprints := totalFingerprints w; packet := packet w;
     rxbuf := rxbuf w; line := line w; sent := sent w; lcd := lcd w;
     keys := keys w |}.
Definition set_totalFingerprints (n : Z) (w : World) : World :=
  {| eeprom := eeprom w; vote1 := vote1 w; vote2 := vote2 w; vote3 := vote3 w;
     totalFingerprints := n; packet := packet w;
     rxbuf := rxbuf w; line := line w; sent := sent w; lcd := lcd w;
     keys := keys w |}.
Definition set_packet (p : list Z) (w : World) : World :=
  {| eeprom := eeprom w; vote1 := vote1 w; vote2 := vote2 w; vote3 := vote3 w;
     totalFingerprints := totalFingerprints w; packet := p;
     rxbuf := rxbuf w; line := line w; sent := sent w; lcd := lcd w;
     keys := keys w |}.
Definition set_rxbuf (r : list Z) (w : World) : World :=
  {| eeprom := eeprom w; vote1 := vote1 w; vote2 := vote2 w; vote3 := vote3 w;
     totalFingerprints := totalFingerprints w; packet := packet w;
     rxbuf := r; line := line w; sent := sent w; lcd := lcd w;
     keys := keys w |}.
Definition set_line (l : list (list RxPoll)) (w : World) : World :=
  {| eeprom := eeprom w; vote1 := vote1 w; vote2 := vote2 w; vote3 := vote3 w;
     totalFingerprints := totalFingerprints w; packet := packet w;
     rxbuf := rxbuf w; line := l; sent := sent w; lcd := lcd w;
     keys := keys w |}.
Definition set_sent (s : list (list Z)) (w : World) : World :=
  {| eeprom := eeprom w; vote1 := vote1 w; vote2 := vote2 w; vote3 := vote3 w;
     totalFingerprints := totalFingerprints w; packet := packet w;
     rxbuf := rxbuf w; line := line w; sent := s; lcd := lcd w;
     keys := keys w |}.
Definition set_lcd (d : list LcdOp) (w : World) : World :=
  {| eeprom := eeprom w; vote1 := vote1 w; vote2 := vote2 w; vote3 := vote3 w;
     totalFingerprints := totalFingerprints w; packet := packet w;
     rxbuf := rxbuf w; line := line w; sent := sent w; lcd := d;
     keys := keys w |}.
Definition set_keys (k : list KeyPoll) (w : World) : World :=
  {| eeprom := eeprom w; vote1 := vote1 w; vote2 := vote2 w; vote3 := vote3 w;
     totalFingerprints := totalFingerprints w; packet := packet w;
     rxbuf := rxbuf w; line := line w; sent := sent w; lcd := lcd w;
     keys := k |}.

(** *** EEPROM *)

(** [EEPROM.read(a)] returns a [uint8_t]. *)
Definition EEPROM_read (e : Z -> Z) (a : Z) : Z := u8 (e a).
(** [EEPROM.write(a, v)] stores [v] converted to [uint8_t]. *)
Definition EEPROM_write (e : Z -> Z) (a v : Z) : Z -> Z :=
  fun a' => if Z.eqb a' a then u8 v else e a'.

(** Slot [i] of the voter registry. *)
Definition slot (e : Z -> Z) (i : nat) : Z :=
  EEPROM_read e (EEPROM_VOTED_START + Z.of_nat i).

(** *** LCD *)

Definition lcd_do (ops : list LcdOp) (w : World) : World :=
  set_lcd (lcd w ++ ops) w.

(** *** Serial line *)

(** [while (fingerSerial.available()) fingerSerial.read();] *)
Fixpoint drain_loop (rx : list Z) : list Z :=
  match rx with
  | [] => []
  | _ :: rx' => drain_loop rx'
  end.
Definition drain (w : World) : World := set_rxbuf (drain_loop (rxbuf w)) w.

(** ** PacketCodec *)

(** [packet[idx++] = v;] *)
Definition put (v : Z) (st : list Z * nat) : outcome (list Z * nat) :=
  let '(p, idx) := st in
  if (idx <? length p)%nat then Done (<[idx := u8 v]> p, S idx)
  else OutOfBounds.

(** [for (i = 0; i < dataLen; i++) packet[idx++] = data[i];] *)
Fixpoint put_all (data : list Z) (st : list Z * nat) : outcome (list Z * nat) :=
  match data with
  | [] => Done st
  | b :: data' => st' ← put b st; put_all data' st'
  end.

(** [for (i = 0; i < dataLen; i++) checksum += data[i];] on a [uint16_t]. *)
Fixpoint checksum_add (data : list Z) (checksum : Z) : Z :=
  match data with
  | [] => checksum
  | b :: data' => checksum_add data' (u16 (checksum + b))
  end.

(** The value of the local [checksum] when [sendCommand] stores it. *)
Definition packet_checksum (cmd : Z) (data : list Z) : Z :=
  let length := Z.of_nat (length data) + 3 in
  checksum_add data
    (u16 (PACKAGE_ID + Z.land (Z.shiftr length 8) 0xFF + Z.land length 0xFF + cmd)).

Definition sendCommand (cmd : Z) (data : list Z) (w : World) : outcome World :=
  let w := drain w in
  let st := (packet w, 0%nat) in
  st ← put HEADER_H st;
  st ← put HEADER_L st;
  st ← put 0xFF st;
  st ← put 0xFF st;
  st ← put 0xFF st;
  st ← put 0xFF st;
  st ← put PACKAGE_ID st;
  let length := Z.of_nat (length data) + 3 in
  st ← put (Z.land (Z.shiftr length 8) 0xFF) st;
  st ← put (Z.land length 0xFF) st;
  st ← put cmd st;
  st ← put_all data st;
  let checksum := packet_checksum cmd data in
  st ← put (Z.land (Z.shiftr checksum 8) 0xFF) st;
  '(p, idx) ← put (Z.land checksum 0xFF) st;
  (* fingerSerial.write(packet, idx) *)
  Done (set_sent (sent w ++ [take idx p]) (set_packet p w)).

(** The loop of [readResponse]; [buffer] is the caller's array. *)
Fixpoint readResponse_loop (polls : list RxPoll) (timeout : Z)
    (rx : list Z) (buffer : list Z) (idx : nat)
    : outcome (list Z * nat * list Z) :=
  match polls with
  | [] => Done (buffer, idx, rx)
  | p :: polls' =>
    let rx := rx ++ rx_arrived p in
    (* [timeout] is an [int] compared with an [unsigned long] *)
    if u32 (rx_elapsed p) <? u32 timeout then
      match rx with
      | b :: rx' =>
        if (idx <? length buffer)%nat then
          let buffer := <[idx := u8 b]> buffer in
          let idx := S idx in
          if (32 <=? idx)%nat then Done (buffer, idx, rx')
          else readResponse_loop polls' timeout rx' buffer idx
        else OutOfBounds
      | [] => readResponse_loop polls' timeout rx buffer idx
      end
    else Done (buffer, idx, rx)
  end.

(** The script of the next [readResponse] call; a line with no script left
    stays silent. *)
Definition next_polls (w : World) : list RxPoll * World :=
  (hd [] (line w), set_line (tail (line w)) w).

Definition readResponse (buffer : list Z) (timeout : Z) (w : World)
    : outcome (list Z * Z * World) :=
  let '(polls, w) := next_polls w in
  '(buffer, idx, rx) ← readResponse_loop polls timeout (rxbuf w) buffer 0;
  Done (buffer, Z.of_nat idx, set_rxbuf rx w).

(** ** SensorLink *)

(** A local [uint8_t response[n]]; its initial contents are indeterminate
    in C++ and every read below is of an index the call has written. *)
Definition local_array (n : nat) : list Z := replicate n 0.

(** [response[i]] *)
Definition at_ (response : list Z) (i : nat) : Z := response !!! i.

Fixpoint waitForFinger_loop (fuel : nat) (timeout : Z) (w : World)
    : outcome (bool * World) :=
  match fuel with
  | O => OutOfFuel
  | S fuel' =>
    if 0 <? timeout then
      let w := drain w in
      w ← sendCommand GET_IMAGE [] w;
      '(response, len, w) ← readResponse (local_array 32) 1000 w;
      if 12 <=? len then
        if at_ response 9 =? 0x00 then Done (true, w)
        else if at_ response 9 =? 0x02 then
          waitForFinger_loop fuel' (timeout - 1) w
        else waitForFinger_loop fuel' (timeout - 1) w
      else waitForFinger_loop fuel' (timeout - 1) w
    else Done (false, w)
  end.

(** The loop counter [timeout] bounds the number of iterations, so one more
    than its initial value is fuel enough (see [waitForFinger_returns]). *)
Definition waitForFinger (timeoutSeconds : Z) (w : World)
    : outcome (bool * World) :=
  let timeout := int16 (timeoutSeconds * 10) in
  waitForFinger_loop (S (Z.to_nat timeout)) timeout w.

Definition checkFinger (w : World) : outcome (bool * World) :=
  let w := drain w in
  w ← sendCommand GET_IMAGE [] w;
  '(response, len, w) ← readResponse (local_array 32) 500 w;
  Done ((12 <=? len) && (at_ response 9 =? 0x00), w).

Definition imageToTemplate (bufferID : Z) (w : World) : outcome (bool * World) :=
  let data := [u8 bufferID] in
  let w := drain w in
  w ← sendCommand IMAGE_TO_TZ data w;
  '(response, len, w) ← readResponse (local_array 64) 5000 w;
  if 12 <=? len then
    let confirmCode := at_ response 9 in
    let w :=
      if negb (confirmCode =? 0x00) then
        lcd_do
          (Clear ::
           (if confirmCode =? 0x06 then
              [Print "Too messy!"; SetCursor 0 1; Print "Clean sensor"]
            else if confirmCode =? 0x07 then
              [Print "Few features"; SetCursor 0 1; Print "Press harder"]
            else [Print "Error: 0x"; PrintHex confirmCode])) w
      else w in
    Done (confirmCode =? 0x00, w)
  else Done (false, w).

Definition createModel (w : World) : outcome (bool * World) :=
  w ← sendCommand CREATE_MODEL [] w;
  '(response, len, w) ← readResponse (local_array 32) 1000 w;
  Done ((12 <=? len) && (at_ response 9 =? 0x00), w).

Definition storeModel (id : Z) (w : World) : outcome (bool * World) :=
  let data := [0x01; u8 (Z.shiftr id 8); u8 (Z.land id 0xFF)] in
  w ← sendCommand STORE_MODEL data w;
  '(response, len, w) ← readResponse (local_array 32) 1000 w;
  Done ((12 <=? len) && (at_ response 9 =? 0x00), w).

Definition verifyPassword (w : World) : outcome (bool * World) :=
  let data := [0x00; 0x00; 0x00; 0x00] in
  w ← sendCommand VERIFY_PASSWORD data w;
  '(response, len, w) ← readResponse (local_array 32) 2000 w;
  Done ((12 <=? len) && (at_ response 9 =? 0x00), w).

(** [(response[10] << 8) | response[11]] as an [int]. *)
Definition be16 (response : list Z) (i : nat) : Z :=
  int16 (Z.lor (Z.shiftl (at_ response i) 8) (at_ response (S i))).

Definition getTemplateCount (w : World) : outcome (Z * World) :=
  w ← sendCommand GET_TEMPLATE_COUNT [] w;
  '(response, len, w) ← readResponse (local_array 32) 1000 w;
  if (14 <=? len) && (at_ response 9 =? 0x00) then Done (be16 response 10, w)
  else Done (0, w).

(** ** VoterRegistry: the loops over the 25 slots

    Each [for (int i = 0; i < MAX_FINGERPRINTS; i++)] loop is a recursion
    on the number [n] of slots still to visit, [i] being the loop index. *)

(** [enrollFingerprint], "Store this ID as not voted": the first slot that
    reads [0xFF] receives [id]; the spec's [allocate]. *)
Fixpoint allocate_from (n i : nat) (id : Z) (e : Z -> Z) : Z -> Z :=
  match n with
  | O => e
  | S n' =>
    if EEPROM_read e (EEPROM_VOTED_START + Z.of_nat i) =? 0xFF
    then EEPROM_write e (EEPROM_VOTED_START + Z.of_nat i) id
    else allocate_from n' (S i) id e
  end.
Definition allocate (id : Z) (e : Z -> Z) : Z -> Z :=
  allocate_from MAX_FINGERPRINTS 0 id e.

(** [deleteByID], "Remove from voted tracking": the first slot that reads
    [id] or [id | 0x80] is set to [0xFF]; the spec's [release]. *)
Fixpoint release_from (n i : nat) (id : Z) (e : Z -> Z) : Z -> Z :=
  match n with
  | O => e
  | S n' =>
    let storedVal := EEPROM_read e (EEPROM_VOTED_START + Z.of_nat i) in
    if (storedVal =? id) || (storedVal =? Z.lor id 0x80)
    then EEPROM_write e (EEPROM_VOTED_START + Z.of_nat i) 0xFF
    else release_from n' (S i) id e
  end.
Definition release (id : Z) (e : Z -> Z) : Z -> Z :=
  release_from MAX_FINGERPRINTS 0 id e.

(** [verifyAndVote], "Check if already voted". *)
Fixpoint alreadyVoted_from (n i : nat) (matchID : Z) (e : Z -> Z) : bool :=
  match n with
  | O => false
  | S n' =>
    if EEPROM_read e (EEPROM_VOTED_START + Z.of_nat i) =? Z.lor matchID 0x80
    then true
    else alreadyVoted_from n' (S i) matchID e
  end.
Definition alreadyVoted (matchID : Z) (e : Z -> Z) : bool :=
  alreadyVoted_from MAX_FINGERPRINTS 0 matchID e.

Fixpoint markAsVoted_from (n i : nat) (id : Z) (e : Z -> Z) : Z -> Z :=
  match n with
  | O => e
  | S n' =>
    let storedVal := EEPROM_read e (EEPROM_VOTED_START + Z.of_nat i) in
    if storedVal =? id
    then EEPROM_write e (EEPROM_VOTED_START + Z.of_nat i) (Z.lor id 0x80)
    else markAsVoted_from n' (S i) id e
  end.
Definition markAsVoted (id : Z) (w : World) : World :=
  set_eeprom (markAsVoted_from MAX_FINGERPRINTS 0 id (eeprom w)) w.

(** [resetVotesOnly], "Reset has-voted flags for all enrolled users". *)
Fixpoint clearFlags_from (n i : nat) (e : Z -> Z) : Z -> Z :=
  match n with
  | O => e
  | S n' =>
    let currentVal := EEPROM_read e (EEPROM_VOTED_START + Z.of_nat i) in
    let e :=
      if negb (currentVal =? 0xFF) then
        let idOnly := Z.land currentVal 0x7F in
        EEPROM_write e (EEPROM_VOTED_START + Z.of_nat i) idOnly
      else e in
    clearFlags_from n' (S i) e
  end.

(** [resetSystem]: every slot is written [0xFF]. *)
Fixpoint wipe_from (n i : nat) (e : Z -> Z) : Z -> Z :=
  match n with
  | O => e
  | S n' => wipe_from n' (S i) (EEPROM_write e (EEPROM_VOTED_START + Z.of_nat i) 0xFF)
  end.

Definition zero_tallies (e : Z -> Z) : Z -> Z :=
  EEPROM_write (EEPROM_write (EEPROM_write e EEPROM_VOTE1 0) EEPROM_VOTE2 0)
    EEPROM_VOTE3 0.

Definition resetVotesOnly (w : World) : World :=
  let w := lcd_do [Clear; Print "Resetting Votes"; SetCursor 0 1;
                   Print "Please wait..."] w in
  let w := set_eeprom (zero_tallies (eeprom w)) w in
  let w := set_eeprom (clearFlags_from MAX_FINGERPRINTS 0 (eeprom w)) w in
  let w := set_votes 0 0 0 w in
  lcd_do [Clear; Print "Votes Reset!"; SetCursor 0 1;
          Print "Users can revote"] w.

Definition resetSystem (w : World) : World :=
  let w := lcd_do [Clear; Print "System Reset"; SetCursor 0 1;
                   Print "Please wait..."] w in
  let w := set_eeprom (zero_tallies (eeprom w)) w in
  let w := set_eeprom (wipe_from MAX_FINGERPRINTS 0 (eeprom w)) w in
  let w := set_votes 0 0 0 w in
  lcd_do [Clear; Print "Reset Complete"; SetCursor 0 1;
          Print "Restarting..."] w.

(** ** VotingWorkflow *)

Definition vote_recorded (candidate : string) : list LcdOp :=
  [Clear; Print "Vote Recorded!"; SetCursor 0 1; Print candidate].

Definition vote_timeout : list LcdOp :=
  [Clear; Print "Vote Timeout"; SetCursor 0 1; Print "Cancelled"].

(** The loop of [castVote]; one [KeyPoll] per iteration. *)
Fixpoint castVote_loop (ks : list KeyPoll) (voterID : Z) (w : World) : World :=
  match ks with
  | [] => lcd_do vote_timeout (set_keys [] w)
  | k :: ks' =>
    let w := set_keys ks' w in
    if u32 (k_elapsed k) <? 15000 then
      if k_low k BTN_CANDIDATE1 then
        let w := set_votes (int16 (vote1 w + 1)) (vote2 w) (vote3 w) w in
        let w := set_eeprom (EEPROM_write (eeprom w) EEPROM_VOTE1 (vote1 w)) w in
        let w := markAsVoted voterID w in
        lcd_do (vote_recorded "Candidate 1") w
      else if k_low k BTN_CANDIDATE2 then
        let w := set_votes (vote1 w) (int16 (vote2 w + 1)) (vote3 w) w in
        let w := set_eeprom (EEPROM_write (eeprom w) EEPROM_VOTE2 (vote2 w)) w in
        let w := markAsVoted voterID w in
        lcd_do (vote_recorded "Candidate 2") w
      else if k_low k BTN_CANDIDATE3 then
        let w := set_votes (vote1 w) (vote2 w) (int16 (vote3 w + 1)) w in
        let w := set_eeprom (EEPROM_write (eeprom w) EEPROM_VOTE3 (vote3 w)) w in
        let w := markAsVoted voterID w in
        lcd_do (vote_recorded "Candidate 3") w
      else castVote_loop ks' voterID w
    else lcd_do vote_timeout w
  end.

Definition vote_prompt : list LcdOp :=
  [Clear; Print "Vote:"; SetCursor 0 1; Print "C1   C2   C3"].

Definition castVote (voterID : Z) (w : World) : World :=
  let w := lcd_do vote_prompt w in
  castVote_loop (keys w) voterID w.

Definition already_voted_msg (matchID : Z) : list LcdOp :=
  [Clear; Print "Already Voted!"; SetCursor 0 1; Print "ID: "; PrintNum matchID].

(** [verifyAndVote], the branch [len >= 16 && response[9] == 0x00]. *)
Definition verifyAndVote_match (response : list Z) (w : World) : World :=
  let matchID := be16 response 10 in
  let confidence := be16 response 12 in
  if alreadyVoted matchID (eeprom w) then
    lcd_do (already_voted_msg matchID) w
  else
    let w := lcd_do [Clear; Print "Authorized!"; SetCursor 0 1; Print "ID:";
                     PrintNum matchID; Print " C:"; PrintNum confidence] w in
    castVote matchID w.

(** [verifyAndVote] up to and including the search exchange: [None] when
    the function has returned early, else the search response. *)
Definition verifyAndVote_search (w : World)
    : outcome (option (list Z * Z) * World) :=
  let w := lcd_do [Clear; Print "Place finger"; SetCursor 0 1;
                   Print "to verify..."] w in
  let w := drain w in
  '(found, w) ← waitForFinger 15 w;
  if negb found then Done (None, lcd_do [Clear; Print "Timeout!"] w)
  else
    let w := lcd_do [Clear; Print "Verifying..."; SetCursor 0 1;
                     Print "Please wait..."] w in
    '(ok, w) ← imageToTemplate 1 w;
    if negb ok then
      Done (None, lcd_do [Clear; Print "Scan error!"; SetCursor 0 1;
                          Print "Try again"] w)
    else
      let w := lcd_do [Clear; Print "Searching..."] w in
      let w := drain w in
      let searchData := [0x01; 0x00; 0x00; 0x00; 0x7F] in
      w ← sendCommand SEARCH searchData w;
      '(response, len, w) ← readResponse (local_array 32) 3000 w;
      Done (Some (response, len), w).

Definition verifyAndVote (w : World) : outcome World :=
  '(found, w) ← verifyAndVote_search w;
  match found with
  | None => Done w
  | Some (response, len) =>
    if (16 <=? len) && (at_ response 9 =? 0x00) then
      Done (verifyAndVote_match response w)
    else
      Done (lcd_do [Clear; Print "Not Authorized"; SetCursor 0 1;
                    Print "Enroll first!"] w)
  end.

(** The ID selection loop shared (as two textual copies) by
    [enrollFingerprint] and [deleteByID]: [confirm] leaves the loop with
    the chosen ID, [cancel] returns from the workflow.  The loop has no
    deadline. *)
Fixpoint selectID_loop (ks : list KeyPoll) (confirm cancel : pin) (id : Z)
    (w : World) : outcome (option Z * World) :=
  match ks with
  | [] => NoInput
  | k :: ks' =>
    let w := set_keys ks' w in
    let w := lcd_do [SetCursor 0 1; Print "ID: "; PrintNum id; Print "    "] w in
    let id :=
      if k_low k BTN_UP then
        let id := id + 1 in
        if Z.of_nat MAX_FINGERPRINTS <? id then 1 else id
      else id in
    let id :=
      if k_low k BTN_DOWN then
        let id := id - 1 in
        if id <? 1 then Z.of_nat MAX_FINGERPRINTS else id
      else id in
    if k_low k confirm then Done (Some id, w)
    else if k_low k cancel then Done (None, w)
    else selectID_loop ks' confirm cancel id w
  end.

Definition selectID (confirm cancel : pin) (w : World)
    : outcome (option Z * World) :=
  selectID_loop (keys w) confirm cancel 1 w.

(** [deleteByID] from "Deleting ID:" on, for the selected [id]. *)
Definition deleteByID_id (id : Z) (w : World) : outcome World :=
  let w := lcd_do [Clear; Print "Deleting ID:"; PrintNum id] w in
  let deleteData := [u8 (Z.shiftr id 8); u8 (Z.land id 0xFF); 0x00; 0x01] in
  w ← sendCommand DELETE_MODEL deleteData w;
  '(response, len, w) ← readResponse (local_array 32) 1000 w;
  let w :=
    if (12 <=? len) && (at_ response 9 =? 0x00) then
      let w := set_eeprom (release id (eeprom w)) w in
      lcd_do [Clear; Print "Deleted!"; SetCursor 0 1; Print "ID: "; PrintNum id] w
    else lcd_do [Clear; Print "Delete failed!"] w in
  '(count, w) ← getTemplateCount w;
  Done (set_totalFingerprints count w).

Definition deleteByID (w : World) : outcome World :=
  let w := lcd_do [Clear; Print "Delete ID:"] w in
  '(sel, w) ← selectID BTN_DELETE BTN_ENROLL w;
  match sel with
  | None => Done w
  | Some id => deleteByID_id id w
  end.

(** [while (checkFinger()) delay(100);]  Every probe consumes one script
    of the line and a line without scripts is silent, so the number of
    scripts left bounds the iterations. *)
Fixpoint while_checkFinger (fuel : nat) (w : World) : outcome World :=
  match fuel with
  | O => OutOfFuel
  | S fuel' =>
    '(finger, w) ← checkFinger w;
    if (finger : bool) then while_checkFinger fuel' w else Done w
  end.
Definition await_removal (w : World) : outcome World :=
  while_checkFinger (S (length (line w))) w.

Definition try_n_of_3 (attempts : Z) : list LcdOp :=
  [Clear; Print "Try "; PrintNum (attempts + 1); Print " of 3"].

(** First capture of [enrollFingerprint]:
    [while (attempts < 3 && !success)].  [None]: the workflow returned on
    a timeout; [Some success] otherwise. *)
Fixpoint capture_first (fuel : nat) (attempts : Z) (w : World)
    : outcome (option bool * World) :=
  match fuel with
  | O => OutOfFuel
  | S fuel' =>
    if attempts <? 3 then
      '(found, w) ← waitForFinger 10 w;
      if (found : bool) then
        let w := lcd_do [Clear; Print "Hold steady..."] w in
        '(ok, w) ← imageToTemplate 1 w;
        if (ok : bool) then Done (Some true, w)
        else
          let attempts := attempts + 1 in
          let w := lcd_do (try_n_of_3 attempts) w in
          w ← await_removal w;
          let w := if attempts <? 3 then lcd_do [Clear; Print "Place finger"] w
                   else w in
          capture_first fuel' attempts w
      else Done (None, lcd_do [Clear; Print "Timeout!"] w)
    else Done (Some false, w)
  end.

(** Second capture: as the first, with [waitForFinger(15)], template
    buffer 2 and a drain after the failed attempt. *)
Fixpoint capture_second (fuel : nat) (attempts : Z) (w : World)
    : outcome (option bool * World) :=
  match fuel with
  | O => OutOfFuel
  | S fuel' =>
    if attempts <? 3 then
      '(found, w) ← waitForFinger 15 w;
      if (found : bool) then
        let w := lcd_do [Clear; Print "Hold steady..."] w in
        '(ok, w) ← imageToTemplate 2 w;
        if (ok : bool) then Done (Some true, w)
        else
          let attempts := attempts + 1 in
          let w := lcd_do (try_n_of_3 attempts) w in
          w ← await_removal w;
          let w := drain w in
          let w := if attempts <? 3 then
                     lcd_do [Clear; Print "Place SAME"; SetCursor 0 1;
                             Print "finger again"] w
                   else w in
          capture_second fuel' attempts w
      else Done (None, lcd_do [Clear; Print "Timeout!"] w)
    else Done (Some false, w)
  end.

(** [while (checkFinger() && removeAttempts < 50)] *)
Fixpoint remove_finger (fuel : nat) (removeAttempts : Z) (w : World)
    : outcome (Z * World) :=
  match fuel with
  | O => OutOfFuel
  | S fuel' =>
    '(finger, w) ← checkFinger w;
    if (finger : bool) && (removeAttempts <? 50)
    then remove_finger fuel' (removeAttempts + 1) w
    else Done (removeAttempts, w)
  end.

Definition enroll_success (id : Z) : list LcdOp :=
  [Clear; Print "SUCCESS!"; SetCursor 0 1; Print "ID: "; PrintNum id].

(** [enrollFingerprint] from "Processing..." on: merge the two templates,
    store the model at [id], record [id] in the registry. *)
Definition enrollFingerprint_store (id : Z) (w : World) : outcome World :=
  let w := lcd_do [Clear; Print "Processing..."] w in
  '(ok, w) ← createModel w;
  if negb ok then Done (lcd_do [Clear; Print "Mismatch!"] w)
  else
    let w := lcd_do [Clear; Print "Storing..."] w in
    '(ok, w) ← storeModel id w;
    if negb ok then Done (lcd_do [Clear; Print "Store failed!"] w)
    else
      let w := set_eeprom (allocate id (eeprom w)) w in
      let w := lcd_do (enroll_success id) w in
      '(count, w) ← getTemplateCount w;
      Done (set_totalFingerprints count w).

Definition enrollFingerprint (w : World) : outcome World :=
  let w := lcd_do [Clear; Print "Select ID:"] w in
  '(sel, w) ← selectID BTN_ENROLL BTN_DELETE w;
  match sel with
  | None => Done w
  | Some id =>
    let w := lcd_do [Clear; Print "Enrolling ID:"; PrintNum id; SetCursor 0 1;
                     Print "Place finger"] w in
    '(captured, w) ← capture_first 4 0 w;
    match captured with
    | None => Done w
    | Some false => Done (lcd_do [Clear; Print "Failed!"] w)
    | Some true =>
      let w := lcd_do [Clear; Print "Image OK!"; SetCursor 0 1;
                       Print "Remove finger"] w in
      '(removeAttempts, w) ← remove_finger 51 0 w;
      if 50 <=? removeAttempts then
        Done (lcd_do [Clear; Print "Remove finger!"] w)
      else
        let w := drain w in
        let w := lcd_do [Clear; Print "Place SAME"; SetCursor 0 1;
                         Print "finger again"] w in
        '(captured, w) ← capture_second 4 0 w;
        match captured with
        | None => Done w
        | Some false => Done (lcd_do [Clear; Print "Failed!"] w)
        | Some true => enrollFingerprint_store id w
        end
    end
  end.

(** ** Fixtures: a factory-fresh device and sensor replies *)

(** Erased EEPROM (every cell reads [0xFF]), tallies as [setup] loads them
    from it, zero-initialised globals, nothing scripted. *)
Definition world0 : World :=
  {| eeprom := fun _ => 0xFF; vote1 := 0; vote2 := 0; vote3 := 0;
     totalFingerprints := 0; packet := replicate PACKET_SIZE 0;
     rxbuf := []; line := []; sent := []; lcd := []; keys := [] |}.

(** A poll script that delivers [frame] at once and lets the loop read it
    byte by byte before the deadline passes. *)
Definition deliver (frame : list Z) : list RxPoll :=
  {| rx_arrived := frame; rx_elapsed := 0 |}
  :: replicate (length frame) {| rx_arrived := []; rx_elapsed := 1 |}.

(** The sensor's 12-byte acknowledge packet with confirmation [code]. *)
Definition ack (code : Z) : list Z :=
  [0xEF; 0x01; 0xFF; 0xFF; 0xFF; 0xFF; 0x07; 0x00; 0x03; code;
   0x00; u8 (0x0A + code)].

(** The sensor's 16-byte search reply: match [id] with score [score]. *)
Definition search_reply (code id score : Z) : list Z :=
  [0xEF; 0x01; 0xFF; 0xFF; 0xFF; 0xFF; 0x07; 0x00; 0x07; code;
   Z.shiftr id 8; Z.land id 0xFF; Z.shiftr score 8; Z.land score 0xFF;
   0x00; u8 (0x0E + code + id + score)].

(** One button held LOW for one poll at elapsed time [t]. *)
Definition press (t : Z) (p : pin) : KeyPoll :=
  {| k_elapsed := t;
     k_low := fun q => match p, q with
                       | BTN_ENROLL, BTN_ENROLL | BTN_DELETE, BTN_DELETE
                       | BTN_VOTE, BTN_VOTE | BTN_UP, BTN_UP
                       | BTN_DOWN, BTN_DOWN | BTN_RESULTS, BTN_RESULTS
                       | BTN_RESET_VOTES, BTN_RESET_VOTES
                       | BTN_CANDIDATE1, BTN_CANDIDATE1
                       | BTN_CANDIDATE2, BTN_CANDIDATE2
                       | BTN_CANDIDATE3, BTN_CANDIDATE3 => true
                       | _, _ => false
                       end |}.

(** ** Vocabulary of the statements *)

(** A 16-bit value as two bytes, most significant first. *)
Definition be16_bytes (z : Z) : list Z := [z `div` 256; z `mod` 256].

Definition sum_bytes (l : list Z) : Z := foldr Z.add 0 l.

(** The frame [sendCommand] is to put on the wire. *)
Definition frame_of (cmd : Z) (data : list Z) : list Z :=
  [HEADER_H; HEADER_L] ++ [0xFF; 0xFF; 0xFF; 0xFF] ++ [PACKAGE_ID]
  ++ be16_bytes (Z.of_nat (length data) + 3) ++ [cmd] ++ data
  ++ be16_bytes (packet_checksum cmd data).

(** The checksum as the specification words it: the 16-bit sum of the
    length bytes, the command byte and the payload, the packet-type byte
    left out. *)
Definition spec_checksum (cmd : Z) (data : list Z) : Z :=
  u16 (sum_bytes (be16_bytes (Z.of_nat (length data) + 3) ++ [cmd] ++ data)).

(** [quiet w w']: going from [w] to [w'] touched neither the persistent
    store nor the tallies, the display or the button script, and kept the
    size of [packet].  It is what every sensor exchange guarantees. *)
Definition quiet (w w' : World) : Prop :=
  eeprom w' = eeprom w ∧ vote1 w' = vote1 w ∧ vote2 w' = vote2 w
  ∧ vote3 w' = vote3 w ∧ totalFingerprints w' = totalFingerprints w
  ∧ lcd w' = lcd w ∧ keys w' = keys w
  ∧ length (packet w') = length (packet w).

(** What [readResponse] gets out of one poll script when the receive
    buffer was empty at the start (every command drains it first) and the
    caller passes a fresh local array of [n] bytes: the filled array and
    the byte count. *)
Definition reply (n : nat) (polls : list RxPoll) (timeout : Z) : list Z * Z :=
  match readResponse_loop polls timeout [] (local_array n) 0 with
  | Done (response, idx, _) => (response, Z.of_nat idx)
  | _ => (local_array n, 0)
  end.

(** The script the next [readResponse] call will consume. *)
Definition coming (w : World) : list RxPoll := (next_polls w).1.

(** The test every caller applies to a plain acknowledge:
    [len >= 12 && response[9] == 0x00]. *)
Definition confirmed (r : list Z * Z) : bool :=
  (12 <=? r.2) && (at_ r.1 9 =? 0x00).

(** The frame of a "get image" command. *)
Definition get_image_frame : list Z := frame_of GET_IMAGE [].

(** A transport that never returns a success code to "get image": no
    script of the line makes [readResponse(response, 1000)] deliver 12 or
    more bytes with confirmation [0x00].  (The reply may be the no-finger
    code [0x02], any other code, or too short.) *)
Definition never_confirms (l : list (list RxPoll)) : Prop :=
  Forall (fun polls => confirmed (reply 32 polls 1000) = false) l.

(** A sensor with no finger on it: replies of every failing kind (the
    no-finger code, another error code, a truncated packet, silence), more
    of them than one second of polling consumes. *)
Definition no_finger_line : list (list RxPoll) :=
  [deliver (ack 0x02); deliver (ack 0x02); deliver (ack 0x03); [];
   deliver (take 5 (ack 0x00)); deliver (ack 0x02); deliver (ack 0x01);
   deliver (ack 0x02); []; deliver (ack 0x02); deliver (ack 0x02);
   deliver (ack 0x02)].

(** ** Vocabulary for the registry *)

(** The common shape of the loops that stop at the first matching slot:
    the first of the slots [i .. i + n - 1] whose value passes [test] is
    overwritten with [v]. *)
Fixpoint update_first (test : Z -> bool) (v : Z) (n i : nat) (e : Z -> Z)
    : Z -> Z :=
  match n with
  | O => e
  | S n' =>
    if test (slot e i) then EEPROM_write e (EEPROM_VOTED_START + Z.of_nat i) v
    else update_first test v n' (S i) e
  end.

Definition Empty : Z := 0xFF.

(** The fingerprint ID a slot value carries in its low seven bits. *)
Definition id_of (v : Z) : Z := Z.land v 0x7F.
(** The voted flag, bit 7. *)
Definition voted (v : Z) : bool := Z.testbit v 7.

(** No two non-Empty slots hold the same ID. *)
Definition unique_ids (e : Z -> Z) : Prop :=
  ∀ i j : nat, (i < MAX_FINGERPRINTS)%nat → (j < MAX_FINGERPRINTS)%nat →
    slot e i ≠ Empty → slot e j ≠ Empty →
    id_of (slot e i) = id_of (slot e j) → i = j.

(** Every slot is non-Empty. *)
Definition registry_full (e : Z -> Z) : Prop :=
  ∀ i : nat, (i < MAX_FINGERPRINTS)%nat → slot e i ≠ Empty.

(** The three tallies, in RAM and in EEPROM. *)
Definition tallies (w : World) : list Z :=
  [vote1 w; vote2 w; vote3 w;
   EEPROM_read (eeprom w) EEPROM_VOTE1; EEPROM_read (eeprom w) EEPROM_VOTE2;
   EEPROM_read (eeprom w) EEPROM_VOTE3].

(** The 25 registry slots. *)
Definition registry (e : Z -> Z) : list Z :=
  slot e <$> seq 0 MAX_FINGERPRINTS.

(** The script the [k]-th coming [readResponse] call will consume. *)
Definition script (k : nat) (w : World) : list RxPoll :=
  hd [] (drop k (line w)).

(** A device on which ID 5 is enrolled and has not voted, ID 7 is enrolled
    and has voted, and candidates 1 and 3 have one vote each. *)
Definition world_voted : World :=
  set_votes 1 0 1
    (set_eeprom
       (fun a => if a =? 0 then 1 else if a =? 1 then 0 else if a =? 2 then 1
                 else if a =? 10 then 5 else if a =? 11 then 0x87 else 0xFF)
       world0).

(** The sensor's 14-byte reply to "get template count". *)
Definition count_reply (count : Z) : list Z :=
  [0xEF; 0x01; 0xFF; 0xFF; 0xFF; 0xFF; 0x07; 0x00; 0x05; 0x00;
   Z.shiftr count 8; Z.land count 0xFF; 0x00; u8 (0x0C + count)].

(** A registry filled by enrolling ID 1 twenty-five times over. *)
Definition eeprom_full : Z -> Z :=
  Nat.iter 25 (allocate 1) (eeprom world0).

(** An enrollment of ID 2 on that registry that the sensor accepts at
    every step: UP then ENROLL; finger found, template 1; finger lifted;
    finger found, template 2; merge; store; template count. *)
Definition world_full_enroll : World :=
  set_keys [press 0 BTN_UP; press 0 BTN_ENROLL]
    (set_line [deliver (ack 0x00); deliver (ack 0x00); deliver (ack 0x02);
               deliver (ack 0x00); deliver (ack 0x00); deliver (ack 0x00);
               deliver (ack 0x00); deliver (count_reply 2)]
       (set_eeprom eeprom_full world0)).

(** The same enrollment on a factory-fresh device. *)
Definition world_fresh_enroll : World :=
  set_eeprom (eeprom world0) world_full_enroll.

(** The display operations a run added after those of the state it
    started from. *)
Definition shown_since (w w' : World) : list LcdOp :=
  drop (length (lcd w)) (lcd w').

(** Some non-Empty slot holds the ID [id] (in its low seven bits). *)
Definition holds (e : Z -> Z) (id : Z) : Prop :=
  ∃ i : nat, (i < MAX_FINGERPRINTS)%nat ∧ slot e i ≠ Empty
             ∧ id_of (slot e i) = id_of id.

(** The registry operations of the workflows. *)
Inductive reg_op : Type :=
  | Allocate (id : Z)     (* enrollment *)
  | Release (id : Z)      (* deletion *)
  | MarkVoted (id : Z).   (* vote cast *)

Definition apply_op (e : Z -> Z) (o : reg_op) : Z -> Z :=
  match o with
  | Allocate id => allocate id e
  | Release id => release id e
  | MarkVoted id => markAsVoted_from MAX_FINGERPRINTS 0 id e
  end.

Definition run_ops (ops : list reg_op) (e : Z -> Z) : Z -> Z :=
  foldl apply_op e ops.

(** No ID is allocated while a slot holds it. *)
Fixpoint allocates_fresh (ops : list reg_op) (e : Z -> Z) : Prop :=
  match ops with
  | [] => True
  | o :: ops' =>
    match o with Allocate id => ¬ holds e id | _ => True end
    ∧ allocates_fresh ops' (apply_op e o)
  end.

(** [holds], decided by looking at the 25 slots. *)
Definition holdsb (e : Z -> Z) (id : Z) : bool :=
  existsb (fun i => negb (slot e i =? Empty) && (id_of (slot e i) =? id_of id))
    (seq 0 MAX_FINGERPRINTS).

(** A deletion of ID 7 on [world_voted] that the sensor refuses
    (confirmation [0x10]): DELETE is pressed after six presses of UP. *)
Definition world_delete_refused : World :=
  set_keys (replicate 6 (press 0 BTN_UP) ++ [press 0 BTN_DELETE])
    (set_line [deliver (ack 0x10); deliver (count_reply 2)] world_voted).

(** The same deletion, confirmed by the sensor. *)
Definition world_delete_confirmed : World :=
  set_line [deliver (ack 0x00); deliver (count_reply 1)] world_delete_refused.

(** No slot reads [id], with the voted bit clear or set. *)
Definition unregistered (id : Z) (e : Z -> Z) : Prop :=
  ∀ i : nat, (i < MAX_FINGERPRINTS)%nat →
    slot e i ≠ id ∧ slot e i ≠ Z.lor id 0x80.

(** The candidate [castVote] records for a button script: the first
    candidate button found LOW before the 15 s deadline, buttons being
    looked at in the order 1, 2, 3 within one poll. *)
Fixpoint selected (ks : list KeyPoll) : option nat :=
  match ks with
  | [] => None
  | k :: ks' =>
    if u32 (k_elapsed k) <? 15000 then
      if k_low k BTN_CANDIDATE1 then Some 1%nat
      else if k_low k BTN_CANDIDATE2 then Some 2%nat
      else if k_low k BTN_CANDIDATE3 then Some 3%nat
      else selected ks'
    else None
  end.

(** The tallies after one more vote for candidate [c]: the RAM counter is
    incremented as an [int] and its low byte is written to its cell. *)
Definition tallies_voted (c : nat) (w : World) : list Z :=
  match c with
  | 1%nat => [int16 (vote1 w + 1); vote2 w; vote3 w;
              u8 (int16 (vote1 w + 1)); EEPROM_read (eeprom w) EEPROM_VOTE2;
              EEPROM_read (eeprom w) EEPROM_VOTE3]
  | 2%nat => [vote1 w; int16 (vote2 w + 1); vote3 w;
              EEPROM_read (eeprom w) EEPROM_VOTE1; u8 (int16 (vote2 w + 1));
              EEPROM_read (eeprom w) EEPROM_VOTE3]
  | _ => [vote1 w; vote2 w; int16 (vote3 w + 1);
          EEPROM_read (eeprom w) EEPROM_VOTE1;
          EEPROM_read (eeprom w) EEPROM_VOTE2; u8 (int16 (vote3 w + 1))]
  end.

(** What [verifyAndVote] displays up to the search. *)
Definition verify_progress : list LcdOp :=
  [Clear; Print "Place finger"; SetCursor 0 1; Print "to verify..."]
  ++ [Clear; Print "Verifying..."; SetCursor 0 1; Print "Please wait..."]
  ++ [Clear; Print "Searching..."].

(** What [verifyAndVote] displays on an eligible match. *)
Definition authorized_msg (response : list Z) : list LcdOp :=
  [Clear; Print "Authorized!"; SetCursor 0 1; Print "ID:";
   PrintNum (be16 response 10); Print " C:"; PrintNum (be16 response 12)].

(** What [castVote] displays when it leaves its loop. *)
Definition vote_outcome_msg (sel : option nat) : list LcdOp :=
  match sel with
  | Some 1%nat => vote_recorded "Candidate 1"
  | Some 2%nat => vote_recorded "Candidate 2"
  | Some _ => vote_recorded "Candidate 3"
  | None => vote_timeout
  end.

(** A voting attempt on [world_voted] in which the sensor matches ID 7
    (enrolled, has voted) with score 100, candidate 2 being pressed. *)
Definition world_vote_7 : World :=
  set_keys [press 10 BTN_CANDIDATE2]
    (set_line [deliver (ack 0x00); deliver (ack 0x00);
               deliver (search_reply 0x00 7 100)] world_voted).

(** The same attempt with a match of ID 9, which the sensor knows and
    the registry does not. *)
Definition world_vote_9 : World :=
  set_line [deliver (ack 0x00); deliver (ack 0x00);
            deliver (search_reply 0x00 9 100)] world_vote_7.

(** Later voting attempts in which the search returns the same response:
    one button script per attempt. *)
Definition vote_again (response : list Z) (w : World) (ks : list KeyPoll)
    : World :=
  verifyAndVote_match response (set_keys ks w).
Definition revote (response : list Z) (sessions : list (list KeyPoll))
    (w : World) : World :=
  foldl (vote_again response) w sessions.

(** [calm w w']: as [quiet], the display left aside. *)
Definition calm (w w' : World) : Prop :=
  eeprom w' = eeprom w ∧ vote1 w' = vote1 w ∧ vote2 w' = vote2 w
  ∧ vote3 w' = vote3 w ∧ keys w' = keys w
  ∧ length (packet w') = length (packet w).

(** ** The remaining functions of the sketch: display, start-up, main loop *)

Definition showMainMenu (w : World) : World :=
  lcd_do [Clear; SetCursor 0 0; Print "Enrolled: ";
          PrintNum (totalFingerprints w); SetCursor 0 1;
          Print "E-D-V-R Ready"] w.

(** What [showResults] displays last: the tie or the winner. *)
Definition verdict (v1 v2 v3 : Z) : list LcdOp :=
  let maxVotes := Z.max v1 (Z.max v2 v3) in
  let winnerCount := 0 in
  let winnerCount := if v1 =? maxVotes then winnerCount + 1 else winnerCount in
  let winnerCount := if v2 =? maxVotes then winnerCount + 1 else winnerCount in
  let winnerCount := if v3 =? maxVotes then winnerCount + 1 else winnerCount in
  Clear ::
  (if 1 <? winnerCount then
     [Print "Tie!"; SetCursor 0 1; Print "No clear winner"]
   else
     [Print "Winner:"; SetCursor 0 1]
     ++ (if v1 =? maxVotes then [Print "Candidate 1"]
         else if v2 =? maxVotes then [Print "Candidate 2"]
         else if v3 =? maxVotes then [Print "Candidate 3"]
         else [])).

Definition showResults (w : World) : World :=
  let w := lcd_do [Clear; Print "Results:"; SetCursor 0 1; Print "C1:";
                   PrintNum (vote1 w); Print " C2:"; PrintNum (vote2 w);
                   Print " C3:"; PrintNum (vote3 w)] w in
  let totalVotes := int16 (int16 (vote1 w + vote2 w) + vote3 w) in
  if totalVotes =? 0 then lcd_do [Clear; Print "No votes yet!"] w
  else
    let w := lcd_do [Clear; Print "Total: "; PrintNum totalVotes; Print "/";
                     PrintNum (totalFingerprints w)] w in
    lcd_do (verdict (vote1 w) (vote2 w) (vote3 w)) w.

(** [digitalRead(p) == LOW], sampled once: one element of the button
    script.  Without a sample the outcome is [NoInput]. *)
Definition pin_low (p : pin) (w : World) : outcome (bool * World) :=
  match keys w with
  | [] => NoInput
  | k :: ks => Done (k_low k p, set_keys ks w)
  end.

(** [while (digitalRead(p) == LOW) delay(10);] *)
Fixpoint wait_release_loop (ks : list KeyPoll) (p : pin) (w : World)
    : outcome World :=
  match ks with
  | [] => NoInput
  | k :: ks' =>
    let w := set_keys ks' w in
    if k_low k p then wait_release_loop ks' p w else Done w
  end.
Definition wait_release (p : pin) (w : World) : outcome World :=
  wait_release_loop (keys w) p w.

(** [setup], "Check for full system reset": up to 20 samples of RESULTS;
    the first HIGH one withdraws the request. *)
Fixpoint reset_requested (n : nat) (w : World) : outcome (bool * World) :=
  match n with
  | O => Done (true, w)
  | S n' =>
    '(low, w) ← pin_low BTN_RESULTS w;
    if (low : bool) then reset_requested n' w else Done (false, w)
  end.

(** [setup], the sensor test: up to 6 attempts, [i] counting from 0. *)
Fixpoint test_sensor (n : nat) (i : Z) (w : World) : outcome (bool * World) :=
  match n with
  | O => Done (false, w)
  | S n' =>
    let w := lcd_do [SetCursor 0 1; Print "Attempt "; PrintNum (i + 1);
                     Print "     "] w in
    '(ok, w) ← verifyPassword w;
    if (ok : bool) then
      Done (true, lcd_do [SetCursor 0 1; Print "Sensor OK!      "] w)
    else test_sensor n' (i + 1) w
  end.

(** How [setup] ends: it returns, or it stays in [while(1);] for good. *)
Inductive boot : Type :=
  | Ready (w : World)
  | Halted (w : World).

(** [EEPROM.read] of a tally cell as [setup] loads it: an erased cell
    counts as zero. *)
Definition load_vote (e : Z -> Z) (a : Z) : Z :=
  let v := EEPROM_read e a in
  if v =? 0xFF then 0 else v.

(** [setup]; [Serial.begin], [pinMode], [lcd.begin] and
    [fingerSerial.begin] configure hardware this model has no state for. *)
Definition setup (w : World) : outcome boot :=
  let w := lcd_do [Clear; SetCursor 0 0; Print "Fingerprint"; SetCursor 0 1;
                   Print "Voting System"] w in
  '(resetRequested, w) ← reset_requested 20 w;
  let w := if (resetRequested : bool) then resetSystem w else w in
  let w := set_votes (load_vote (eeprom w) EEPROM_VOTE1)
                     (load_vote (eeprom w) EEPROM_VOTE2)
                     (load_vote (eeprom w) EEPROM_VOTE3) w in
  let w := lcd_do [Clear; Print "Testing sensor"] w in
  '(sensorOK, w) ← test_sensor 6 0 w;
  if negb sensorOK then
    Done (Halted (lcd_do [Clear; Print "Sensor Error!"; SetCursor 0 1;
                          Print "Check wiring"] w))
  else
    '(count, w) ← getTemplateCount w;
    Done (Ready (showMainMenu (set_totalFingerprints count w))).

(** [loop], the hold-to-reset wait: [true] when the button stayed LOW
    until 3000 ms had passed. *)
Fixpoint hold_loop (ks : list KeyPoll) (w : World) : bool * World :=
  match ks with
  | [] => (true, set_keys [] w)
  | k :: ks' =>
    let w := set_keys ks' w in
    if u32 (k_elapsed k) <? 3000 then
      if negb (k_low k BTN_RESET_VOTES) then (false, w)
      else
        let dots := int16 (u32 (k_elapsed k) `div` 750) in
        let w := lcd_do [SetCursor (11 + dots) 1; Print "."] w in
        hold_loop ks' w
    else (true, w)
  end.

(** [loop], the RESET_VOTES block. *)
Definition loop_reset_votes (w : World) : outcome World :=
  '(low, w) ← pin_low BTN_RESET_VOTES w;
  if (low : bool) then
    '(low, w) ← pin_low BTN_RESET_VOTES w;
    if (low : bool) then
      let w := lcd_do [Clear; Print "Hold to reset"; SetCursor 0 1;
                       Print "votes..."] w in
      let '(stillHeld, w) := hold_loop (keys w) w in
      let w := if (stillHeld : bool) then resetVotesOnly w
               else lcd_do [Clear; Print "Cancelled"] w in
      let w := showMainMenu w in
      wait_release BTN_RESET_VOTES w
    else Done w
  else Done w.

(** One pass of [loop]. *)
Definition loop (w : World) : outcome World :=
  '(low, w) ← pin_low BTN_ENROLL w;
  w ← (if (low : bool) then
         w ← enrollFingerprint w;
         wait_release BTN_ENROLL (showMainMenu w)
       else Done w);
  '(low, w) ← pin_low BTN_DELETE w;
  w ← (if (low : bool) then
         w ← deleteByID w;
         wait_release BTN_DELETE (showMainMenu w)
       else Done w);
  '(low, w) ← pin_low BTN_VOTE w;
  w ← (if (low : bool) then
         w ← verifyAndVote w;
         wait_release BTN_VOTE (showMainMenu w)
       else Done w);
  '(low, w) ← pin_low BTN_RESULTS w;
  w ← (if (low : bool) then
         wait_release BTN_RESULTS (showMainMenu (showResults w))
       else Done w);
  loop_reset_votes w.

(** ** Vocabulary for the further properties *)

(** The EEPROM after a vote of [voterID] for candidate [c]: the tally
    cell is written, then [markAsVoted] runs. *)
Definition eeprom_voted (c : nat) (voterID : Z) (w : World) : Z -> Z :=
  let cell := match c with
              | 1%nat => (EEPROM_VOTE1, int16 (vote1 w + 1))
              | 2%nat => (EEPROM_VOTE2, int16 (vote2 w + 1))
              | _ => (EEPROM_VOTE3, int16 (vote3 w + 1))
              end in
  markAsVoted_from MAX_FINGERPRINTS 0 voterID
    (EEPROM_write (eeprom w) cell.1 cell.2).

(** Each tally cell of the EEPROM holds the low byte of its RAM counter. *)
Definition tallies_synced (w : World) : Prop :=
  EEPROM_read (eeprom w) EEPROM_VOTE1 = u8 (vote1 w)
  ∧ EEPROM_read (eeprom w) EEPROM_VOTE2 = u8 (vote2 w)
  ∧ EEPROM_read (eeprom w) EEPROM_VOTE3 = u8 (vote3 w).

(** The state [setup] ends in. *)
Definition boot_world (b : boot) : World :=
  match b with Ready w | Halted w => w end.

Definition halted (b : boot) : bool :=
  match b with Ready _ => false | Halted _ => true end.

(** The closing screens of [showResults]. *)
Definition winner_screen (candidate : string) : list LcdOp :=
  [Clear; Print "Winner:"; SetCursor 0 1; Print candidate].
Definition tie_screen : list LcdOp :=
  [Clear; Print "Tie!"; SetCursor 0 1; Print "No clear winner"].

(** The frame of [verifyPassword]. *)
Definition password_frame : list Z :=
  frame_of VERIFY_PASSWORD [0x00; 0x00; 0x00; 0x00].

(** After a vote, RESET_VOTES pressed and let go after two seconds, and
    pressed and kept down for three. *)
Definition world_reset_released : World :=
  set_keys [press 0 BTN_RESET_VOTES; press 0 BTN_RESET_VOTES;
            press 50 BTN_RESET_VOTES; press 1500 BTN_RESET_VOTES;
            press 2000 BTN_VOTE; press 2100 BTN_VOTE] world_voted.
Definition world_reset_held : World :=
  set_keys [press 0 BTN_RESET_VOTES; press 0 BTN_RESET_VOTES;
            press 50 BTN_RESET_VOTES; press 1500 BTN_RESET_VOTES;
            press 3000 BTN_RESET_VOTES; press 3100 BTN_VOTE] world_voted.

(** * Properties *)

(** ** Machine integers *)

Lemma u8_byte z : is_byte z → u8 z = z.
Proof. unfold is_byte, u8. intros H. by rewrite Z.mod_small. Qed.

Lemma u8_is_byte z : is_byte (u8 z).
Proof. unfold is_byte, u8. apply Z.mod_pos_bound. lia. Qed.

Lemma land_255 z : Z.land z 0xFF = z `mod` 256.
Proof. change 0xFF with (Z.ones 8). by rewrite Z.land_ones. Qed.

Lemma land_127 z : Z.land z 0x7F = z `mod` 128.
Proof. change 0x7F with (Z.ones 7). by rewrite Z.land_ones. Qed.

Lemma shiftr_8 z : Z.shiftr z 8 = z `div` 256.
Proof. by rewrite Z.shiftr_div_pow2. Qed.

(** The high and low byte [sendCommand] extracts from a 16-bit value. *)
Lemma hi_lo_bytes z :
  0 <= z < 65536 →
  [Z.land (Z.shiftr z 8) 0xFF; Z.land z 0xFF] = be16_bytes z.
Proof.
  intros H. unfold be16_bytes. rewrite !land_255, shiftr_8.
  rewrite (Z.mod_small (z `div` 256)); [done|].
  split; [apply Z.div_pos; lia | apply Z.div_lt_upper_bound; lia].
Qed.

Lemma be16_bytes_are_bytes z : 0 <= z < 65536 → Forall is_byte (be16_bytes z).
Proof.
  intros H. unfold be16_bytes, is_byte. repeat constructor.
  - apply Z.div_pos; lia.
  - apply Z.div_lt_upper_bound; lia.
  - apply Z.mod_pos_bound; lia.
  - apply Z.mod_pos_bound; lia.
Qed.

Lemma u16_range z : 0 <= u16 z < 65536.
Proof. unfold u16. apply Z.mod_pos_bound. lia. Qed.

(** ** PacketCodec: building the frame *)

Lemma bind_Done {A B} (a : A) (k : A → outcome B) : (Done a ≫= k) = k a.
Proof. reflexivity. Qed.

Lemma put_Done v p idx :
  (idx < length p)%nat → put v (p, idx) = Done (<[idx := u8 v]> p, S idx).
Proof.
  intros H. unfold put.
  destruct (Nat.ltb_spec idx (length p)); [done | lia].
Qed.

Lemma put_OutOfBounds v p idx :
  (length p <= idx)%nat → put v (p, idx) = OutOfBounds.
Proof.
  intros H. unfold put.
  destruct (Nat.ltb_spec idx (length p)); [lia | done].
Qed.

Lemma put_all_Done data : ∀ p idx,
  (idx + length data <= length p)%nat →
  ∃ p', put_all data (p, idx) = Done (p', (idx + length data)%nat)
        ∧ length p' = length p
        ∧ take (idx + length data) p' = take idx p ++ (u8 <$> data).
Proof.
  induction data as [|b data IH]; intros p idx Hlen.
  - exists p. simpl. rewrite Nat.add_0_r, app_nil_r. done.
  - cbn [put_all length] in *. rewrite put_Done by lia. rewrite bind_Done.
    destruct (IH (<[idx := u8 b]> p) (S idx)) as (p' & Hp' & Hl & Ht).
    { rewrite length_insert. lia. }
    exists p'. replace (idx + S (length data))%nat with (S idx + length data)%nat by lia.
    split; [done|]. split; [by rewrite Hl, length_insert|].
    rewrite Ht. rewrite (take_S_r _ _ (u8 b)).
    + rewrite take_insert_ge by lia. rewrite fmap_cons. by rewrite <- app_assoc.
    + apply list_lookup_insert_eq. lia.
Qed.

(** One store too many: the loop runs off the end of the array. *)
Lemma put_all_OutOfBounds data : ∀ p idx,
  (idx <= length p < idx + length data)%nat →
  put_all data (p, idx) = OutOfBounds.
Proof.
  induction data as [|b data IH]; intros p idx Hlen; cbn [put_all length] in *; [lia|].
  destruct (decide (idx < length p)%nat) as [Hlt|Hge].
  - rewrite put_Done by done. rewrite bind_Done. apply IH.
    rewrite length_insert. lia.
  - rewrite put_OutOfBounds by lia. done.
Qed.

Lemma put_all_app a b st :
  put_all (a ++ b) st = (put_all a st ≫= put_all b).
Proof.
  revert st. induction a as [|x a IH]; intros st; cbn [put_all app]; [done|].
  destruct (put x st) as [st'| | |]; [rewrite !bind_Done; apply IH | reflexivity..].
Qed.

(** [sendCommand] stores the bytes of the frame one after the other. *)
Lemma sendCommand_put_all cmd data w :
  sendCommand cmd data w =
  (put_all ([HEADER_H; HEADER_L; 0xFF; 0xFF; 0xFF; 0xFF; PACKAGE_ID;
             Z.land (Z.shiftr (Z.of_nat (length data) + 3) 8) 0xFF;
             Z.land (Z.of_nat (length data) + 3) 0xFF; cmd]
            ++ data
            ++ [Z.land (Z.shiftr (packet_checksum cmd data) 8) 0xFF;
                Z.land (packet_checksum cmd data) 0xFF])
           (packet w, 0%nat)
   ≫= λ '(p, idx), Done (set_sent (sent w ++ [take idx p])
                           (set_packet p (drain w)))).
Proof.
  unfold sendCommand. rewrite put_all_app. cbn [put_all].
  change (packet (drain w)) with (packet w).
  change (sent (drain w)) with (sent w).
  repeat (match goal with
          | |- context [put ?v (?p, ?i) ≫= _] =>
              destruct (put v (p, i)) as [[? ?]| | |]; [rewrite !bind_Done|reflexivity..]
          end).
  rewrite put_all_app.
  destruct (put_all data _) as [st| | |]; [rewrite !bind_Done|reflexivity..].
  cbn [put_all].
  destruct (put _ st) as [st'| | |]; [rewrite !bind_Done|reflexivity..].
  destruct (put _ st') as [[p idx]| | |]; reflexivity.
Qed.

Lemma checksum_add_sum data : ∀ c,
  checksum_add data (u16 c) = u16 (c + sum_bytes data).
Proof.
  induction data as [|b data IH]; intros c; cbn [checksum_add sum_bytes foldr].
  - by rewrite Z.add_0_r.
  - rewrite IH. fold (sum_bytes data). unfold u16.
    rewrite <- Z.add_assoc, Zplus_mod_idemp_l. done.
Qed.

(** The checksum is the 16-bit sum of the packet-type byte, the two length
    bytes, the command byte and the payload. *)
Lemma packet_checksum_sum cmd data :
  Z.of_nat (length data) + 3 < 65536 →
  packet_checksum cmd data =
  u16 (sum_bytes ([PACKAGE_ID] ++ be16_bytes (Z.of_nat (length data) + 3)
                  ++ [cmd] ++ data)).
Proof.
  intros Hlen. unfold packet_checksum. rewrite checksum_add_sum. f_equal.
  pose proof (hi_lo_bytes (Z.of_nat (length data) + 3) ltac:(lia)) as Hb.
  injection Hb as -> ->.
  unfold be16_bytes. cbn [app sum_bytes foldr]. fold (sum_bytes data). lia.
Qed.

Lemma packet_checksum_range cmd data : 0 <= packet_checksum cmd data < 65536.
Proof.
  unfold packet_checksum. rewrite checksum_add_sum. apply u16_range.
Qed.

Lemma Forall_is_byte_u8 l : Forall is_byte l → u8 <$> l = l.
Proof.
  induction 1 as [|x l Hx _ IH]; [done|].
  rewrite fmap_cons, IH, u8_byte; done.
Qed.

(** What a call of [sendCommand] does when the frame fits the buffer:
    the receive buffer is emptied, the frame is in [packet] and on the
    wire, nothing else changes. *)
Lemma sendCommand_Done cmd data w :
  length (packet w) = PACKET_SIZE → is_byte cmd → Forall is_byte data →
  (length data <= 116)%nat →
  ∃ p, length p = PACKET_SIZE ∧
       sendCommand cmd data w =
       Done (set_sent (sent w ++ [frame_of cmd data]) (set_packet p (drain w))).
Proof.
  intros Hp Hcmd Hdata Hlen. rewrite sendCommand_put_all.
  set (raw := _ ++ data ++ _).
  assert (Hraw : length raw = (length data + 12)%nat).
  { unfold raw. rewrite !length_app. simpl. lia. }
  destruct (put_all_Done raw (packet w) 0) as (p & Hput & Hl & Ht).
  { rewrite Hraw, Hp. unfold PACKET_SIZE. lia. }
  exists p. split; [congruence|]. rewrite Hput, bind_Done.
  rewrite Ht. cbn [take app]. do 3 f_equal.
  unfold raw, frame_of. 
  rewrite <- (hi_lo_bytes (Z.of_nat (length data) + 3)) by lia.
  rewrite <- (hi_lo_bytes (packet_checksum cmd data)) by apply packet_checksum_range.
  cbn [app]. rewrite !fmap_cons, fmap_app, !fmap_cons, fmap_nil.
  rewrite (Forall_is_byte_u8 data) by done.
  rewrite !land_255. unfold u8. rewrite !Z.mod_mod by lia.
  rewrite (Z.mod_small cmd) by apply Hcmd.
  reflexivity.
Qed.

(** C9 (amended): for every command byte and every payload of 0 to 116
    bytes, [sendCommand] returns and has written to the sensor exactly one
    frame: header [0xEF 0x01], the address [0xFF 0xFF 0xFF 0xFF], the
    packet type [0x01], the big-endian length (payload length + 3), the
    command code, the payload, and the big-endian checksum, in that order
    and nothing else. *)
Theorem sendCommand_transmits_frame (w : World) (cmd : Z) (data : list Z) :
  length (packet w) = PACKET_SIZE → is_byte cmd → Forall is_byte data →
  (length data <= 116)%nat →
  ∃ w', sendCommand cmd data w = Done w' ∧
        sent w' = sent w ++
          [ [0xEF; 0x01] ++ [0xFF; 0xFF; 0xFF; 0xFF] ++ [0x01]
            ++ be16_bytes (Z.of_nat (length data) + 3) ++ [cmd] ++ data
            ++ be16_bytes (packet_checksum cmd data) ].
Proof.
  intros Hp Hcmd Hdata Hlen.
  destruct (sendCommand_Done cmd data w Hp Hcmd Hdata Hlen) as (p & _ & ->).
  eexists. split; [reflexivity|]. reflexivity.
Qed.

Lemma sendCommand_transmits_frame_witness :
  ∃ w', sendCommand SEARCH [0x01; 0x00; 0x00; 0x00; 0x7F] world0 = Done w' ∧
        sent w' = sent world0 ++
          [ [0xEF; 0x01] ++ [0xFF; 0xFF; 0xFF; 0xFF] ++ [0x01]
            ++ be16_bytes (Z.of_nat (length [0x01; 0x00; 0x00; 0x00; 0x7F]) + 3)
            ++ [SEARCH] ++ [0x01; 0x00; 0x00; 0x00; 0x7F]
            ++ be16_bytes (packet_checksum SEARCH [0x01; 0x00; 0x00; 0x00; 0x7F]) ].
Proof.
  apply (sendCommand_transmits_frame world0 SEARCH [0x01; 0x00; 0x00; 0x00; 0x7F]).
  - reflexivity.
  - unfold is_byte, SEARCH. lia.
  - repeat constructor; unfold is_byte; lia.
  - simpl. lia.
Defined.

(** C9 as stated fails from 117 payload bytes on: the frame is 12 bytes
    longer than the payload and the 129th byte is stored past the end of
    [packet[128]]. *)
Lemma sendCommand_117_out_of_bounds :
  length (replicate 117 0) = 117%nat ∧
  sendCommand GET_IMAGE (replicate 117 0) world0 = OutOfBounds.
Proof. split; vm_compute; reflexivity. Qed.

(** C1 (amended): for every command byte and every payload of 0 to 116
    bytes, the frame [sendCommand] writes ends in the two-byte big-endian
    checksum field, and that field is the 16-bit-truncated sum of the
    packet-type byte, the two length bytes, the command byte and the
    payload bytes; neither the header and address before them nor the
    checksum field itself is part of the sum. *)
Theorem sendCommand_checksum_field (w : World) (cmd : Z) (data : list Z) :
  length (packet w) = PACKET_SIZE → is_byte cmd → Forall is_byte data →
  (length data <= 116)%nat →
  ∃ w', sendCommand cmd data w = Done w' ∧
        let summed := [PACKAGE_ID] ++ be16_bytes (Z.of_nat (length data) + 3)
                      ++ [cmd] ++ data in
        last (sent w') =
          Some ([0xEF; 0x01; 0xFF; 0xFF; 0xFF; 0xFF] ++ summed
                ++ be16_bytes (u16 (sum_bytes summed))).
Proof.
  intros Hp Hcmd Hdata Hlen.
  destruct (sendCommand_Done cmd data w Hp Hcmd Hdata Hlen) as (p & _ & ->).
  eexists. split; [reflexivity|]. cbn zeta.
  change (sent (set_sent ?s _)) with s. rewrite last_snoc. f_equal.
  unfold frame_of. rewrite packet_checksum_sum by lia.
  rewrite <- !app_assoc. reflexivity.
Qed.

Lemma sendCommand_checksum_field_witness :
  ∃ w', sendCommand GET_IMAGE [] world0 = Done w' ∧
        last (sent w') =
          Some [0xEF; 0x01; 0xFF; 0xFF; 0xFF; 0xFF; 0x01; 0x00; 0x03; 0x01;
                0x00; 0x05].
Proof.
  apply (sendCommand_checksum_field world0 GET_IMAGE []).
  - reflexivity.
  - unfold is_byte, GET_IMAGE. lia.
  - constructor.
  - simpl. lia.
Defined.

(** C1 as stated fails: for "get image" without payload the checksum field
    on the wire is [00 05], while the sum without the packet-type byte is
    [00 04]; and with a payload of 118 bytes no checksum field is appended,
    the frame running past the end of [packet[128]]. *)
Lemma checksum_counts_packet_type :
  (∃ w' frame, sendCommand GET_IMAGE [] world0 = Done w' ∧
               sent w' = [frame] ∧
               drop 10 frame = [0x00; 0x05] ∧
               be16_bytes (spec_checksum GET_IMAGE []) = [0x00; 0x04]) ∧
  sendCommand GET_IMAGE (replicate 118 0) world0 = OutOfBounds.
Proof.
  split; [do 2 eexists; repeat split; vm_compute; reflexivity|].
  vm_compute. reflexivity.
Qed.

(** ** PacketCodec: reading a response *)

(** Invariant of [readResponse]'s loop.  Entered with [idx] below 32 and a
    buffer of at least 32 cells, the loop returns; it has stored the next
    [idx' - idx] bytes of the stream at [idx .. idx' - 1], in order, and
    touched no other cell; and [idx'] is at most 32. *)
Lemma readResponse_loop_spec polls timeout : ∀ rx buffer idx,
  (idx < 32 <= length buffer)%nat →
  ∃ buffer' idx' rx',
    readResponse_loop polls timeout rx buffer idx = Done (buffer', idx', rx')
    ∧ (idx <= idx' <= 32)%nat
    ∧ length buffer' = length buffer
    ∧ take idx' buffer' =
        take idx buffer
        ++ (u8 <$> take (idx' - idx) (rx ++ concat (rx_arrived <$> polls)))
    ∧ drop idx' buffer' = drop idx' buffer.
Proof.
  induction polls as [|p polls IH]; intros rx buffer idx Hidx;
    cbn [readResponse_loop].
  - exists buffer, idx, rx. rewrite Nat.sub_diag. cbn [take fmap list_fmap].
    rewrite app_nil_r. repeat split; lia.
  - destruct (u32 (rx_elapsed p) <? u32 timeout).
    2:{ exists buffer, idx, (rx ++ rx_arrived p). rewrite Nat.sub_diag.
        cbn [take fmap list_fmap]. rewrite app_nil_r. repeat split; lia. }
    rewrite fmap_cons. cbn [concat]. rewrite app_assoc.
    destruct (rx ++ rx_arrived p) as [|b rx'] eqn:Hrx.
    + apply (IH [] buffer idx Hidx).
    + destruct (Nat.ltb_spec idx (length buffer)) as [_|]; [|lia].
      assert (Hw : take (S idx) (<[idx := u8 b]> buffer)
                   = take idx buffer ++ [u8 b]).
      { rewrite (take_S_r _ _ (u8 b)).
        - by rewrite take_insert_ge by lia.
        - apply list_lookup_insert_eq. lia. }
      destruct (Nat.leb_spec 32 (S idx)) as [Hfull|Hroom].
      * exists (<[idx := u8 b]> buffer), (S idx), rx'.
        replace (S idx - idx)%nat with 1%nat by lia.
        rewrite length_insert, Hw. cbn [app take fmap list_fmap].
        rewrite take_0. rewrite drop_insert_lt by lia.
        repeat split; lia.
      * destruct (IH rx' (<[idx := u8 b]> buffer) (S idx))
          as (buffer' & idx' & rx'' & -> & Hi & Hl & Ht & Hd).
        { rewrite length_insert. lia. }
        exists buffer', idx', rx''. rewrite length_insert in Hl.
        split; [done|]. split; [lia|]. split; [done|]. split.
        -- rewrite Ht, Hw, <- app_assoc. f_equal.
           replace (idx' - idx)%nat with (S (idx' - S idx)) by lia.
           reflexivity.
        -- rewrite Hd. apply drop_insert_lt. lia.
Qed.

(** C10: for every timeout value, every receive-buffer content and every
    poll script of the line, [readResponse] on a caller's buffer of at
    least 32 bytes returns without an out-of-bounds write; the count [idx]
    it returns is at most 32; the cells below [idx] hold the first [idx]
    bytes of the incoming stream and every cell from [idx] on is as the
    caller left it, so the count returned is exactly the number of bytes
    written. *)
Theorem readResponse_writes_at_most_32 (buffer : list Z) (timeout : Z) (w : World) :
  (32 <= length buffer)%nat →
  ∃ buffer' idx w',
    readResponse buffer timeout w = Done (buffer', Z.of_nat idx, w')
    ∧ (idx <= 32)%nat
    ∧ length buffer' = length buffer
    ∧ take idx buffer' =
        (u8 <$> take idx (rxbuf w ++ concat (rx_arrived <$> (next_polls w).1)))
    ∧ drop idx buffer' = drop idx buffer.
Proof.
  intros Hlen. unfold readResponse.
  destruct (next_polls w) as [polls w1] eqn:Hnext.
  assert (Hrx : rxbuf w1 = rxbuf w).
  { unfold next_polls in Hnext. by inversion Hnext. }
  destruct (readResponse_loop_spec polls timeout (rxbuf w1) buffer 0)
    as (buffer' & idx & rx' & -> & Hi & Hl & Ht & Hd); [lia|].
  exists buffer', idx, (set_rxbuf rx' w1). rewrite bind_Done.
  rewrite Nat.sub_0_r, take_0, app_nil_l, Hrx in Ht.
  repeat split; [lia | done | done | done].
Qed.

Lemma readResponse_writes_at_most_32_witness :
  ∃ buffer' idx w',
    readResponse (local_array 64) 5000
      (set_line [deliver (replicate 40 0x55)] world0)
    = Done (buffer', Z.of_nat idx, w')
    ∧ (idx <= 32)%nat
    ∧ length buffer' = length (local_array 64)
    ∧ take idx buffer' =
        (u8 <$> take idx
           (rxbuf (set_line [deliver (replicate 40 0x55)] world0)
            ++ concat (rx_arrived <$>
                 (next_polls (set_line [deliver (replicate 40 0x55)] world0)).1)))
    ∧ drop idx buffer' = drop idx (local_array 64).
Proof.
  apply (readResponse_writes_at_most_32 (local_array 64) 5000
           (set_line [deliver (replicate 40 0x55)] world0)).
  vm_compute. lia.
Defined.

(** ** SensorLink: one command, one reply *)

Lemma quiet_refl w : quiet w w.
Proof. by repeat split. Qed.

Lemma quiet_trans w1 w2 w3 : quiet w1 w2 → quiet w2 w3 → quiet w1 w3.
Proof.
  unfold quiet. intros (?&?&?&?&?&?&?&?) (?&?&?&?&?&?&?&?).
  repeat split; congruence.
Qed.

Lemma drain_loop_nil rx : drain_loop rx = [].
Proof. induction rx; done. Qed.

Lemma quiet_drain w : quiet w (drain w).
Proof. by repeat split. Qed.

Lemma quiet_lcd_do ops w w' :
  quiet w w' → quiet (lcd_do ops w) (lcd_do ops w').
Proof.
  unfold quiet. intros (?&?&?&?&?&Hl&?&?). repeat split; try done.
  cbn. by rewrite Hl.
Qed.

Lemma reply_range n polls timeout :
  (32 <= n)%nat → 0 <= (reply n polls timeout).2 <= 32.
Proof.
  intros Hn. unfold reply.
  destruct (readResponse_loop_spec polls timeout [] (local_array n) 0)
    as (buffer' & idx & rx' & -> & Hi & _).
  { unfold local_array. rewrite length_replicate. lia. }
  cbn. lia.
Qed.

(** [readResponse] into a fresh local array, the receive buffer being
    empty: what is read is the [reply] to the coming script. *)
Lemma readResponse_reply n timeout w :
  (32 <= n)%nat → rxbuf w = [] →
  ∃ rx, readResponse (local_array n) timeout w
        = Done ((reply n (coming w) timeout).1,
                (reply n (coming w) timeout).2,
                set_rxbuf rx (set_line (tail (line w)) w)).
Proof.
  intros Hn Hrx. unfold readResponse, reply, coming, next_polls.
  cbn [fst snd set_line rxbuf]. rewrite Hrx.
  destruct (readResponse_loop_spec (hd [] (line w)) timeout []
              (local_array n) 0) as (buffer' & idx & rx' & -> & _).
  { unfold local_array. rewrite length_replicate. lia. }
  exists rx'. reflexivity.
Qed.

(** A command followed by [readResponse] into a fresh local array: both
    calls return, the frame is on the wire, one script of the line is
    consumed, and what was read is the [reply] to that script. *)
Lemma exchange cmd data n timeout w :
  length (packet w) = PACKET_SIZE → is_byte cmd → Forall is_byte data →
  (length data <= 116)%nat → (32 <= n)%nat →
  ∃ w1 w2,
    sendCommand cmd data w = Done w1
    ∧ readResponse (local_array n) timeout w1
      = Done ((reply n (coming w) timeout).1, (reply n (coming w) timeout).2, w2)
    ∧ quiet w w2
    ∧ sent w2 = sent w ++ [frame_of cmd data]
    ∧ line w2 = tail (line w).
Proof.
  intros Hp Hcmd Hdata Hlen Hn.
  destruct (sendCommand_Done cmd data w Hp Hcmd Hdata Hlen) as (p & Hpl & ->).
  set (w1 := set_sent _ _).
  destruct (readResponse_reply n timeout w1 Hn) as (rx & Hread).
  { cbn. apply drain_loop_nil. }
  exists w1. eexists. split; [reflexivity|]. split; [exact Hread|].
  split; [|split; reflexivity].
  repeat split; cbn; congruence.
Qed.

(** ** SensorLink: [waitForFinger] *)

Lemma is_byte_GET_IMAGE : is_byte GET_IMAGE.
Proof. unfold is_byte, GET_IMAGE. lia. Qed.

Lemma drop_S_tail {A} (l : list A) n : drop (S n) l = drop n (tail l).
Proof. destruct l; cbn; [by rewrite drop_nil|done]. Qed.

(** One iteration of the loop of [waitForFinger], as an equation. *)
Lemma waitForFinger_loop_step fuel timeout w :
  length (packet w) = PACKET_SIZE → 0 < timeout →
  ∃ w2, quiet w w2
        ∧ sent w2 = sent w ++ [get_image_frame]
        ∧ line w2 = tail (line w)
        ∧ waitForFinger_loop (S fuel) timeout w =
            if confirmed (reply 32 (coming w) 1000) then Done (true, w2)
            else waitForFinger_loop fuel (timeout - 1) w2.
Proof.
  intros Hp Ht. cbn [waitForFinger_loop].
  destruct (Z.ltb_spec 0 timeout) as [_|]; [|lia].
  destruct (exchange GET_IMAGE [] 32 1000 (drain w))
    as (w1 & w2 & Hsend & Hread & Hq & Hs & Hl);
    [done | apply is_byte_GET_IMAGE | constructor | simpl; lia | lia |].
  exists w2. split; [|split; [done|split; [done|]]].
  { apply (quiet_trans _ (drain w)); [apply quiet_drain | done]. }
  rewrite Hsend, bind_Done, Hread, bind_Done.
  change (coming (drain w)) with (coming w).
  unfold confirmed.
  destruct (12 <=? _); cbn [andb]; [|done].
  destruct (at_ _ 9 =? 0x00); [done|].
  by destruct (at_ _ 9 =? 0x02).
Qed.

Lemma never_confirms_coming w :
  never_confirms (line w) → confirmed (reply 32 (coming w) 1000) = false.
Proof.
  unfold never_confirms, coming, next_polls. cbn [fst].
  destruct (line w) as [|polls l]; [reflexivity|].
  by inversion 1.
Qed.

Lemma never_confirms_tail l : never_confirms l → never_confirms (tail l).
Proof. unfold never_confirms. destruct l; [done|]. by inversion 1. Qed.

(** The loop returns whenever the fuel exceeds the counter, after at most
    [timeout] commands; and after exactly [timeout] commands, with
    [false], when no reply confirms. *)
Lemma waitForFinger_loop_returns fuel : ∀ timeout w,
  length (packet w) = PACKET_SIZE → Z.max 0 timeout < Z.of_nat fuel →
  ∃ found w' n,
    waitForFinger_loop fuel timeout w = Done (found, w')
    ∧ quiet w w'
    ∧ sent w' = sent w ++ replicate n get_image_frame
    ∧ line w' = drop n (line w)
    ∧ Z.of_nat n <= Z.max 0 timeout
    ∧ (never_confirms (line w) → found = false ∧ Z.of_nat n = Z.max 0 timeout).
Proof.
  induction fuel as [|fuel IH]; intros timeout w Hp Hfuel.
  - lia.
  - destruct (Z.ltb_spec 0 timeout) as [Hpos|Hneg].
    + destruct (waitForFinger_loop_step fuel timeout w Hp Hpos)
        as (w2 & Hq & Hs & Hl & ->).
      destruct (confirmed _) eqn:Hc.
      * exists true, w2, 1%nat. rewrite drop_S_tail, drop_0.
        split_and!; try done; [lia|].
        intros Hnever. apply never_confirms_coming in Hnever. congruence.
      * destruct (IH (timeout - 1) w2)
          as (found & w' & n & -> & Hq' & Hs' & Hl' & Hn & Hnever').
        { destruct Hq as (_&_&_&_&_&_&_&Hlen). congruence. }
        { lia. }
        exists found, w', (S n). split; [done|].
        split; [by eapply quiet_trans|].
        split; [rewrite Hs', Hs, <- app_assoc; done|].
        split; [rewrite Hl', Hl; by rewrite <- drop_S_tail|].
        split; [lia|].
        intros Hnever. destruct Hnever' as [-> Hn'].
        { rewrite Hl. by apply never_confirms_tail. }
        split; [done|lia].
    + exists false, w, 0%nat. cbn [waitForFinger_loop].
      destruct (Z.ltb_spec 0 timeout) as [|_]; [lia|].
      rewrite app_nil_r. split_and!; try done; lia.
Qed.

(** [waitForFinger] gives its loop fuel enough: it never runs out. *)
Lemma waitForFinger_returns timeoutSeconds w :
  length (packet w) = PACKET_SIZE →
  ∃ found w' n,
    waitForFinger timeoutSeconds w = Done (found, w')
    ∧ quiet w w'
    ∧ sent w' = sent w ++ replicate n get_image_frame
    ∧ line w' = drop n (line w)
    ∧ Z.of_nat n <= Z.max 0 (int16 (timeoutSeconds * 10))
    ∧ (never_confirms (line w) →
       found = false ∧ Z.of_nat n = Z.max 0 (int16 (timeoutSeconds * 10))).
Proof.
  intros Hp. unfold waitForFinger.
  apply waitForFinger_loop_returns; [done|lia].
Qed.

(** C8: [waitForFinger] returns for every timeout argument and every
    behaviour of the line, after at most [timeoutSeconds * 10] "get image"
    commands (as many as its 16-bit counter holds); and against a
    transport that never returns a success code, whether it answers with
    the no-finger code [0x02], another code or too few bytes,
    [waitForFinger(1)] sends exactly 10 commands and returns [false]. *)
Theorem waitForFinger_terminates (w : World) :
  length (packet w) = PACKET_SIZE →
  (∀ timeoutSeconds, ∃ found w' n,
      waitForFinger timeoutSeconds w = Done (found, w')
      ∧ sent w' = sent w ++ replicate n get_image_frame
      ∧ Z.of_nat n <= Z.max 0 (int16 (timeoutSeconds * 10)))
  ∧ (never_confirms (line w) →
     ∃ w', waitForFinger 1 w = Done (false, w')
           ∧ sent w' = sent w ++ replicate 10 get_image_frame
           ∧ line w' = drop 10 (line w)).
Proof.
  intros Hp. split.
  - intros secs.
    destruct (waitForFinger_returns secs w Hp)
      as (found & w' & n & Hrun & _ & Hs & _ & Hn & _).
    by exists found, w', n.
  - intros Hnever.
    destruct (waitForFinger_returns 1 w Hp)
      as (found & w' & n & Hrun & _ & Hs & Hl & _ & Hexact).
    destruct (Hexact Hnever) as [-> Hn].
    change (Z.max 0 (int16 (1 * 10))) with (Z.of_nat 10) in Hn.
    apply Nat2Z.inj in Hn. subst n. by exists w'.
Qed.

Lemma waitForFinger_terminates_witness :
  ∃ w', waitForFinger 1 (set_line no_finger_line world0) = Done (false, w')
        ∧ sent w' = sent (set_line no_finger_line world0)
                    ++ replicate 10 get_image_frame
        ∧ line w' = drop 10 (line (set_line no_finger_line world0)).
Proof.
  destruct (waitForFinger_terminates (set_line no_finger_line world0))
    as [_ Hnever]; [reflexivity|].
  apply Hnever. unfold never_confirms.
  repeat (constructor; [vm_compute; reflexivity|]). constructor.
Defined.

Example waitForFinger_finds_finger :
  ∃ w', waitForFinger 1 (set_line [deliver (ack 0x02); deliver (ack 0x00)] world0)
        = Done (true, w')
        ∧ length (sent w') = 2%nat.
Proof. eexists. split; vm_compute; reflexivity. Qed.

(** ** VoterRegistry: the EEPROM and the slot loops *)

Lemma EEPROM_read_write e a v : EEPROM_read (EEPROM_write e a v) a = u8 v.
Proof.
  unfold EEPROM_read, EEPROM_write. rewrite Z.eqb_refl.
  unfold u8. apply Z.mod_mod. lia.
Qed.

Lemma EEPROM_read_write_ne e a a' v :
  a' ≠ a → EEPROM_read (EEPROM_write e a v) a' = EEPROM_read e a'.
Proof.
  intros Hne. unfold EEPROM_read, EEPROM_write.
  destruct (Z.eqb_spec a' a); [done|reflexivity].
Qed.

Lemma EEPROM_read_byte e a : is_byte (EEPROM_read e a).
Proof. apply u8_is_byte. Qed.

Lemma slot_write e (i j : nat) v :
  slot (EEPROM_write e (EEPROM_VOTED_START + Z.of_nat j) v) i
  = if decide (i = j) then u8 v else slot e i.
Proof.
  unfold slot. destruct (decide (i = j)) as [->|Hne].
  - apply EEPROM_read_write.
  - apply EEPROM_read_write_ne. lia.
Qed.

(** Writing a registry slot leaves the tally cells alone. *)
Lemma tally_cell_write e (j : nat) v a :
  a < EEPROM_VOTED_START →
  EEPROM_read (EEPROM_write e (EEPROM_VOTED_START + Z.of_nat j) v) a
  = EEPROM_read e a.
Proof. intros Ha. apply EEPROM_read_write_ne. lia. Qed.

(** Writing a tally cell leaves the registry alone. *)
Lemma slot_write_tally e a v (i : nat) :
  a < EEPROM_VOTED_START → slot (EEPROM_write e a v) i = slot e i.
Proof. intros Ha. unfold slot. apply EEPROM_read_write_ne. lia. Qed.

(** Either no slot of the range passes the test and nothing is written,
    or the first one that does is overwritten. *)
Lemma update_first_spec test v n : ∀ i e,
  ((∀ j, (i <= j < i + n)%nat → test (slot e j) = false)
   ∧ update_first test v n i e = e)
  ∨ (∃ j, (i <= j < i + n)%nat
          ∧ test (slot e j) = true
          ∧ (∀ k, (i <= k < j)%nat → test (slot e k) = false)
          ∧ update_first test v n i e
            = EEPROM_write e (EEPROM_VOTED_START + Z.of_nat j) v).
Proof.
  induction n as [|n IH]; intros i e; cbn [update_first].
  - left. split; [intros j; lia | done].
  - destruct (test (slot e i)) eqn:Hi.
    + right. exists i. split_and!; [lia | lia | done | intros k; lia | done].
    + destruct (IH (S i) e) as [[Hnone ->]|(j & Hj & Htest & Hfirst & ->)].
      * left. split; [|done]. intros j Hj.
        destruct (decide (j = i)) as [->|]; [done|]. apply Hnone. lia.
      * right. exists j. split_and!; [lia | lia | done | | done].
        intros k Hk. destruct (decide (k = i)) as [->|]; [done|].
        apply Hfirst. lia.
Qed.

Lemma allocate_from_update_first id n : ∀ i e,
  allocate_from n i id e = update_first (fun s => s =? 0xFF) id n i e.
Proof.
  induction n as [|n IH]; intros i e; cbn [allocate_from update_first]; [done|].
  fold (slot e i). by rewrite IH.
Qed.

Lemma release_from_update_first id n : ∀ i e,
  release_from n i id e
  = update_first (fun s => (s =? id) || (s =? Z.lor id 0x80)) 0xFF n i e.
Proof.
  induction n as [|n IH]; intros i e; cbn [release_from update_first]; [done|].
  fold (slot e i). by rewrite IH.
Qed.

Lemma markAsVoted_from_update_first id n : ∀ i e,
  markAsVoted_from n i id e
  = update_first (fun s => s =? id) (Z.lor id 0x80) n i e.
Proof.
  induction n as [|n IH]; intros i e; cbn [markAsVoted_from update_first]; [done|].
  fold (slot e i). by rewrite IH.
Qed.

(** [alreadyVoted] holds exactly when some slot reads [matchID | 0x80]. *)
Lemma alreadyVoted_from_true matchID e n : ∀ i,
  alreadyVoted_from n i matchID e = true
  ↔ ∃ j, (i <= j < i + n)%nat ∧ slot e j = Z.lor matchID 0x80.
Proof.
  induction n as [|n IH]; intros i; cbn [alreadyVoted_from].
  - split; [done|]. intros (j & Hj & _). lia.
  - fold (slot e i). destruct (Z.eqb_spec (slot e i) (Z.lor matchID 0x80)) as [Heq|Hne].
    + split; [|done]. intros _. exists i. split; [lia|done].
    + rewrite IH. split; intros (j & Hj & Hs).
      * exists j. split; [lia|done].
      * exists j. split; [|done]. destruct (decide (j = i)) as [->|]; [done|lia].
Qed.

(** ** Resets *)

Lemma clearFlags_from_read n : ∀ i e a,
  EEPROM_read (clearFlags_from n i e) a
  = if decide (EEPROM_VOTED_START + Z.of_nat i <= a
               < EEPROM_VOTED_START + Z.of_nat i + Z.of_nat n)
    then (if EEPROM_read e a =? 0xFF then 0xFF
          else Z.land (EEPROM_read e a) 0x7F)
    else EEPROM_read e a.
Proof.
  induction n as [|n IH]; intros i e a; cbn [clearFlags_from].
  - destruct (decide _); [lia|done].
  - rewrite IH. clear IH.
    set (cur := EEPROM_read e (EEPROM_VOTED_START + Z.of_nat i)).
    destruct (decide (a = EEPROM_VOTED_START + Z.of_nat i)) as [->|Hne].
    + fold cur. destruct (decide _) as [|_]; [lia|].
      destruct (decide _) as [_|]; [|lia].
      destruct (Z.eqb_spec cur 0xFF) as [Hc|Hc]; cbn [negb].
      * done.
      * rewrite EEPROM_read_write. apply u8_byte.
        rewrite land_127. unfold is_byte.
        pose proof (Z.mod_pos_bound cur 128). lia.
    + assert (Hsame : EEPROM_read
                (if negb (cur =? 0xFF)
                 then EEPROM_write e (EEPROM_VOTED_START + Z.of_nat i)
                        (Z.land cur 0x7F)
                 else e) a = EEPROM_read e a).
      { destruct (negb _); [|done]. by apply EEPROM_read_write_ne. }
      rewrite Hsame.
      repeat destruct (decide _); try done; lia.
Qed.

Lemma wipe_from_read n : ∀ i e a,
  EEPROM_read (wipe_from n i e) a
  = if decide (EEPROM_VOTED_START + Z.of_nat i <= a
               < EEPROM_VOTED_START + Z.of_nat i + Z.of_nat n)
    then 0xFF else EEPROM_read e a.
Proof.
  induction n as [|n IH]; intros i e a; cbn [wipe_from].
  - destruct (decide _); [lia|done].
  - rewrite IH. clear IH.
    destruct (decide (a = EEPROM_VOTED_START + Z.of_nat i)) as [->|Hne].
    + rewrite EEPROM_read_write.
      repeat destruct (decide _); try done; lia.
    + rewrite EEPROM_read_write_ne by done.
      repeat destruct (decide _); try done; lia.
Qed.

Lemma zero_tallies_read e a :
  EEPROM_read (zero_tallies e) a
  = if decide (a = EEPROM_VOTE1 ∨ a = EEPROM_VOTE2 ∨ a = EEPROM_VOTE3)
    then 0 else EEPROM_read e a.
Proof.
  unfold zero_tallies, EEPROM_VOTE1, EEPROM_VOTE2, EEPROM_VOTE3.
  destruct (decide (a = 2)) as [->|]; [by rewrite EEPROM_read_write|].
  rewrite EEPROM_read_write_ne by done.
  destruct (decide (a = 1)) as [->|]; [by rewrite EEPROM_read_write|].
  rewrite EEPROM_read_write_ne by done.
  destruct (decide (a = 0)) as [->|]; [by rewrite EEPROM_read_write|].
  rewrite EEPROM_read_write_ne by done.
  destruct (decide _); [lia|done].
Qed.

Lemma voted_land_127 v : voted (Z.land v 0x7F) = false.
Proof. unfold voted. rewrite Z.land_spec. apply andb_false_r. Qed.

Lemma id_of_land_127 v : id_of (Z.land v 0x7F) = id_of v.
Proof. unfold id_of. by rewrite <- Z.land_assoc, Z.land_diag. Qed.

Lemma land_127_not_Empty v : Z.land v 0x7F ≠ Empty.
Proof.
  rewrite land_127. unfold Empty. pose proof (Z.mod_pos_bound v 128). lia.
Qed.

(** C6: for every registry and tally state, [resetVotesOnly] zeroes the
    three tallies (the RAM counters and their EEPROM cells), leaves every
    Empty slot Empty, and in every non-Empty slot clears the voted bit and
    keeps the 7-bit ID, the slot staying non-Empty; [resetSystem] zeroes
    the three tallies as well and sets every one of the 25 slots to the
    Empty sentinel [0xFF]. *)
Theorem reset_scoping (w : World) :
  (tallies (resetVotesOnly w) = [0; 0; 0; 0; 0; 0]
   ∧ ∀ i : nat, (i < MAX_FINGERPRINTS)%nat →
       let old := slot (eeprom w) i in
       let new := slot (eeprom (resetVotesOnly w)) i in
       (old = Empty → new = Empty)
       ∧ (old ≠ Empty →
          new ≠ Empty ∧ voted new = false ∧ id_of new = id_of old))
  ∧ (tallies (resetSystem w) = [0; 0; 0; 0; 0; 0]
     ∧ ∀ i : nat, (i < MAX_FINGERPRINTS)%nat →
         slot (eeprom (resetSystem w)) i = Empty).
Proof.
  split; split.
  - unfold tallies, resetVotesOnly. cbn [vote1 vote2 vote3 eeprom lcd_do set_lcd set_votes set_eeprom].
    rewrite !clearFlags_from_read, !zero_tallies_read.
    unfold EEPROM_VOTE1, EEPROM_VOTE2, EEPROM_VOTE3, EEPROM_VOTED_START, MAX_FINGERPRINTS.
    repeat (destruct (decide _); try lia). done.
  - intros i Hi old new. subst old new. unfold slot, resetVotesOnly.
    cbn [eeprom lcd_do set_lcd set_votes set_eeprom].
    rewrite clearFlags_from_read, zero_tallies_read.
    unfold EEPROM_VOTE1, EEPROM_VOTE2, EEPROM_VOTE3, EEPROM_VOTED_START, MAX_FINGERPRINTS in *.
    destruct (decide (_ <= _ < _)) as [_|]; [|lia].
    destruct (decide (_ ∨ _)) as [|_]; [lia|].
    set (old := EEPROM_read (eeprom w) (10 + Z.of_nat i)).
    unfold Empty. destruct (Z.eqb_spec old 0xFF) as [Ho|Ho].
    + split; [done|]. intros Hne. done.
    + split; [done|]. intros _.
      split; [apply land_127_not_Empty|].
      split; [apply voted_land_127 | apply id_of_land_127].
  - unfold tallies, resetSystem. cbn [vote1 vote2 vote3 eeprom lcd_do set_lcd set_votes set_eeprom].
    rewrite !wipe_from_read, !zero_tallies_read.
    unfold EEPROM_VOTE1, EEPROM_VOTE2, EEPROM_VOTE3, EEPROM_VOTED_START, MAX_FINGERPRINTS.
    repeat (destruct (decide _); try lia). done.
  - intros i Hi. unfold slot, resetSystem.
    cbn [eeprom lcd_do set_lcd set_votes set_eeprom].
    rewrite wipe_from_read.
    unfold EEPROM_VOTED_START, MAX_FINGERPRINTS in *.
    destruct (decide _); [done|lia].
Qed.

Lemma reset_scoping_witness :
  let new := slot (eeprom (resetVotesOnly world_voted)) 1 in
  new ≠ Empty ∧ voted new = false
  ∧ id_of new = id_of (slot (eeprom world_voted) 1).
Proof.
  destruct (reset_scoping world_voted) as [[_ Hslots] _].
  destruct (Hslots 1%nat) as [_ Hocc]; [unfold MAX_FINGERPRINTS; lia|].
  apply Hocc. vm_compute. discriminate.
Defined.

(** ** SensorLink: the acknowledged commands *)

Lemma script_0 w : script 0 w = coming w.
Proof. reflexivity. Qed.

Lemma script_tail k w w' : line w' = tail (line w) → script k w' = script (S k) w.
Proof. intros H. unfold script. by rewrite H, drop_S_tail. Qed.

Lemma script_drop k n w w' :
  line w' = drop n (line w) → script k w' = script (n + k) w.
Proof. intros H. unfold script. by rewrite H, drop_drop. Qed.

Lemma quiet_packet w w' :
  quiet w w' → length (packet w) = PACKET_SIZE → length (packet w') = PACKET_SIZE.
Proof. intros (_&_&_&_&_&_&_&H). congruence. Qed.

Lemma checkFinger_spec w :
  length (packet w) = PACKET_SIZE →
  ∃ w', checkFinger w = Done (confirmed (reply 32 (coming w) 500), w')
        ∧ quiet w w' ∧ line w' = tail (line w).
Proof.
  intros Hp. unfold checkFinger.
  destruct (exchange GET_IMAGE [] 32 500 (drain w))
    as (w1 & w2 & -> & Hread & Hq & _ & Hl);
    [done | apply is_byte_GET_IMAGE | constructor | simpl; lia | lia |].
  rewrite bind_Done, Hread, bind_Done. exists w2.
  split; [done|]. split; [|done].
  apply (quiet_trans _ (drain w)); [apply quiet_drain|done].
Qed.

Lemma createModel_spec w :
  length (packet w) = PACKET_SIZE →
  ∃ w', createModel w = Done (confirmed (reply 32 (coming w) 1000), w')
        ∧ quiet w w' ∧ line w' = tail (line w)
        ∧ sent w' = sent w ++ [frame_of CREATE_MODEL []].
Proof.
  intros Hp. unfold createModel.
  destruct (exchange CREATE_MODEL [] 32 1000 w)
    as (w1 & w2 & -> & Hread & Hq & Hs & Hl);
    [done | unfold is_byte, CREATE_MODEL; lia | constructor | simpl; lia | lia |].
  rewrite bind_Done, Hread, bind_Done. by exists w2.
Qed.

Lemma storeModel_spec id w :
  length (packet w) = PACKET_SIZE →
  ∃ w', storeModel id w = Done (confirmed (reply 32 (coming w) 1000), w')
        ∧ quiet w w' ∧ line w' = tail (line w)
        ∧ sent w' = sent w ++
            [frame_of STORE_MODEL [0x01; u8 (Z.shiftr id 8); u8 (Z.land id 0xFF)]].
Proof.
  intros Hp. unfold storeModel.
  destruct (exchange STORE_MODEL [0x01; u8 (Z.shiftr id 8); u8 (Z.land id 0xFF)]
              32 1000 w)
    as (w1 & w2 & -> & Hread & Hq & Hs & Hl);
    [done | unfold is_byte, STORE_MODEL; lia | | simpl; lia | lia |].
  { repeat constructor; [unfold is_byte; lia | apply u8_is_byte..]. }
  rewrite bind_Done, Hread, bind_Done. by exists w2.
Qed.

Lemma getTemplateCount_spec w :
  length (packet w) = PACKET_SIZE →
  ∃ count w', getTemplateCount w = Done (count, w')
              ∧ quiet w w' ∧ line w' = tail (line w).
Proof.
  intros Hp. unfold getTemplateCount.
  destruct (exchange GET_TEMPLATE_COUNT [] 32 1000 w)
    as (w1 & w2 & -> & Hread & Hq & Hs & Hl);
    [done | unfold is_byte, GET_TEMPLATE_COUNT; lia | constructor | simpl; lia | lia |].
  rewrite bind_Done, Hread, bind_Done.
  destruct (_ && _); eexists _, w2; done.
Qed.

(** Projections of updated worlds. *)
Ltac wsimpl :=
  cbn [eeprom vote1 vote2 vote3 totalFingerprints packet rxbuf line sent lcd
       keys set_eeprom set_votes set_totalFingerprints set_packet set_rxbuf
       set_line set_sent set_lcd set_keys lcd_do drain] in *.

(** ** Enrollment: the registry write *)

Lemma allocate_full id e : registry_full e → allocate id e = e.
Proof.
  intros Hfull. unfold allocate. rewrite allocate_from_update_first.
  destruct (update_first_spec (fun s => s =? 0xFF) id MAX_FINGERPRINTS 0 e)
    as [[_ ->]|(j & Hj & Htest & _)]; [done|].
  apply Z.eqb_eq in Htest. destruct (Hfull j); [lia|done].
Qed.

(** What the end of [enrollFingerprint] does, by the sensor's answers to
    "create model" and "store model". *)
Lemma enrollFingerprint_store_spec id w :
  length (packet w) = PACKET_SIZE →
  ∃ w', enrollFingerprint_store id w = Done w'
        ∧ vote1 w' = vote1 w ∧ vote2 w' = vote2 w ∧ vote3 w' = vote3 w
        ∧ keys w' = keys w
        ∧ if confirmed (reply 32 (script 0 w) 1000) then
            if confirmed (reply 32 (script 1 w) 1000) then
              eeprom w' = allocate id (eeprom w)
              ∧ lcd w' = lcd w ++ [Clear; Print "Processing..."]
                         ++ [Clear; Print "Storing..."] ++ enroll_success id
            else
              eeprom w' = eeprom w
              ∧ lcd w' = lcd w ++ [Clear; Print "Processing..."]
                         ++ [Clear; Print "Storing..."]
                         ++ [Clear; Print "Store failed!"]
          else
            eeprom w' = eeprom w
            ∧ lcd w' = lcd w ++ [Clear; Print "Processing..."]
                       ++ [Clear; Print "Mismatch!"].
Proof.
  intros Hp. unfold enrollFingerprint_store.
  destruct (createModel_spec (lcd_do [Clear; Print "Processing..."] w))
    as (w1 & -> & Hq1 & Hl1 & _); [done|].
  rewrite bind_Done. change (coming (lcd_do _ w)) with (script 0 w).
  destruct Hq1 as (He1 & Ha1 & Hb1 & Hc1 & _ & Hd1 & Hk1 & Hp1).
  wsimpl.
  destruct (confirmed (reply 32 (script 0 w) 1000)); cbn [negb].
  2:{ eexists. split; [reflexivity|]. wsimpl. rewrite Hd1, <- app_assoc.
      split_and!; (done || congruence). }
  destruct (storeModel_spec id (lcd_do [Clear; Print "Storing..."] w1))
    as (w2 & -> & Hq2 & Hl2 & _); [wsimpl; congruence|].
  rewrite bind_Done.
  replace (coming (lcd_do [Clear; Print "Storing..."] w1)) with (script 1 w)
    by (symmetry; apply (script_tail 0 w w1 Hl1)).
  destruct Hq2 as (He2 & Ha2 & Hb2 & Hc2 & _ & Hd2 & Hk2 & Hp2).
  wsimpl.
  destruct (confirmed (reply 32 (script 1 w) 1000)); cbn [negb].
  2:{ eexists. split; [reflexivity|]. wsimpl. rewrite Hd2, Hd1, <- !app_assoc.
      split_and!; (done || congruence). }
  destruct (getTemplateCount_spec
              (lcd_do (enroll_success id)
                 (set_eeprom (allocate id (eeprom w2)) w2)))
    as (count & w3 & -> & Hq3 & _); [wsimpl; congruence|].
  rewrite bind_Done.
  destruct Hq3 as (He3 & Ha3 & Hb3 & Hc3 & _ & Hd3 & Hk3 & _).
  wsimpl.
  eexists. split; [reflexivity|]. wsimpl.
  rewrite Hd3, Hd2, Hd1, <- !app_assoc.
  split_and!; (done || congruence).
Qed.

(** C7 (amended): when every one of the 25 registry slots is non-Empty,
    the registry write at the end of an enrollment mutates no slot and no
    tally; and it reports nothing: after the sensor has confirmed merge
    and store, the workflow goes on to display "SUCCESS!" with the ID, as
    it does when a slot was free. *)
Theorem allocate_on_full_registry (w : World) (id : Z) :
  length (packet w) = PACKET_SIZE → registry_full (eeprom w) →
  allocate id (eeprom w) = eeprom w
  ∧ ∃ w', enrollFingerprint_store id w = Done w'
          ∧ eeprom w' = eeprom w
          ∧ tallies w' = tallies w
          ∧ (confirmed (reply 32 (script 0 w) 1000) = true →
             confirmed (reply 32 (script 1 w) 1000) = true →
             shown_since w w' =
               [Clear; Print "Processing..."] ++ [Clear; Print "Storing..."]
               ++ [Clear; Print "SUCCESS!"; SetCursor 0 1; Print "ID: ";
                   PrintNum id]).
Proof.
  intros Hp Hfull. split; [by apply allocate_full|].
  destruct (enrollFingerprint_store_spec id w Hp)
    as (w' & Hrun & Ha & Hb & Hc & _ & Hcases).
  exists w'. split; [done|].
  assert (He : eeprom w' = eeprom w).
  { destruct (confirmed _); [destruct (confirmed _)|];
      destruct Hcases as [-> _]; [by apply allocate_full|done..]. }
  split; [done|]. split; [unfold tallies; congruence|].
  intros Hc1 Hc2. rewrite Hc1, Hc2 in Hcases. destruct Hcases as [_ Hl].
  unfold shown_since. rewrite Hl, drop_app_length. reflexivity.
Qed.

Lemma eeprom_full_is_full : registry_full eeprom_full.
Proof.
  intros i Hi. unfold MAX_FINGERPRINTS in Hi.
  do 25 (destruct i as [|i]; [vm_compute; discriminate|]). lia.
Qed.

Lemma allocate_on_full_registry_witness :
  let w := set_line [deliver (ack 0x00); deliver (ack 0x00);
                     deliver (count_reply 2)]
             (set_eeprom eeprom_full world0) in
  allocate 2 (eeprom w) = eeprom w
  ∧ ∃ w', enrollFingerprint_store 2 w = Done w'
          ∧ eeprom w' = eeprom w
          ∧ tallies w' = tallies w
          ∧ (confirmed (reply 32 (script 0 w) 1000) = true →
             confirmed (reply 32 (script 1 w) 1000) = true →
             shown_since w w' =
               [Clear; Print "Processing..."] ++ [Clear; Print "Storing..."]
               ++ [Clear; Print "SUCCESS!"; SetCursor 0 1; Print "ID: ";
                   PrintNum 2]).
Proof.
  apply allocate_on_full_registry.
  - reflexivity.
  - apply eeprom_full_is_full.
Defined.

(** C7 as stated fails in "reports failure": on a full registry a complete
    enrollment of ID 2, accepted by the sensor at every step, leaves the 25
    slots as they were (ID 2 is in none) and ends on the display of
    "SUCCESS!"; the display shows what it shows for the same enrollment
    on a fresh device, where the ID is recorded. *)
Lemma full_registry_enrollment_shows_success :
  registry eeprom_full = replicate 25 1
  ∧ ∃ w', enrollFingerprint world_full_enroll = Done w'
          ∧ registry (eeprom w') = replicate 25 1
          ∧ drop (length (lcd w') - 5) (lcd w') = enroll_success 2
          ∧ ∃ w'', enrollFingerprint world_fresh_enroll = Done w''
                   ∧ registry (eeprom w'') = 2 :: replicate 24 Empty
                   ∧ lcd w'' = lcd w'.
Proof.
  split; [vm_compute; reflexivity|].
  eexists. split; [vm_compute; reflexivity|].
  split; [vm_compute; reflexivity|].
  split; [vm_compute; reflexivity|].
  eexists. split; [vm_compute; reflexivity|].
  split; vm_compute; reflexivity.
Qed.

(** ** Registry uniqueness *)

Lemma id_of_u8 v : id_of (u8 v) = id_of v.
Proof.
  unfold id_of, u8. rewrite <- land_255, <- Z.land_assoc. reflexivity.
Qed.

Lemma id_of_set_voted v : id_of (Z.lor v 0x80) = id_of v.
Proof.
  unfold id_of. rewrite Z.land_lor_distr_l. change (Z.land 0x80 0x7F) with 0.
  apply Z.lor_0_r.
Qed.

(** Overwriting one slot keeps the IDs unique when the new value is Empty
    or carries an ID that no other slot holds. *)
Lemma unique_ids_write e (j : nat) v :
  unique_ids e →
  (u8 v = Empty
   ∨ ∀ i : nat, (i < MAX_FINGERPRINTS)%nat → i ≠ j → slot e i ≠ Empty →
        id_of (slot e i) ≠ id_of v) →
  unique_ids (EEPROM_write e (EEPROM_VOTED_START + Z.of_nat j) v).
Proof.
  intros Hu Hv i k Hi Hk. rewrite !slot_write.
  destruct (decide (i = j)) as [->|Hij], (decide (k = j)) as [->|Hkj];
    [done| | |by apply Hu].
  - intros Hn1 Hn2 Hid. destruct Hv as [Hv|Hv]; [done|].
    rewrite id_of_u8 in Hid. symmetry in Hid. by destruct (Hv k Hk Hkj Hn2).
  - intros Hn1 Hn2 Hid. destruct Hv as [Hv|Hv]; [done|].
    rewrite id_of_u8 in Hid. by destruct (Hv i Hi Hij Hn1).
Qed.

Lemma unique_ids_allocate id e :
  unique_ids e → ¬ holds e id → unique_ids (allocate id e).
Proof.
  intros Hu Hfresh. unfold allocate. rewrite allocate_from_update_first.
  destruct (update_first_spec (fun s => s =? 0xFF) id MAX_FINGERPRINTS 0 e)
    as [[_ ->]|(j & Hj & _ & _ & ->)]; [done|].
  apply unique_ids_write; [done|]. right. intros i Hi _ Hocc Hid.
  apply Hfresh. by exists i.
Qed.

Lemma unique_ids_release id e : unique_ids e → unique_ids (release id e).
Proof.
  intros Hu. unfold release. rewrite release_from_update_first.
  destruct (update_first_spec (fun s => (s =? id) || (s =? Z.lor id 0x80))
              0xFF MAX_FINGERPRINTS 0 e)
    as [[_ ->]|(j & Hj & _ & _ & ->)]; [done|].
  apply unique_ids_write; [done|]. by left.
Qed.

Lemma unique_ids_markAsVoted id e :
  unique_ids e → unique_ids (markAsVoted_from MAX_FINGERPRINTS 0 id e).
Proof.
  intros Hu. rewrite markAsVoted_from_update_first.
  destruct (update_first_spec (fun s => s =? id) (Z.lor id 0x80)
              MAX_FINGERPRINTS 0 e)
    as [[_ ->]|(j & Hj & Hs & _ & ->)]; [done|].
  apply Z.eqb_eq in Hs.
  apply unique_ids_write; [done|].
  destruct (decide (slot e j = Empty)) as [Hempty|Hocc].
  - left. rewrite <- Hs, Hempty. reflexivity.
  - right. intros i Hi Hij Hocci Hid. rewrite id_of_set_voted, <- Hs in Hid.
    apply Hij. apply Hu; [done | lia | done..].
Qed.

Lemma unique_ids_run ops : ∀ e,
  unique_ids e → allocates_fresh ops e → unique_ids (run_ops ops e).
Proof.
  induction ops as [|o ops IH]; intros e Hu Hfresh; [done|].
  destruct Hfresh as [Ho Hfresh]. unfold run_ops. cbn [foldl].
  apply IH; [|done].
  destruct o as [id|id|id]; cbn [apply_op].
  - by apply unique_ids_allocate.
  - by apply unique_ids_release.
  - by apply unique_ids_markAsVoted.
Qed.

(** C2 (amended): after any sequence of allocate and release operations
    (and of votes being marked) starting from an all-Empty registry, in
    which no ID is allocated while a non-Empty slot holds it, no two
    non-Empty slots of the 25-slot table hold the same fingerprint ID,
    the voted bit ignored. *)
Theorem registry_uniqueness (ops : list reg_op) (e : Z -> Z) :
  (∀ i : nat, (i < MAX_FINGERPRINTS)%nat → slot e i = Empty) →
  allocates_fresh ops e →
  unique_ids (run_ops ops e).
Proof.
  intros Hempty Hfresh. apply unique_ids_run; [|done].
  intros i j Hi _ Hocc. by destruct (Hocc (Hempty i Hi)).
Qed.

Lemma holds_holdsb e id : holds e id ↔ holdsb e id = true.
Proof.
  unfold holds, holdsb. rewrite existsb_exists. split.
  - intros (i & Hi & Hocc & Hid). exists i. split.
    + apply in_seq. lia.
    + apply andb_true_iff. split; [|by apply Z.eqb_eq].
      apply negb_true_iff. by apply Z.eqb_neq.
  - intros (i & Hi & Hb). apply in_seq in Hi.
    apply andb_true_iff in Hb as [Hocc Hid]. exists i.
    split; [lia|]. split; [|by apply Z.eqb_eq].
    apply negb_true_iff in Hocc. by apply Z.eqb_neq.
Qed.

Lemma registry_uniqueness_witness :
  unique_ids
    (run_ops [Allocate 5; Allocate 7; MarkVoted 7; Release 5; Allocate 5;
              Release 7; Allocate 7]
       (eeprom world0)).
Proof.
  apply registry_uniqueness.
  - intros i _. reflexivity.
  - cbn [allocates_fresh].
    repeat (split; [try exact I; rewrite holds_holdsb; vm_compute; discriminate|]).
    exact I.
Defined.

(** C2 as stated fails: nothing keeps an ID that is enrolled from being
    enrolled again, and the second enrollment takes a second slot. *)
Lemma allocate_twice_duplicates :
  registry (eeprom world0) = replicate 25 Empty
  ∧ registry (run_ops [Allocate 5; Allocate 5] (eeprom world0))
    = [5; 5] ++ replicate 23 Empty
  ∧ ¬ unique_ids (run_ops [Allocate 5; Allocate 5] (eeprom world0)).
Proof.
  split; [vm_compute; reflexivity|]. split; [vm_compute; reflexivity|].
  intros Hu. specialize (Hu 0%nat 1%nat).
  assert (0 = 1)%nat; [|lia].
  apply Hu; [unfold MAX_FINGERPRINTS; lia.. | | |]; vm_compute; congruence.
Qed.

(** ** Deletion *)

(** The loops over the slots leave the tally cells alone. *)
Lemma update_first_tally_cell test v n i e a :
  a < EEPROM_VOTED_START →
  EEPROM_read (update_first test v n i e) a = EEPROM_read e a.
Proof.
  intros Ha.
  destruct (update_first_spec test v n i e)
    as [[_ ->]|(j & _ & _ & _ & ->)]; [done|].
  by apply tally_cell_write.
Qed.

(** [release]: either no slot reads [id] or [id | 0x80] and nothing
    changes, or the first such slot becomes Empty and the others stay. *)
Lemma release_spec id e :
  ((∀ i : nat, (i < MAX_FINGERPRINTS)%nat →
       slot e i ≠ id ∧ slot e i ≠ Z.lor id 0x80)
   ∧ release id e = e)
  ∨ (∃ j : nat, (j < MAX_FINGERPRINTS)%nat
       ∧ (slot e j = id ∨ slot e j = Z.lor id 0x80)
       ∧ (∀ k : nat, (k < j)%nat → slot e k ≠ id ∧ slot e k ≠ Z.lor id 0x80)
       ∧ slot (release id e) j = Empty
       ∧ ∀ i : nat, i ≠ j → slot (release id e) i = slot e i).
Proof.
  unfold release. rewrite release_from_update_first.
  destruct (update_first_spec (fun s => (s =? id) || (s =? Z.lor id 0x80))
              0xFF MAX_FINGERPRINTS 0 e)
    as [[Hnone ->]|(j & Hj & Htest & Hfirst & ->)].
  - left. split; [|done]. intros i Hi.
    specialize (Hnone i ltac:(lia)). apply orb_false_iff in Hnone as [H1 H2].
    split; by apply Z.eqb_neq.
  - right. exists j. split; [lia|]. split.
    { apply orb_true_iff in Htest as [H|H]; apply Z.eqb_eq in H; auto. }
    split.
    { intros k Hk. specialize (Hfirst k ltac:(lia)).
      apply orb_false_iff in Hfirst as [H1 H2]. split; by apply Z.eqb_neq. }
    split.
    + rewrite slot_write. by destruct (decide (j = j)).
    + intros i Hi. rewrite slot_write. by destruct (decide (i = j)).
Qed.

(** The ID selection loop touches the display and the button script
    only, and the ID it yields is one of 1 .. 25. *)
Lemma selectID_loop_spec confirm cancel ks : ∀ id w sel w',
  selectID_loop ks confirm cancel id w = Done (sel, w') →
  eeprom w' = eeprom w ∧ vote1 w' = vote1 w ∧ vote2 w' = vote2 w
  ∧ vote3 w' = vote3 w ∧ packet w' = packet w ∧ line w' = line w
  ∧ sent w' = sent w
  ∧ (1 <= id <= Z.of_nat MAX_FINGERPRINTS →
     ∀ id', sel = Some id' → 1 <= id' <= Z.of_nat MAX_FINGERPRINTS).
Proof.
  induction ks as [|k ks IH]; intros id w sel w' Hrun;
    cbn [selectID_loop] in Hrun; [done|].
  set (id1 := if k_low k BTN_UP then _ else id) in Hrun.
  set (id2 := if k_low k BTN_DOWN then _ else id1) in Hrun.
  assert (Hrange : 1 <= id <= Z.of_nat MAX_FINGERPRINTS →
                   1 <= id2 <= Z.of_nat MAX_FINGERPRINTS).
  { intros Hid. unfold id2, id1, MAX_FINGERPRINTS in *.
    destruct (k_low k BTN_UP), (k_low k BTN_DOWN);
      repeat match goal with
             | |- context [?a <? ?b] => destruct (Z.ltb_spec a b)
             end; lia. }
  destruct (k_low k confirm).
  { inversion Hrun; subst. wsimpl. split_and!; try done.
    intros Hid id' [= <-]. auto. }
  destruct (k_low k cancel).
  { inversion Hrun; subst. wsimpl. split_and!; try done. }
  apply IH in Hrun as (?&?&?&?&?&?&?&Hr). wsimpl.
  split_and!; try done. intros Hid. apply Hr. auto.
Qed.

Lemma deleteByID_id_spec id w :
  length (packet w) = PACKET_SIZE →
  ∃ w', deleteByID_id id w = Done w'
        ∧ vote1 w' = vote1 w ∧ vote2 w' = vote2 w ∧ vote3 w' = vote3 w
        ∧ eeprom w' = if confirmed (reply 32 (script 0 w) 1000)
                      then release id (eeprom w) else eeprom w.
Proof.
  intros Hp. unfold deleteByID_id.
  destruct (exchange DELETE_MODEL
              [u8 (Z.shiftr id 8); u8 (Z.land id 0xFF); 0x00; 0x01] 32 1000
              (lcd_do [Clear; Print "Deleting ID:"; PrintNum id] w))
    as (w1 & w2 & -> & Hread & Hq & _ & Hl);
    [done | unfold is_byte, DELETE_MODEL; lia | | simpl; lia | lia |].
  { repeat constructor; [apply u8_is_byte.. | unfold is_byte; lia
                         | unfold is_byte; lia]. }
  rewrite bind_Done, Hread, bind_Done.
  change (coming (lcd_do _ w)) with (script 0 w).
  fold (confirmed (reply 32 (script 0 w) 1000)).
  destruct Hq as (He & Ha & Hb & Hc & _ & _ & _ & Hp2). wsimpl.
  set (w3 := if confirmed _ then _ else _).
  assert (H3 : length (packet w3) = PACKET_SIZE
               ∧ vote1 w3 = vote1 w ∧ vote2 w3 = vote2 w ∧ vote3 w3 = vote3 w
               ∧ eeprom w3 = if confirmed (reply 32 (script 0 w) 1000)
                             then release id (eeprom w) else eeprom w).
  { unfold w3. destruct (confirmed _); wsimpl; split_and!; congruence. }
  destruct H3 as (Hp3 & Ha3 & Hb3 & Hc3 & He3).
  destruct (getTemplateCount_spec w3 Hp3) as (count & w4 & -> & Hq4 & _).
  rewrite bind_Done.
  destruct Hq4 as (He4 & Ha4 & Hb4 & Hc4 & _).
  eexists. split; [reflexivity|]. wsimpl. split_and!; congruence.
Qed.

(** C5: in [deleteByID], once an ID has been selected, the call returns
    and no tally changes; when the sensor's reply to "delete model" is
    absent, shorter than 12 bytes or carries a non-zero confirmation
    code, every registry slot is left as it was; only when the reply has
    12 bytes or more and confirmation [0x00] is the registry released:
    then the first slot that reads the ID, with the voted bit set or
    clear, becomes Empty and every other slot is left as it was (and
    nothing changes if no slot reads it). *)
Theorem deleteByID_fail_closed (w w1 : World) (id : Z) :
  length (packet w) = PACKET_SIZE →
  selectID BTN_DELETE BTN_ENROLL (lcd_do [Clear; Print "Delete ID:"] w)
    = Done (Some id, w1) →
  ∃ w', deleteByID w = Done w'
        ∧ tallies w' = tallies w
        ∧ (confirmed (reply 32 (script 0 w) 1000) = false →
           ∀ i : nat, (i < MAX_FINGERPRINTS)%nat →
             slot (eeprom w') i = slot (eeprom w) i)
        ∧ (confirmed (reply 32 (script 0 w) 1000) = true →
           ((∀ i : nat, (i < MAX_FINGERPRINTS)%nat →
               slot (eeprom w) i ≠ id ∧ slot (eeprom w) i ≠ Z.lor id 0x80)
            ∧ eeprom w' = eeprom w)
           ∨ (∃ j : nat, (j < MAX_FINGERPRINTS)%nat
                ∧ (slot (eeprom w) j = id ∨ slot (eeprom w) j = Z.lor id 0x80)
                ∧ (∀ k : nat, (k < j)%nat →
                     slot (eeprom w) k ≠ id ∧ slot (eeprom w) k ≠ Z.lor id 0x80)
                ∧ slot (eeprom w') j = Empty
                ∧ ∀ i : nat, i ≠ j → slot (eeprom w') i = slot (eeprom w) i)).
Proof.
  intros Hp Hsel. unfold deleteByID. rewrite Hsel, bind_Done.
  apply selectID_loop_spec in Hsel as (He & Ha & Hb & Hc & Hpk & Hl & _).
  wsimpl.
  destruct (deleteByID_id_spec id w1) as (w' & -> & Ha' & Hb' & Hc' & He');
    [congruence|].
  replace (script 0 w1) with (script 0 w) in He'
    by (unfold script; by rewrite Hl).
  exists w'. split; [done|].
  assert (Ht : tallies w' = tallies w).
  { unfold tallies. rewrite Ha', Hb', Hc', Ha, Hb, Hc, He'. do 3 f_equal.
    destruct (confirmed _); [|by rewrite He].
    unfold release. rewrite release_from_update_first.
    rewrite !update_first_tally_cell by done. by rewrite He. }
  split; [done|]. split.
  - intros Hno i _. rewrite He', Hno. by rewrite He.
  - intros Hyes. rewrite Hyes, He in He'. rewrite He'.
    apply release_spec.
Qed.

Lemma deleteByID_fail_closed_witness :
  ∃ w', deleteByID world_delete_refused = Done w'
        ∧ tallies w' = tallies world_delete_refused
        ∧ (confirmed (reply 32 (script 0 world_delete_refused) 1000) = false →
           ∀ i : nat, (i < MAX_FINGERPRINTS)%nat →
             slot (eeprom w') i = slot (eeprom world_delete_refused) i).
Proof.
  edestruct (deleteByID_fail_closed world_delete_refused) as (w' & H1 & H2 & H3 & _).
  - reflexivity.
  - vm_compute. reflexivity.
  - exists w'. split_and!; [exact H1 | exact H2 | exact H3].
Defined.

Example deleteByID_refused :
  ∃ w', deleteByID world_delete_refused = Done w'
        ∧ registry (eeprom w') = [5; 0x87] ++ replicate 23 Empty
        ∧ tallies w' = [1; 0; 1; 1; 0; 1].
Proof. eexists. split_and!; vm_compute; reflexivity. Qed.

Example deleteByID_confirmed :
  ∃ w', deleteByID world_delete_confirmed = Done w'
        ∧ registry (eeprom w') = [5; Empty] ++ replicate 23 Empty
        ∧ tallies w' = [1; 0; 1; 1; 0; 1].
Proof. eexists. split_and!; vm_compute; reflexivity. Qed.

(** ** Voting *)

Lemma imageToTemplate_spec bufferID w :
  length (packet w) = PACKET_SIZE →
  ∃ w', imageToTemplate bufferID w
        = Done (confirmed (reply 64 (coming w) 5000), w')
        ∧ eeprom w' = eeprom w ∧ vote1 w' = vote1 w ∧ vote2 w' = vote2 w
        ∧ vote3 w' = vote3 w ∧ keys w' = keys w
        ∧ length (packet w') = PACKET_SIZE
        ∧ line w' = tail (line w)
        ∧ (confirmed (reply 64 (coming w) 5000) = true → lcd w' = lcd w).
Proof.
  intros Hp. unfold imageToTemplate.
  destruct (exchange IMAGE_TO_TZ [u8 bufferID] 64 5000 (drain w))
    as (w1 & w2 & -> & Hread & Hq & _ & Hl);
    [done | unfold is_byte, IMAGE_TO_TZ; lia | | simpl; lia | lia |].
  { constructor; [apply u8_is_byte | constructor]. }
  rewrite bind_Done, Hread, bind_Done.
  change (coming (drain w)) with (coming w). unfold confirmed.
  destruct Hq as (He & Ha & Hb & Hc & _ & Hd & Hk & Hp2). wsimpl.
  destruct (12 <=? _); cbn [andb].
  - destruct (at_ _ 9 =? 0x00) eqn:Hcode; cbn [negb];
      eexists; (split; [reflexivity|]); wsimpl;
      split_and!; (done || congruence).
  - eexists; (split; [reflexivity|]); split_and!; (done || congruence).
Qed.

(** [verifyAndVote] up to the search returns, touching neither the store
    nor the button script; when it has a search response, the display
    shows the three progress screens and nothing else. *)
Lemma verifyAndVote_search_spec w :
  length (packet w) = PACKET_SIZE →
  ∃ found w1, verifyAndVote_search w = Done (found, w1)
              ∧ eeprom w1 = eeprom w ∧ vote1 w1 = vote1 w
              ∧ vote2 w1 = vote2 w ∧ vote3 w1 = vote3 w ∧ keys w1 = keys w
              ∧ (is_Some found → lcd w1 = lcd w ++ verify_progress).
Proof.
  intros Hp. unfold verifyAndVote_search.
  set (wa := drain (lcd_do _ w)).
  destruct (waitForFinger_returns 15 wa)
    as (found & wb & n & -> & Hqb & _ & _ & _); [done|].
  rewrite bind_Done.
  destruct Hqb as (He & Ha & Hb & Hc & _ & Hd & Hk & Hpb).
  unfold wa in *. wsimpl.
  destruct found; cbn [negb].
  2:{ eexists _, _. split; [reflexivity|]. wsimpl.
      split_and!; try congruence. by intros [? ?]. }
  destruct (imageToTemplate_spec 1
              (lcd_do [Clear; Print "Verifying..."; SetCursor 0 1;
                       Print "Please wait..."] wb))
    as (wc & -> & He2 & Ha2 & Hb2 & Hc2 & Hk2 & Hp2 & _ & Hd2);
    [wsimpl; congruence|].
  rewrite bind_Done. wsimpl.
  destruct (confirmed _); cbn [negb].
  2:{ eexists _, _. split; [reflexivity|]. wsimpl.
      split_and!; try congruence. by intros [? ?]. }
  destruct (exchange SEARCH [0x01; 0x00; 0x00; 0x00; 0x7F] 32 3000
              (drain (lcd_do [Clear; Print "Searching..."] wc)))
    as (w1 & w2 & -> & Hread & Hq & _ & _);
    [wsimpl; congruence | unfold is_byte, SEARCH; lia
     | repeat constructor; unfold is_byte; lia | simpl; lia | lia |].
  rewrite bind_Done, Hread, bind_Done.
  destruct Hq as (He3 & Ha3 & Hb3 & Hc3 & _ & Hd3 & Hk3 & _). wsimpl.
  eexists _, _. split; [reflexivity|].
  split_and!; try congruence.
  intros _. rewrite Hd3, Hd2, Hd by done. unfold verify_progress.
  by rewrite <- !app_assoc.
Qed.

Lemma alreadyVoted_true matchID e :
  alreadyVoted matchID e = true
  ↔ ∃ i : nat, (i < MAX_FINGERPRINTS)%nat ∧ slot e i = Z.lor matchID 0x80.
Proof.
  unfold alreadyVoted. rewrite alreadyVoted_from_true.
  split; intros (i & Hi & Hs); exists i; (split; [lia|done]).
Qed.

Lemma alreadyVoted_unregistered id e :
  unregistered id e → alreadyVoted id e = false.
Proof.
  intros Hun. apply not_true_is_false. rewrite alreadyVoted_true.
  intros (i & Hi & Hs). by destruct (Hun i Hi) as [_ []].
Qed.

Lemma markAsVoted_unregistered id e :
  unregistered id e → markAsVoted_from MAX_FINGERPRINTS 0 id e = e.
Proof.
  intros Hun. rewrite markAsVoted_from_update_first.
  destruct (update_first_spec (fun s => s =? id) (Z.lor id 0x80)
              MAX_FINGERPRINTS 0 e)
    as [[_ ->]|(j & Hj & Hs & _)]; [done|].
  apply Z.eqb_eq in Hs. by destruct (Hun j ltac:(lia)) as [[] _].
Qed.

Lemma unregistered_ext id e e' :
  (∀ i : nat, slot e' i = slot e i) → unregistered id e → unregistered id e'.
Proof. intros Hs Hun i Hi. rewrite Hs. by apply Hun. Qed.

(** A byte with bit 7 set is its low seven bits with [0x80] or-ed in. *)
Lemma voted_slot_value s :
  is_byte s → voted s = true → s = Z.lor (id_of s) 0x80.
Proof.
  intros Hs Hv. unfold id_of, voted in *.
  assert (H128 : Z.land s 0x80 = 0x80).
  { apply Z.bits_inj'. intros n Hn. rewrite Z.land_spec.
    change 0x80 with (2 ^ 7). rewrite Z.pow2_bits_eqb by lia.
    destruct (Z.eqb_spec 7 n) as [<-|]; [by rewrite Hv | apply andb_false_r]. }
  rewrite <- H128 at 1. rewrite <- Z.land_lor_distr_r.
  change (Z.lor 0x7F 0x80) with 0xFF. rewrite land_255.
  symmetry. apply Z.mod_small. exact Hs.
Qed.

(** [castVote] for a voter no slot reads: the registry stays as it is,
    the tallies move by the selected candidate, and the display tells the
    outcome. *)
Lemma castVote_loop_unregistered voterID ks : ∀ w,
  unregistered voterID (eeprom w) →
  (∀ i : nat, slot (eeprom (castVote_loop ks voterID w)) i = slot (eeprom w) i)
  ∧ tallies (castVote_loop ks voterID w)
    = match selected ks with
      | Some c => tallies_voted c w
      | None => tallies w
      end
  ∧ lcd (castVote_loop ks voterID w) = lcd w ++ vote_outcome_msg (selected ks).
Proof.
  assert (Hvote : ∀ a v e, a < EEPROM_VOTED_START →
            unregistered voterID e →
            markAsVoted_from MAX_FINGERPRINTS 0 voterID (EEPROM_write e a v)
            = EEPROM_write e a v).
  { intros a v e Ha Hun. apply markAsVoted_unregistered.
    apply (unregistered_ext _ e); [|done].
    intros i. by apply slot_write_tally. }
  induction ks as [|k ks IH]; intros w Hun; cbn [castVote_loop selected].
  - wsimpl. done.
  - destruct (u32 (k_elapsed k) <? 15000); [|wsimpl; done].
    destruct (k_low k BTN_CANDIDATE1).
    { unfold markAsVoted, tallies, tallies_voted. wsimpl.
      rewrite Hvote by done. split; [intros i; by apply slot_write_tally|].
      split; [|done]. rewrite EEPROM_read_write.
      rewrite !EEPROM_read_write_ne by done. done. }
    destruct (k_low k BTN_CANDIDATE2).
    { unfold markAsVoted, tallies, tallies_voted. wsimpl.
      rewrite Hvote by done. split; [intros i; by apply slot_write_tally|].
      split; [|done]. rewrite EEPROM_read_write.
      rewrite !EEPROM_read_write_ne by done. done. }
    destruct (k_low k BTN_CANDIDATE3).
    { unfold markAsVoted, tallies, tallies_voted. wsimpl.
      rewrite Hvote by done. split; [intros i; by apply slot_write_tally|].
      split; [|done]. rewrite EEPROM_read_write.
      rewrite !EEPROM_read_write_ne by done. done. }
    destruct (IH (set_keys ks w) Hun) as (Hs & Ht & Hl). done.
Qed.

(** C3: for every registry state and every matched ID, if some slot
    holds that ID (in its low seven bits) with the voted bit set,
    [verifyAndVote]
    returns after displaying "Already Voted!": no candidate selection is
    offered (the vote prompt is not displayed and no button poll is
    consumed), and the three tallies and the whole EEPROM, hence every
    registry slot, are as before the call. *)
Theorem already_voted_rejected (w w1 : World) (response : list Z) (len : Z) :
  length (packet w) = PACKET_SIZE →
  verifyAndVote_search w = Done (Some (response, len), w1) →
  16 <= len → at_ response 9 = 0x00 →
  (∃ i : nat, (i < MAX_FINGERPRINTS)%nat
     ∧ id_of (slot (eeprom w) i) = be16 response 10
     ∧ voted (slot (eeprom w) i) = true) →
  ∃ w', verifyAndVote w = Done w'
        ∧ eeprom w' = eeprom w
        ∧ tallies w' = tallies w
        ∧ keys w' = keys w
        ∧ shown_since w w'
          = verify_progress ++ already_voted_msg (be16 response 10).
Proof.
  intros Hp Hsearch Hlen Hcode (i & Hi & Hid & Hvoted).
  destruct (verifyAndVote_search_spec w Hp)
    as (found & w1' & Hrun & He & Ha & Hb & Hc & Hk & Hlcd).
  rewrite Hsearch in Hrun. injection Hrun as <- <-.
  specialize (Hlcd ltac:(by eexists)).
  unfold verifyAndVote. rewrite Hsearch, bind_Done.
  destruct (Z.leb_spec 16 len) as [_|]; [|lia].
  rewrite Hcode. cbn [andb Z.eqb].
  unfold verifyAndVote_match.
  assert (Hav : alreadyVoted (be16 response 10) (eeprom w1) = true).
  { apply alreadyVoted_true. exists i. split; [done|]. rewrite He, <- Hid.
    apply voted_slot_value; [apply EEPROM_read_byte | done]. }
  rewrite Hav. eexists. split; [reflexivity|]. wsimpl.
  split; [done|]. split; [unfold tallies; wsimpl; congruence|]. split; [done|].
  unfold shown_since. wsimpl. by rewrite Hlcd, <- app_assoc, drop_app_length.
Qed.

Lemma already_voted_rejected_witness :
  ∃ w', verifyAndVote world_vote_7 = Done w'
        ∧ eeprom w' = eeprom world_vote_7
        ∧ tallies w' = tallies world_vote_7
        ∧ keys w' = keys world_vote_7
        ∧ shown_since world_vote_7 w'
          = verify_progress ++ already_voted_msg 7.
Proof.
  eapply (already_voted_rejected world_vote_7 _
            (search_reply 0x00 7 100 ++ replicate 16 0) 16).
  - reflexivity.
  - vm_compute. reflexivity.
  - lia.
  - reflexivity.
  - exists 1%nat. split_and!;
      [unfold MAX_FINGERPRINTS; lia | reflexivity | reflexivity].
Defined.

Lemma verifyAndVote_match_unregistered response w :
  unregistered (be16 response 10) (eeprom w) →
  ∀ i : nat, slot (eeprom (verifyAndVote_match response w)) i
             = slot (eeprom w) i.
Proof.
  intros Hun i. unfold verifyAndVote_match.
  rewrite (alreadyVoted_unregistered _ _ Hun). unfold castVote.
  set (w2 := lcd_do vote_prompt _).
  destruct (castVote_loop_unregistered (be16 response 10) (keys w2) w2)
    as (Hs & _); [done|].
  by rewrite Hs.
Qed.

Lemma revote_unregistered response sessions : ∀ w,
  unregistered (be16 response 10) (eeprom w) →
  unregistered (be16 response 10) (eeprom (revote response sessions w)).
Proof.
  induction sessions as [|ks sessions IH]; intros w Hun; [done|].
  unfold revote. cbn [foldl]. apply IH. unfold vote_again.
  apply (unregistered_ext _ (eeprom w)); [|done].
  intros i. by rewrite verifyAndVote_match_unregistered.
Qed.

(** C4: if the search reports a match (confirmation [0x00], at least 16
    response bytes) for an ID that no registry slot reads, with the voted
    bit clear or set, the eligibility check passes and the vote prompt is
    displayed; the candidate selected, if any, has its tally incremented
    and written to its EEPROM cell; [markAsVoted] writes nothing, every
    slot reads as before; so no slot records the ID as voted and the
    eligibility check passes for it again after this attempt and after
    any number of further attempts of the same kind. *)
Theorem unregistered_match_votes_again (w w1 : World) (response : list Z)
    (len : Z) :
  length (packet w) = PACKET_SIZE →
  verifyAndVote_search w = Done (Some (response, len), w1) →
  16 <= len → at_ response 9 = 0x00 →
  unregistered (be16 response 10) (eeprom w) →
  alreadyVoted (be16 response 10) (eeprom w) = false
  ∧ ∃ w', verifyAndVote w = Done w'
          ∧ shown_since w w'
            = verify_progress ++ authorized_msg response ++ vote_prompt
              ++ vote_outcome_msg (selected (keys w))
          ∧ tallies w' = match selected (keys w) with
                         | Some c => tallies_voted c w
                         | None => tallies w
                         end
          ∧ (∀ i : nat, slot (eeprom w') i = slot (eeprom w) i)
          ∧ unregistered (be16 response 10) (eeprom w')
          ∧ ∀ sessions,
              alreadyVoted (be16 response 10)
                (eeprom (revote response sessions w')) = false.
Proof.
  intros Hp Hsearch Hlen Hcode Hun.
  split; [by apply alreadyVoted_unregistered|].
  destruct (verifyAndVote_search_spec w Hp)
    as (found & w1' & Hrun & He & Ha & Hb & Hc & Hk & Hlcd).
  rewrite Hsearch in Hrun. injection Hrun as <- <-.
  specialize (Hlcd ltac:(by eexists)).
  unfold verifyAndVote. rewrite Hsearch, bind_Done.
  destruct (Z.leb_spec 16 len) as [_|]; [|lia].
  rewrite Hcode. cbn [andb Z.eqb].
  unfold verifyAndVote_match. rewrite He.
  rewrite (alreadyVoted_unregistered _ _ Hun).
  eexists. split; [reflexivity|]. unfold castVote.
  set (w2 := lcd_do vote_prompt _).
  assert (Hun2 : unregistered (be16 response 10) (eeprom w2))
    by (unfold w2; wsimpl; by rewrite He).
  destruct (castVote_loop_unregistered (be16 response 10) (keys w2) w2 Hun2)
    as (Hs & Ht & Hl).
  assert (Hslots : ∀ i : nat,
            slot (eeprom (castVote_loop (keys w2) (be16 response 10) w2)) i
            = slot (eeprom w) i).
  { intros i. rewrite Hs. unfold w2. wsimpl. by rewrite He. }
  replace (keys w2) with (keys w) in * by (unfold w2; wsimpl; congruence).
  split.
  { unfold shown_since. rewrite Hl. unfold w2. wsimpl. rewrite Hlcd.
    rewrite <- !app_assoc. rewrite drop_app_length. reflexivity. }
  split.
  { rewrite Ht. unfold tallies, tallies_voted, w2. wsimpl.
    rewrite He, Ha, Hb, Hc. by destruct (selected (keys w)) as [[|[|[|]]]|]. }
  split; [done|].
  assert (Hun' : unregistered (be16 response 10)
                   (eeprom (castVote_loop (keys w) (be16 response 10) w2)))
    by (by apply (unregistered_ext _ (eeprom w))).
  split; [done|]. intros sessions.
  by apply alreadyVoted_unregistered, revote_unregistered.
Qed.

Lemma unregistered_match_votes_again_witness :
  alreadyVoted 9 (eeprom world_vote_9) = false
  ∧ ∃ w', verifyAndVote world_vote_9 = Done w'
          ∧ shown_since world_vote_9 w'
            = verify_progress ++ authorized_msg (search_reply 0x00 9 100)
              ++ vote_prompt ++ vote_recorded "Candidate 2"
          ∧ tallies w' = [1; 1; 1; 1; 1; 1]
          ∧ (∀ i : nat, slot (eeprom w') i = slot (eeprom world_vote_9) i)
          ∧ unregistered 9 (eeprom w')
          ∧ ∀ sessions,
              alreadyVoted 9
                (eeprom (revote (search_reply 0x00 9 100 ++ replicate 16 0)
                           sessions w')) = false.
Proof.
  eapply (unregistered_match_votes_again world_vote_9 _
            (search_reply 0x00 9 100 ++ replicate 16 0) 16).
  - reflexivity.
  - vm_compute. reflexivity.
  - lia.
  - reflexivity.
  - intros i Hi. unfold MAX_FINGERPRINTS in Hi.
    do 25 (destruct i as [|i]; [vm_compute; split; discriminate|]). lia.
Defined.

(** ** The bounded loops of the enrollment have fuel enough *)

Lemma quiet_calm w w' : quiet w w' → calm w w'.
Proof. intros (?&?&?&?&?&?&?&?). by repeat split. Qed.

Lemma calm_refl w : calm w w.
Proof. by repeat split. Qed.

Lemma calm_trans w1 w2 w3 : calm w1 w2 → calm w2 w3 → calm w1 w3.
Proof.
  unfold calm. intros (?&?&?&?&?&?) (?&?&?&?&?&?). repeat split; congruence.
Qed.

Lemma calm_lcd_do ops w : calm w (lcd_do ops w).
Proof. by repeat split. Qed.

Lemma calm_packet w w' :
  calm w w' → length (packet w) = PACKET_SIZE → length (packet w') = PACKET_SIZE.
Proof. intros (_&_&_&_&_&H). congruence. Qed.

(** A silent line confirms nothing. *)
Lemma confirmed_line n timeout w :
  confirmed (reply n (coming w) timeout) = true → line w ≠ [].
Proof.
  unfold coming, next_polls. cbn [fst]. intros Hc Hl. rewrite Hl in Hc.
  discriminate.
Qed.

Lemma while_checkFinger_returns fuel : ∀ w,
  length (packet w) = PACKET_SIZE → (length (line w) < fuel)%nat →
  ∃ w', while_checkFinger fuel w = Done w' ∧ quiet w w'.
Proof.
  induction fuel as [|fuel IH]; intros w Hp Hfuel; [lia|].
  cbn [while_checkFinger].
  destruct (checkFinger_spec w Hp) as (w1 & -> & Hq & Hl).
  rewrite bind_Done.
  destruct (confirmed _) eqn:Hc.
  - apply confirmed_line in Hc.
    destruct (IH w1) as (w' & -> & Hq').
    { by apply (quiet_packet w). }
    { rewrite Hl. destruct (line w); [done|]. cbn in *. lia. }
    exists w'. split; [done|]. by apply (quiet_trans _ w1).
  - by exists w1.
Qed.

Lemma await_removal_returns w :
  length (packet w) = PACKET_SIZE →
  ∃ w', await_removal w = Done w' ∧ quiet w w'.
Proof. intros Hp. apply while_checkFinger_returns; [done|lia]. Qed.

Lemma remove_finger_returns fuel : ∀ removeAttempts w,
  length (packet w) = PACKET_SIZE →
  Z.max 0 (50 - removeAttempts) < Z.of_nat fuel →
  ∃ n w', remove_finger fuel removeAttempts w = Done (n, w') ∧ quiet w w'.
Proof.
  induction fuel as [|fuel IH]; intros r w Hp Hfuel; [lia|].
  cbn [remove_finger].
  destruct (checkFinger_spec w Hp) as (w1 & -> & Hq & Hl).
  rewrite bind_Done.
  destruct (confirmed _); cbn [andb]; [|by exists r, w1].
  destruct (Z.ltb_spec r 50); [|by exists r, w1].
  destruct (IH (r + 1) w1) as (n & w' & -> & Hq');
    [by apply (quiet_packet w) | lia |].
  exists n, w'. split; [done|]. by apply (quiet_trans _ w1).
Qed.

Lemma imageToTemplate_calm bufferID w :
  length (packet w) = PACKET_SIZE →
  ∃ ok w', imageToTemplate bufferID w = Done (ok, w') ∧ calm w w'.
Proof.
  intros Hp.
  destruct (imageToTemplate_spec bufferID w Hp)
    as (w' & -> & He & Ha & Hb & Hc & Hk & Hp' & _).
  eexists _, w'. split; [done|]. repeat split; congruence.
Qed.

Lemma capture_first_returns fuel : ∀ attempts w,
  length (packet w) = PACKET_SIZE →
  Z.max 0 (3 - attempts) < Z.of_nat fuel →
  ∃ captured w', capture_first fuel attempts w = Done (captured, w')
                 ∧ calm w w'.
Proof.
  induction fuel as [|fuel IH]; intros attempts w Hp Hfuel; [lia|].
  cbn [capture_first].
  destruct (Z.ltb_spec attempts 3); [|exists (Some false), w; by split; [|apply calm_refl]].
  destruct (waitForFinger_returns 10 w Hp)
    as (found & w1 & n & -> & Hq1 & _).
  rewrite bind_Done. apply quiet_calm in Hq1.
  destruct found.
  2:{ eexists _, _. split; [reflexivity|].
      eapply calm_trans; [exact Hq1 | apply calm_lcd_do]. }
  destruct (imageToTemplate_calm 1 (lcd_do [Clear; Print "Hold steady..."] w1))
    as (ok & w2 & -> & Hq2).
  { wsimpl. by apply (calm_packet w). }
  rewrite bind_Done.
  assert (Hc2 : calm w w2).
  { eapply calm_trans; [exact Hq1|].
    eapply calm_trans; [apply calm_lcd_do | exact Hq2]. }
  destruct ok; [by eexists _, _|].
  destruct (await_removal_returns (lcd_do (try_n_of_3 (attempts + 1)) w2))
    as (w3 & -> & Hq3).
  { wsimpl. by apply (calm_packet w). }
  rewrite bind_Done. apply quiet_calm in Hq3.
  set (w4 := if attempts + 1 <? 3 then _ else w3).
  assert (Hc4 : calm w w4).
  { eapply calm_trans; [exact Hc2|].
    eapply calm_trans; [apply calm_lcd_do|].
    eapply calm_trans; [exact Hq3|].
    unfold w4. destruct (_ <? _); [apply calm_lcd_do | apply calm_refl]. }
  destruct (IH (attempts + 1) w4) as (captured & w' & -> & Hq');
    [by apply (calm_packet w) | lia |].
  exists captured, w'. split; [done|]. by apply (calm_trans _ w4).
Qed.

Lemma capture_second_returns fuel : ∀ attempts w,
  length (packet w) = PACKET_SIZE →
  Z.max 0 (3 - attempts) < Z.of_nat fuel →
  ∃ captured w', capture_second fuel attempts w = Done (captured, w')
                 ∧ calm w w'.
Proof.
  induction fuel as [|fuel IH]; intros attempts w Hp Hfuel; [lia|].
  cbn [capture_second].
  destruct (Z.ltb_spec attempts 3); [|exists (Some false), w; by split; [|apply calm_refl]].
  destruct (waitForFinger_returns 15 w Hp)
    as (found & w1 & n & -> & Hq1 & _).
  rewrite bind_Done. apply quiet_calm in Hq1.
  destruct found.
  2:{ eexists _, _. split; [reflexivity|].
      eapply calm_trans; [exact Hq1 | apply calm_lcd_do]. }
  destruct (imageToTemplate_calm 2 (lcd_do [Clear; Print "Hold steady..."] w1))
    as (ok & w2 & -> & Hq2).
  { wsimpl. by apply (calm_packet w). }
  rewrite bind_Done.
  assert (Hc2 : calm w w2).
  { eapply calm_trans; [exact Hq1|].
    eapply calm_trans; [apply calm_lcd_do | exact Hq2]. }
  destruct ok; [by eexists _, _|].
  destruct (await_removal_returns (lcd_do (try_n_of_3 (attempts + 1)) w2))
    as (w3 & -> & Hq3).
  { wsimpl. by apply (calm_packet w). }
  rewrite bind_Done. apply quiet_calm in Hq3.
  set (w4 := if attempts + 1 <? 3 then _ else drain w3).
  assert (Hc4 : calm w w4).
  { eapply calm_trans; [exact Hc2|].
    eapply calm_trans; [apply calm_lcd_do|].
    eapply calm_trans; [exact Hq3|].
    unfold w4. destruct (_ <? _); by repeat split. }
  destruct (IH (attempts + 1) w4) as (captured & w' & -> & Hq');
    [by apply (calm_packet w) | lia |].
  exists captured, w'. split; [done|]. by apply (calm_trans _ w4).
Qed.

(** ** The workflows return *)

Lemma selectID_loop_outcome confirm cancel ks : ∀ id w,
  selectID_loop ks confirm cancel id w = NoInput
  ∨ ∃ sel w', selectID_loop ks confirm cancel id w = Done (sel, w').
Proof.
  induction ks as [|k ks IH]; intros id w; cbn [selectID_loop]; [by left|].
  destruct (k_low k confirm); [right; by eexists _, _|].
  destruct (k_low k cancel); [right; by eexists _, _|].
  apply IH.
Qed.

(** [verifyAndVote] returns, whatever the sensor and the voter do. *)
Lemma verifyAndVote_returns w :
  length (packet w) = PACKET_SIZE → ∃ w', verifyAndVote w = Done w'.
Proof.
  intros Hp. unfold verifyAndVote.
  destruct (verifyAndVote_search_spec w Hp) as (found & w1 & -> & _).
  rewrite bind_Done. destruct found as [[response len]|]; [|by eexists].
  destruct (_ && _); by eexists.
Qed.

(** [deleteByID] returns once the operator has confirmed or cancelled. *)
Lemma deleteByID_returns w :
  length (packet w) = PACKET_SIZE →
  deleteByID w = NoInput ∨ ∃ w', deleteByID w = Done w'.
Proof.
  intros Hp. unfold deleteByID, selectID.
  destruct (selectID_loop_outcome BTN_DELETE BTN_ENROLL
              (keys (lcd_do [Clear; Print "Delete ID:"] w)) 1
              (lcd_do [Clear; Print "Delete ID:"] w))
    as [->|(sel & w1 & Hsel)]; [by left|].
  right. rewrite Hsel, bind_Done.
  apply selectID_loop_spec in Hsel as (_ & _ & _ & _ & Hpk & _). wsimpl.
  destruct sel as [id|]; [|by eexists].
  destruct (deleteByID_id_spec id w1) as (w' & -> & _); [congruence|].
  by eexists.
Qed.

(** [enrollFingerprint] returns once the operator has confirmed or
    cancelled: none of its bounded loops runs out of fuel and no array is
    overrun. *)
Lemma enrollFingerprint_returns w :
  length (packet w) = PACKET_SIZE →
  enrollFingerprint w = NoInput ∨ ∃ w', enrollFingerprint w = Done w'.
Proof.
  intros Hp. unfold enrollFingerprint, selectID.
  destruct (selectID_loop_outcome BTN_ENROLL BTN_DELETE
              (keys (lcd_do [Clear; Print "Select ID:"] w)) 1
              (lcd_do [Clear; Print "Select ID:"] w))
    as [->|(sel & w1 & Hsel)]; [by left|].
  right. rewrite Hsel, bind_Done.
  apply selectID_loop_spec in Hsel as (_ & _ & _ & _ & Hpk & _). wsimpl.
  destruct sel as [id|]; [|by eexists].
  assert (Hp1 : length (packet w1) = PACKET_SIZE) by congruence.
  destruct (capture_first_returns 4 0
              (lcd_do [Clear; Print "Enrolling ID:"; PrintNum id;
                       SetCursor 0 1; Print "Place finger"] w1))
    as (captured & w2 & -> & Hc2); [done | lia |].
  rewrite bind_Done.
  assert (Hp2 : length (packet w2) = PACKET_SIZE)
    by (by apply (calm_packet _ _ Hc2)).
  destruct captured as [[|]|]; [|by eexists..].
  destruct (remove_finger_returns 51 0
              (lcd_do [Clear; Print "Image OK!"; SetCursor 0 1;
                       Print "Remove finger"] w2))
    as (n & w3 & -> & Hq3); [done | lia |].
  rewrite bind_Done.
  assert (Hp3 : length (packet w3) = PACKET_SIZE)
    by (by apply (quiet_packet _ _ Hq3)).
  destruct (50 <=? n); [by eexists|].
  destruct (capture_second_returns 4 0
              (lcd_do [Clear; Print "Place SAME"; SetCursor 0 1;
                       Print "finger again"] (drain w3)))
    as (captured & w4 & -> & Hc4); [done | lia |].
  rewrite bind_Done.
  assert (Hp4 : length (packet w4) = PACKET_SIZE)
    by (by apply (calm_packet _ _ Hc4)).
  destruct captured as [[|]|]; [|by eexists..].
  destruct (enrollFingerprint_store_spec id w4 Hp4) as (w' & -> & _).
  by eexists.
Qed.

(** The scenario of the specification on a factory-fresh device: enroll
    ID 5; the finger is matched and votes for candidate 2; a second
    attempt is rejected.  (The tally cells of candidates 1 and 3 still
    read erased, [0xFF], which [setup] takes for zero.) *)
Example scenario_enroll_vote_revote :
  ∃ w1 w2 w3,
    enrollFingerprint
      (set_keys (replicate 4 (press 0 BTN_UP) ++ [press 0 BTN_ENROLL])
         (set_line [deliver (ack 0x00); deliver (ack 0x00); deliver (ack 0x02);
                    deliver (ack 0x00); deliver (ack 0x00); deliver (ack 0x00);
                    deliver (ack 0x00); deliver (count_reply 1)] world0))
    = Done w1
    ∧ registry (eeprom w1) = [5] ++ replicate 24 Empty
    ∧ verifyAndVote
        (set_keys [press 10 BTN_CANDIDATE2]
           (set_line [deliver (ack 0x00); deliver (ack 0x00);
                      deliver (search_reply 0x00 5 80)] w1))
      = Done w2
    ∧ registry (eeprom w2) = [0x85] ++ replicate 24 Empty
    ∧ tallies w2 = [0; 1; 0; 0xFF; 1; 0xFF]
    ∧ verifyAndVote
        (set_keys [press 10 BTN_CANDIDATE1]
           (set_line [deliver (ack 0x00); deliver (ack 0x00);
                      deliver (search_reply 0x00 5 80)] w2))
      = Done w3
    ∧ registry (eeprom w3) = [0x85] ++ replicate 24 Empty
    ∧ tallies w3 = [0; 1; 0; 0xFF; 1; 0xFF]
    ∧ drop (length (lcd w3) - 5) (lcd w3) = already_voted_msg 5.
Proof.
  eexists _, _, _.
  split; [vm_compute; reflexivity|]. split; [vm_compute; reflexivity|].
  split; [vm_compute; reflexivity|]. split; [vm_compute; reflexivity|].
  split; [vm_compute; reflexivity|]. split; [vm_compute; reflexivity|].
  split; [vm_compute; reflexivity|]. split; vm_compute; reflexivity.
Qed.

(** ** The bounds are tight *)

(** A caller's buffer shorter than 32 bytes can be overrun by
    [readResponse]: 20 bytes arriving for a buffer of 16. *)
Example readResponse_overruns_short_buffer :
  readResponse (local_array 16) 1000
    (set_line [deliver (replicate 20 0x55)] world0) = OutOfBounds.
Proof. vm_compute. reflexivity. Qed.

(** * Further properties *)

(** ** Casting a vote *)

(** [castVote], whoever the voter: the candidate selected decides the
    tallies, the EEPROM and the closing display; without a selection
    nothing changes. *)
Lemma castVote_loop_spec voterID ks : ∀ w,
  eeprom (castVote_loop ks voterID w)
    = match selected ks with
      | Some c => eeprom_voted c voterID w
      | None => eeprom w
      end
  ∧ tallies (castVote_loop ks voterID w)
    = match selected ks with
      | Some c => tallies_voted c w
      | None => tallies w
      end
  ∧ lcd (castVote_loop ks voterID w) = lcd w ++ vote_outcome_msg (selected ks).
Proof.
  induction ks as [|k ks IH]; intros w; cbn [castVote_loop selected].
  - wsimpl. done.
  - destruct (u32 (k_elapsed k) <? 15000); [|wsimpl; done].
    destruct (k_low k BTN_CANDIDATE1).
    { unfold markAsVoted, tallies, tallies_voted, eeprom_voted. wsimpl.
      split; [done|]. split; [|done].
      rewrite markAsVoted_from_update_first.
      rewrite !update_first_tally_cell by done.
      rewrite EEPROM_read_write, !EEPROM_read_write_ne by done. done. }
    destruct (k_low k BTN_CANDIDATE2).
    { unfold markAsVoted, tallies, tallies_voted, eeprom_voted. wsimpl.
      split; [done|]. split; [|done].
      rewrite markAsVoted_from_update_first.
      rewrite !update_first_tally_cell by done.
      rewrite EEPROM_read_write, !EEPROM_read_write_ne by done. done. }
    destruct (k_low k BTN_CANDIDATE3).
    { unfold markAsVoted, tallies, tallies_voted, eeprom_voted. wsimpl.
      split; [done|]. split; [|done].
      rewrite markAsVoted_from_update_first.
      rewrite !update_first_tally_cell by done.
      rewrite EEPROM_read_write, !EEPROM_read_write_ne by done. done. }
    destruct (IH (set_keys ks w)) as (He & Ht & Hl). done.
Qed.

Lemma lor_128 id : 0 <= id < 128 → Z.lor id 0x80 = id + 128.
Proof.
  intros Hid. rewrite <- Z.lxor_lor, <- Z.add_nocarry_lxor; [done| |].
  - rewrite <- (Z.mod_small id 128) by lia. rewrite <- land_127.
    rewrite <- Z.land_assoc. apply Z.land_0_r.
  - rewrite <- (Z.mod_small id 128) by lia. rewrite <- land_127.
    rewrite <- Z.land_assoc. apply Z.land_0_r.
Qed.

(** Setting bit 7 of a byte gives a byte. *)
Lemma set_voted_byte s : is_byte s → is_byte (Z.lor s 0x80).
Proof.
  intros Hs. unfold is_byte in *.
  assert (H : Z.lor s 0x80 = Z.lor (Z.land s 0x7F) 0x80).
  { apply Z.bits_inj'. intros n Hn. rewrite !Z.lor_spec, Z.land_spec.
    change 0x80 with (2 ^ 7). rewrite Z.pow2_bits_eqb by lia.
    destruct (Z.eqb_spec 7 n) as [<-|Hne]; [by rewrite !orb_true_r|].
    rewrite !orb_false_r.
    destruct (Z.ltb_spec n 7).
    - change 0x7F with (Z.ones 7). rewrite Z.ones_spec_low by lia.
      by rewrite andb_true_r.
    - change 0x7F with (Z.ones 7). rewrite Z.ones_spec_high by lia.
      rewrite andb_false_r.
      rewrite <- (Z.mod_small s 256) by lia. change 256 with (2 ^ 8).
      apply Z.mod_pow2_bits_high. lia. }
  rewrite H, lor_128; rewrite land_127; pose proof (Z.mod_pos_bound s 128); lia.
Qed.

(** [markAsVoted] on an ID some slot reads: from then on the
    already-voted test finds it. *)
Lemma markAsVoted_then_alreadyVoted id e :
  (∃ i : nat, (i < MAX_FINGERPRINTS)%nat ∧ slot e i = id) →
  alreadyVoted id (markAsVoted_from MAX_FINGERPRINTS 0 id e) = true.
Proof.
  intros (i & Hi & Hs). rewrite markAsVoted_from_update_first.
  destruct (update_first_spec (fun s => s =? id) (Z.lor id 0x80)
              MAX_FINGERPRINTS 0 e)
    as [[Hnone _]|(j & Hj & Hj' & _ & ->)].
  - specialize (Hnone i ltac:(lia)). apply Z.eqb_neq in Hnone. done.
  - apply Z.eqb_eq in Hj'. apply alreadyVoted_true. exists j.
    split; [lia|]. rewrite slot_write. destruct (decide (j = j)); [|done].
    apply u8_byte, set_voted_byte. rewrite <- Hj'. apply EEPROM_read_byte.
Qed.

Lemma revote_rejected response sessions : ∀ w,
  alreadyVoted (be16 response 10) (eeprom w) = true →
  eeprom (revote response sessions w) = eeprom w
  ∧ tallies (revote response sessions w) = tallies w.
Proof.
  induction sessions as [|ks sessions IH]; intros w Hav; [done|].
  change (revote response (ks :: sessions) w)
    with (revote response sessions (vote_again response w ks)).
  assert (Hstep : eeprom (vote_again response w ks) = eeprom w
                  ∧ tallies (vote_again response w ks) = tallies w).
  { unfold vote_again, verifyAndVote_match. wsimpl. by rewrite Hav. }
  destruct Hstep as [He Ht].
  destruct (IH (vote_again response w ks)) as [He' Ht']; [by rewrite He|].
  split; congruence.
Qed.

(** X1.  A finger whose ID a slot reads, not yet voted, votes once: the
    vote for the selected candidate moves that tally by one, the
    already-voted test holds from then on, and any number of further
    matches of the same finger changes neither the EEPROM nor a tally. *)
Theorem one_vote_per_enrolled_finger (response : list Z) (w : World) (c : nat) :
  (∃ i : nat, (i < MAX_FINGERPRINTS)%nat
     ∧ slot (eeprom w) i = be16 response 10) →
  alreadyVoted (be16 response 10) (eeprom w) = false →
  selected (keys w) = Some c →
  let w' := verifyAndVote_match response w in
  tallies w' = tallies_voted c w
  ∧ alreadyVoted (be16 response 10) (eeprom w') = true
  ∧ ∀ sessions, eeprom (revote response sessions w') = eeprom w'
                ∧ tallies (revote response sessions w') = tallies w'.
Proof.
  intros (i & Hi & Hs) Hav Hsel w'.
  assert (Hw' : tallies w' = tallies_voted c w
                ∧ eeprom w' = eeprom_voted c (be16 response 10) w).
  { unfold w', verifyAndVote_match. rewrite Hav. unfold castVote.
    set (w2 := lcd_do vote_prompt _).
    destruct (castVote_loop_spec (be16 response 10) (keys w2) w2)
      as (He & Ht & _).
    replace (keys w2) with (keys w) in * by done.
    rewrite Hsel in He, Ht. by rewrite He, Ht. }
  destruct Hw' as [Ht He].
  assert (Hav' : alreadyVoted (be16 response 10) (eeprom w') = true).
  { rewrite He. unfold eeprom_voted.
    apply markAsVoted_then_alreadyVoted. exists i. split; [done|].
    destruct c as [|[|[|c]]]; cbn [fst snd];
      by rewrite slot_write_tally. }
  split; [done|]. split; [done|]. intros sessions.
  by apply revote_rejected.
Qed.

Lemma one_vote_per_enrolled_finger_witness :
  let response := search_reply 0x00 5 100 ++ replicate 16 0 in
  let w := set_keys [press 10 BTN_CANDIDATE2] world_voted in
  let w' := verifyAndVote_match response w in
  tallies w' = [1; 1; 1; 1; 1; 1]
  ∧ alreadyVoted 5 (eeprom w') = true
  ∧ ∀ sessions, eeprom (revote response sessions w') = eeprom w'
                ∧ tallies (revote response sessions w') = tallies w'.
Proof.
  apply (one_vote_per_enrolled_finger
           (search_reply 0x00 5 100 ++ replicate 16 0)
           (set_keys [press 10 BTN_CANDIDATE2] world_voted) 2).
  - exists 0%nat. split; [unfold MAX_FINGERPRINTS; lia | reflexivity].
  - reflexivity.
  - reflexivity.
Defined.

(** X2.  When no candidate button is found LOW before the 15 s deadline,
    [castVote] changes neither the EEPROM nor a tally and displays the
    time-out after the prompt. *)
Theorem castVote_timeout_changes_nothing (voterID : Z) (w : World) :
  selected (keys w) = None →
  eeprom (castVote voterID w) = eeprom w
  ∧ tallies (castVote voterID w) = tallies w
  ∧ lcd (castVote voterID w) = lcd w ++ vote_prompt ++ vote_timeout.
Proof.
  intros Hsel. unfold castVote. set (w2 := lcd_do vote_prompt w).
  destruct (castVote_loop_spec voterID (keys w2) w2) as (He & Ht & Hl).
  replace (keys w2) with (keys w) in * by done.
  rewrite Hsel in He, Ht, Hl. rewrite He, Ht, Hl. unfold w2. wsimpl.
  by rewrite <- app_assoc.
Qed.

Lemma castVote_timeout_changes_nothing_witness :
  let w := set_keys [press 15000 BTN_CANDIDATE1] world_voted in
  eeprom (castVote 5 w) = eeprom w
  ∧ tallies (castVote 5 w) = tallies w
  ∧ lcd (castVote 5 w) = lcd w ++ vote_prompt ++ vote_timeout.
Proof.
  apply (castVote_timeout_changes_nothing 5
           (set_keys [press 15000 BTN_CANDIDATE1] world_voted)).
  reflexivity.
Defined.

(** X3.  [castVote] never changes the ID a slot carries and never clears
    a voted bit: every slot keeps its low seven bits, and a bit 7 that is
    set stays set. *)
Theorem castVote_keeps_ids (voterID : Z) (w : World) (i : nat) :
  id_of (slot (eeprom (castVote voterID w)) i) = id_of (slot (eeprom w) i)
  ∧ (voted (slot (eeprom w) i) = true →
     voted (slot (eeprom (castVote voterID w)) i) = true).
Proof.
  unfold castVote. set (w2 := lcd_do vote_prompt w).
  destruct (castVote_loop_spec voterID (keys w2) w2) as (-> & _).
  destruct (selected (keys w2)) as [c|]; [|done].
  unfold eeprom_voted. rewrite markAsVoted_from_update_first.
  set (e1 := EEPROM_write _ _ _).
  assert (He1 : slot e1 i = slot (eeprom w) i).
  { unfold e1. destruct c as [|[|[|c]]]; cbn [fst snd];
      by rewrite slot_write_tally. }
  destruct (update_first_spec (fun s => s =? voterID) (Z.lor voterID 0x80)
              MAX_FINGERPRINTS 0 e1)
    as [[_ ->]|(j & _ & Hj & _ & ->)]; [by rewrite He1|].
  apply Z.eqb_eq in Hj. rewrite slot_write.
  destruct (decide (i = j)) as [->|]; [|by rewrite He1].
  rewrite <- He1, Hj. split.
  - by rewrite id_of_u8, id_of_set_voted.
  - intros _. unfold voted. 
    rewrite (u8_byte (Z.lor voterID 0x80)).
    + rewrite Z.lor_spec. apply orb_true_r.
    + apply set_voted_byte. rewrite <- Hj. apply EEPROM_read_byte.
Qed.

(** ** Enrolling and deleting in the registry *)

(** X4.  Deleting an ID right after enrolling it gives the registry back:
    for a byte [id] that no slot holds, [release] after [allocate] leaves
    every slot reading what it read before, on a full registry too. *)
Theorem allocate_release_round_trip (id : Z) (e : Z -> Z) :
  is_byte id → ¬ holds e id →
  ∀ i : nat, slot (release id (allocate id e)) i = slot e i.
Proof.
  intros Hid Hfresh i.
  assert (Hmatch : ∀ k : nat, (k < MAX_FINGERPRINTS)%nat → slot e k ≠ Empty →
            (slot e k =? id) || (slot e k =? Z.lor id 0x80) = false).
  { intros k Hk Hocc. apply not_true_is_false. intros Ht.
    apply Hfresh. exists k. split; [done|]. split; [done|].
    apply orb_true_iff in Ht as [Ht|Ht]; apply Z.eqb_eq in Ht; rewrite Ht;
      [done | apply id_of_set_voted]. }
  unfold allocate, release.
  rewrite allocate_from_update_first, release_from_update_first.
  destruct (update_first_spec (fun s => s =? 0xFF) id MAX_FINGERPRINTS 0 e)
    as [[Hfull ->]|(j & Hj & Hempty & Hfirst & ->)].
  - destruct (update_first_spec (fun s => (s =? id) || (s =? Z.lor id 0x80))
                0xFF MAX_FINGERPRINTS 0 e)
      as [[_ ->]|(k & Hk & Htest & _)]; [done|].
    rewrite Hmatch in Htest; [done | lia |].
    apply Z.eqb_neq. apply Hfull. lia.
  - set (e1 := EEPROM_write e _ id).
    assert (Hj1 : slot e1 j = id).
    { unfold e1. rewrite slot_write. destruct (decide (j = j)); [|done].
      by apply u8_byte. }
    destruct (update_first_spec (fun s => (s =? id) || (s =? Z.lor id 0x80))
                0xFF MAX_FINGERPRINTS 0 e1)
      as [[Hnone _]|(k & Hk & Htest & Hkfirst & ->)].
    { specialize (Hnone j Hj). cbn beta in Hnone.
      rewrite Hj1, Z.eqb_refl in Hnone. done. }
    assert (k = j) as ->.
    { destruct (decide (k = j)) as [|Hne]; [done|].
      destruct (decide (k < j)%nat) as [Hlt|Hge].
      - unfold e1 in Htest. rewrite slot_write in Htest.
        destruct (decide (k = j)); [done|].
        rewrite Hmatch in Htest; [done | lia |].
        apply Z.eqb_neq. apply Hfirst. lia.
      - specialize (Hkfirst j ltac:(lia)). cbn beta in Hkfirst.
        rewrite Hj1, Z.eqb_refl in Hkfirst. done. }
    rewrite slot_write. destruct (decide (i = j)) as [->|Hne].
    + apply Z.eqb_eq in Hempty. by rewrite Hempty.
    + unfold e1. rewrite slot_write. by destruct (decide (i = j)).
Qed.

Lemma allocate_release_round_trip_witness :
  ∀ i : nat, slot (release 9 (allocate 9 (eeprom world_voted))) i
             = slot (eeprom world_voted) i.
Proof.
  apply (allocate_release_round_trip 9 (eeprom world_voted)).
  - unfold is_byte. lia.
  - rewrite holds_holdsb. vm_compute. discriminate.
Defined.

(** X5.  On a registry with unique IDs, deleting an ID (0 to 126) leaves no
    slot that reads it, with the voted bit clear or set. *)
Theorem release_unregisters (id : Z) (e : Z -> Z) :
  unique_ids e → 0 <= id < 127 → unregistered id (release id e).
Proof.
  intros Hu Hid.
  assert (Hor : Z.lor id 0x80 = id + 128) by (apply lor_128; lia).
  assert (Hid_of : ∀ s, s = id ∨ s = Z.lor id 0x80 → id_of s = id_of id).
  { intros s [->| ->]; [done | apply id_of_set_voted]. }
  destruct (release_spec id e)
    as [[Hnone ->]|(j & Hj & Hjs & _ & Hcleared & Hothers)]; [done|].
  intros i Hi. destruct (decide (i = j)) as [->|Hne].
  - rewrite Hcleared. unfold Empty. lia.
  - rewrite Hothers by done.
    assert (Hno : ¬ (slot e i = id ∨ slot e i = Z.lor id 0x80)).
    { intros His. apply Hne. apply Hu; [done | done | | |].
      - destruct His as [->| ->]; unfold Empty; lia.
      - destruct Hjs as [->| ->]; unfold Empty; lia.
      - by rewrite (Hid_of _ His), (Hid_of _ Hjs). }
    split; intros Heq; apply Hno; auto.
Qed.

Lemma release_unregisters_witness :
  unregistered 7
    (release 7 (run_ops [Allocate 5; Allocate 7; MarkVoted 7] (eeprom world0))).
Proof.
  apply release_unregisters; [|lia].
  apply unique_ids_run.
  - intros i j _ _ Hocc. by destruct Hocc.
  - cbn [allocates_fresh].
    repeat (split; [try exact I; rewrite holds_holdsb; vm_compute; discriminate|]).
    exact I.
Defined.

(** Without unique IDs the deletion leaves the duplicates behind. *)
Example release_leaves_duplicate :
  registry (release 5 (run_ops [Allocate 5; Allocate 5] (eeprom world0)))
  = [Empty; 5] ++ replicate 23 Empty.
Proof. vm_compute. reflexivity. Qed.

(** ** After a reset of the votes *)

Lemma resetVotesOnly_slot w (i : nat) :
  (i < MAX_FINGERPRINTS)%nat →
  slot (eeprom (resetVotesOnly w)) i
  = if slot (eeprom w) i =? 0xFF then 0xFF
    else Z.land (slot (eeprom w) i) 0x7F.
Proof.
  intros Hi. unfold slot, resetVotesOnly. wsimpl.
  rewrite clearFlags_from_read, zero_tallies_read.
  unfold EEPROM_VOTE1, EEPROM_VOTE2, EEPROM_VOTE3, EEPROM_VOTED_START,
    MAX_FINGERPRINTS in *.
  destruct (decide (_ <= _ < _)) as [_|]; [|lia].
  destruct (decide (_ ∨ _)) as [|_]; [lia|]. done.
Qed.

Lemma resetVotesOnly_tallies w : tallies (resetVotesOnly w) = [0; 0; 0; 0; 0; 0].
Proof.
  unfold tallies, resetVotesOnly. wsimpl.
  rewrite !clearFlags_from_read, !zero_tallies_read.
  unfold EEPROM_VOTE1, EEPROM_VOTE2, EEPROM_VOTE3, EEPROM_VOTED_START,
    MAX_FINGERPRINTS.
  repeat (destruct (decide _); try lia). done.
Qed.

Lemma resetSystem_tallies w : tallies (resetSystem w) = [0; 0; 0; 0; 0; 0].
Proof.
  unfold tallies, resetSystem. wsimpl.
  rewrite !wipe_from_read, !zero_tallies_read.
  unfold EEPROM_VOTE1, EEPROM_VOTE2, EEPROM_VOTE3, EEPROM_VOTED_START,
    MAX_FINGERPRINTS.
  repeat (destruct (decide _); try lia). done.
Qed.

(** X6.  After [resetVotesOnly] every ID from 0 to 126 passes the
    already-voted test again, and the registry holds exactly the IDs it
    held before. *)
Theorem resetVotesOnly_reopens_voting (w : World) (id : Z) :
  0 <= id < 127 →
  alreadyVoted id (eeprom (resetVotesOnly w)) = false
  ∧ ∀ id', holds (eeprom (resetVotesOnly w)) id' ↔ holds (eeprom w) id'.
Proof.
  intros Hid. split.
  - apply not_true_is_false. rewrite alreadyVoted_true.
    intros (i & Hi & Hs). rewrite resetVotesOnly_slot in Hs by done.
    rewrite lor_128 in Hs by lia.
    destruct (_ =? 0xFF); [lia|].
    rewrite land_127 in Hs.
    pose proof (Z.mod_pos_bound (slot (eeprom w) i) 128). lia.
  - intros id'. unfold holds.
    split; intros (i & Hi & Hocc & Hid'); exists i; (split; [done|]);
      rewrite resetVotesOnly_slot in * by done;
      destruct (Z.eqb_spec (slot (eeprom w) i) 0xFF) as [Heq|Hne].
    + done.
    + split; [done|]. by rewrite id_of_land_127 in Hid'.
    + done.
    + split; [apply land_127_not_Empty | by rewrite id_of_land_127].
Qed.

Lemma resetVotesOnly_reopens_voting_witness :
  alreadyVoted 7 (eeprom world_voted) = true
  ∧ alreadyVoted 7 (eeprom (resetVotesOnly world_voted)) = false.
Proof.
  split; [reflexivity|].
  apply (resetVotesOnly_reopens_voting world_voted 7). lia.
Defined.

(** X7.  The tally cells of the EEPROM hold the low bytes of the RAM
    counters after either reset, and [castVote] keeps it so, whoever
    votes and whatever is selected. *)
Theorem tallies_stay_synced (w : World) :
  tallies_synced (resetVotesOnly w)
  ∧ tallies_synced (resetSystem w)
  ∧ ∀ voterID, tallies_synced w → tallies_synced (castVote voterID w).
Proof.
  assert (Hz : ∀ w', tallies w' = [0; 0; 0; 0; 0; 0] → tallies_synced w').
  { intros w' Ht. unfold tallies in Ht. unfold tallies_synced.
    injection Ht as -> -> -> -> -> ->. done. }
  split; [apply Hz, resetVotesOnly_tallies|].
  split; [apply Hz, resetSystem_tallies|].
  intros voterID (H1 & H2 & H3). unfold castVote, tallies_synced.
  destruct (castVote_loop_spec voterID (keys (lcd_do vote_prompt w))
              (lcd_do vote_prompt w)) as (_ & Ht & _).
  destruct (selected (keys (lcd_do vote_prompt w))) as [[|[|[|c]]]|];
    unfold tallies, tallies_voted in Ht; wsimpl;
    injection Ht as -> -> -> -> -> ->; done.
Qed.

Lemma tallies_stay_synced_witness :
  tallies_synced
    (castVote 5 (set_keys [press 10 BTN_CANDIDATE3] (resetVotesOnly world_voted))).
Proof.
  destruct (tallies_stay_synced
              (set_keys [press 10 BTN_CANDIDATE3] (resetVotesOnly world_voted)))
    as (_ & _ & Hcast).
  apply Hcast.
  destruct (tallies_stay_synced world_voted) as (Hreset & _).
  exact Hreset.
Defined.

(** X8.  The Empty sentinel [0xFF] is also what ID 127 with the voted bit
    reads as: a match whose ID or-ed with [0x80] gives [0xFF] is turned
    away as already voted as long as any slot is Empty, and nothing is
    changed. *)
Theorem sentinel_blocks_id_127 (response : list Z) (w : World) :
  Z.lor (be16 response 10) 0x80 = Empty →
  (∃ i : nat, (i < MAX_FINGERPRINTS)%nat ∧ slot (eeprom w) i = Empty) →
  verifyAndVote_match response w
  = lcd_do (already_voted_msg (be16 response 10)) w.
Proof.
  intros Hm (i & Hi & Hs). unfold verifyAndVote_match.
  replace (alreadyVoted _ _) with true; [done|].
  symmetry. apply alreadyVoted_true. exists i. by rewrite Hm.
Qed.

Lemma sentinel_blocks_id_127_witness :
  verifyAndVote_match (search_reply 0x00 127 100 ++ replicate 16 0) world0
  = lcd_do (already_voted_msg 127) world0.
Proof.
  apply (sentinel_blocks_id_127 (search_reply 0x00 127 100 ++ replicate 16 0)
           world0).
  - reflexivity.
  - exists 0%nat. split; [unfold MAX_FINGERPRINTS; lia | reflexivity].
Defined.

(** ** The wire *)

(** X9.  From 117 payload bytes on, [sendCommand] overruns the 128-byte
    [packet]: the two checksum bytes no longer fit and nothing is sent. *)
Lemma sendCommand_overrun cmd data w :
  length (packet w) = PACKET_SIZE → (117 <= length data)%nat →
  sendCommand cmd data w = OutOfBounds.
Proof.
  intros Hp Hlen. rewrite sendCommand_put_all.
  rewrite put_all_OutOfBounds; [done|].
  rewrite Hp, !length_app. unfold PACKET_SIZE. simpl. lia.
Qed.

Lemma sendCommand_overrun_witness :
  sendCommand SEARCH (replicate 120 0xAA) world0 = OutOfBounds.
Proof.
  apply sendCommand_overrun.
  - reflexivity.
  - vm_compute. lia.
Defined.

(** X10.  What is read after a command does not depend on bytes left in
    the receive buffer by earlier traffic: [sendCommand] discards them
    before it transmits, so the response buffer and the count are the
    same whatever was waiting. *)
Theorem stale_bytes_never_read (cmd : Z) (data stale : list Z) (n : nat)
    (timeout : Z) (w : World) :
  length (packet w) = PACKET_SIZE → is_byte cmd → Forall is_byte data →
  (length data <= 116)%nat → (32 <= n)%nat →
  ∃ w1 w2 w1' w2' response len,
    sendCommand cmd data w = Done w1
    ∧ readResponse (local_array n) timeout w1 = Done (response, len, w2)
    ∧ sendCommand cmd data (set_rxbuf stale w) = Done w1'
    ∧ readResponse (local_array n) timeout w1' = Done (response, len, w2').
Proof.
  intros Hp Hcmd Hdata Hlen Hn.
  destruct (exchange cmd data n timeout w Hp Hcmd Hdata Hlen Hn)
    as (w1 & w2 & Hs & Hr & _).
  destruct (exchange cmd data n timeout (set_rxbuf stale w) Hp Hcmd Hdata
              Hlen Hn) as (w1' & w2' & Hs' & Hr' & _).
  change (coming (set_rxbuf stale w)) with (coming w) in Hr'.
  by eexists w1, w2, w1', w2', _, _.
Qed.

Lemma stale_bytes_never_read_witness :
  ∃ w1 w2 w1' w2' response len,
    sendCommand GET_IMAGE [] (set_line [deliver (ack 0x02)] world0) = Done w1
    ∧ readResponse (local_array 32) 1000 w1 = Done (response, len, w2)
    ∧ sendCommand GET_IMAGE []
        (set_rxbuf [1; 2; 3] (set_line [deliver (ack 0x02)] world0)) = Done w1'
    ∧ readResponse (local_array 32) 1000 w1' = Done (response, len, w2').
Proof.
  apply (stale_bytes_never_read GET_IMAGE [] [1; 2; 3] 32 1000
           (set_line [deliver (ack 0x02)] world0)).
  - reflexivity.
  - apply is_byte_GET_IMAGE.
  - constructor.
  - simpl. lia.
  - lia.
Defined.

(** Without the command in between, the waiting bytes are read first. *)
Example readResponse_reads_stale_bytes :
  ∃ response w',
    readResponse (local_array 32) 1000
      (set_rxbuf [1; 2; 3] (set_line [deliver (ack 0x02)] world0))
    = Done (response, 13, w')
    ∧ take 4 response = [1; 2; 3; 0xEF].
Proof. eexists _, _. split; vm_compute; reflexivity. Qed.

Lemma shiftl_8_lor a b :
  0 <= b < 256 → Z.lor (Z.shiftl a 8) b = a * 256 + b.
Proof.
  intros Hb. rewrite Z.shiftl_mul_pow2 by lia. change (2 ^ 8) with 256.
  rewrite <- Z.lxor_lor, <- Z.add_nocarry_lxor; [done| |];
    (apply Z.bits_inj'; intros n Hn; rewrite Z.land_spec, Z.bits_0;
     change 256 with (2 ^ 8); rewrite <- Z.shiftl_mul_pow2 by lia;
     destruct (Z.ltb_spec n 8);
     [rewrite Z.shiftl_spec_low by lia; done
     | rewrite <- (Z.mod_small b (2 ^ 8)) by (change (2 ^ 8) with 256; lia);
       rewrite Z.mod_pow2_bits_high by lia; apply andb_false_r]).
Qed.

Lemma int16_small z : -32768 <= z < 32768 → int16 z = z.
Proof. intros Hz. unfold int16. rewrite Z.mod_small; lia. Qed.

Lemma int16_mod z : int16 (z `mod` 65536) = int16 z.
Proof.
  unfold int16. rewrite Zplus_mod_idemp_l. done.
Qed.

(** The two bytes the sketch makes of an ID, read back with the
    expression it uses for [matchID], give the ID. *)
Lemma id_bytes_decode id :
  -32768 <= id < 32768 →
  be16 [u8 (Z.shiftr id 8); u8 (Z.land id 0xFF)] 0 = id.
Proof.
  intros Hid. unfold be16, at_. cbn [lookup_total list_lookup_total].
  rewrite shiftl_8_lor by apply u8_is_byte.
  rewrite land_255, shiftr_8. unfold u8. rewrite Z.mod_mod by lia.
  pose proof (Z.div_mod id 256 ltac:(lia)) as Hdm.
  pose proof (Z.mod_pos_bound id 256 ltac:(lia)) as Hl.
  pose proof (Z.div_mod (id `div` 256) 256 ltac:(lia)) as Hdm2.
  pose proof (Z.mod_pos_bound (id `div` 256) 256 ltac:(lia)) as Hh.
  unfold int16.
  replace ((id `div` 256) `mod` 256 * 256 + id `mod` 256 + 32768)
    with (id + 32768 + (- ((id `div` 256) `div` 256)) * 65536) by lia.
  rewrite Z_mod_plus_full, Z.mod_small; lia.
Qed.

(** X11.  The ID that [storeModel] puts on the wire comes back: the two
    payload bytes it makes of [id], decoded the way [verifyAndVote]
    decodes a match ID, give [id], for every 16-bit [id]. *)
Theorem stored_id_decodes (id : Z) (w : World) :
  length (packet w) = PACKET_SIZE → -32768 <= id < 32768 →
  ∃ ok w' hi lo,
    storeModel id w = Done (ok, w')
    ∧ sent w' = sent w ++ [frame_of STORE_MODEL [0x01; hi; lo]]
    ∧ be16 [hi; lo] 0 = id.
Proof.
  intros Hp Hid.
  destruct (storeModel_spec id w Hp) as (w' & Hrun & _ & _ & Hs).
  eexists _, w', _, _. split; [exact Hrun|]. split; [exact Hs|].
  by apply id_bytes_decode.
Qed.

Lemma stored_id_decodes_witness :
  ∃ ok w' hi lo,
    storeModel 25 world0 = Done (ok, w')
    ∧ sent w' = sent world0 ++ [frame_of STORE_MODEL [0x01; hi; lo]]
    ∧ be16 [hi; lo] 0 = 25.
Proof.
  apply (stored_id_decodes 25 world0); [reflexivity | lia].
Defined.

(** ** Polling for a finger *)

Lemma waitForFinger_loop_first_success k : ∀ fuel timeout w,
  length (packet w) = PACKET_SIZE →
  Z.of_nat k < timeout → timeout < Z.of_nat fuel →
  (∀ j, (j < k)%nat → confirmed (reply 32 (script j w) 1000) = false) →
  confirmed (reply 32 (script k w) 1000) = true →
  ∃ w', waitForFinger_loop fuel timeout w = Done (true, w')
        ∧ quiet w w'
        ∧ sent w' = sent w ++ replicate (S k) get_image_frame
        ∧ line w' = drop (S k) (line w).
Proof.
  induction k as [|k IH]; intros fuel timeout w Hp Hk Hfuel Hbefore Hat;
    (destruct fuel as [|fuel]; [lia|]);
    destruct (waitForFinger_loop_step fuel timeout w Hp ltac:(lia))
      as (w2 & Hq & Hs & Hl & ->).
  - rewrite <- script_0, Hat. exists w2.
    split_and!; [done | done | done | by rewrite drop_S_tail, drop_0].
  - rewrite <- script_0, (Hbefore 0%nat) by lia.
    destruct (IH fuel (timeout - 1) w2) as (w' & -> & Hq' & Hs' & Hl').
    + by apply (quiet_packet w).
    + lia.
    + lia.
    + intros j Hj. rewrite (script_tail j w w2 Hl). apply Hbefore. lia.
    + by rewrite (script_tail k w w2 Hl).
    + exists w'. split; [done|]. split; [by apply (quiet_trans _ w2)|].
      split; [rewrite Hs', Hs, <- app_assoc; done|].
      rewrite Hl', Hl. by rewrite <- drop_S_tail.
Qed.

(** X12.  [waitForFinger] stops at the first success: if the reply to the
    [k+1]-th "get image" is the first that confirms, and [k] is below
    [timeoutSeconds * 10], the call returns [true] having sent exactly
    [k + 1] commands and consumed as many replies. *)
Theorem waitForFinger_stops_at_first_success (timeoutSeconds : Z) (k : nat)
    (w : World) :
  length (packet w) = PACKET_SIZE →
  Z.of_nat k < int16 (timeoutSeconds * 10) →
  (∀ j, (j < k)%nat → confirmed (reply 32 (script j w) 1000) = false) →
  confirmed (reply 32 (script k w) 1000) = true →
  ∃ w', waitForFinger timeoutSeconds w = Done (true, w')
        ∧ sent w' = sent w ++ replicate (S k) get_image_frame
        ∧ line w' = drop (S k) (line w).
Proof.
  intros Hp Hk Hbefore Hat. unfold waitForFinger.
  destruct (waitForFinger_loop_first_success k
              (S (Z.to_nat (int16 (timeoutSeconds * 10))))
              (int16 (timeoutSeconds * 10)) w) as (w' & Hrun & _ & Hs & Hl);
    [done | done | lia | done | done |].
  by exists w'.
Qed.

Lemma waitForFinger_stops_at_first_success_witness :
  ∃ w', waitForFinger 15
          (set_line [deliver (ack 0x02); []; deliver (ack 0x00);
                     deliver (ack 0x00)] world0) = Done (true, w')
        ∧ sent w' = replicate 3 get_image_frame
        ∧ line w' = [deliver (ack 0x00)].
Proof.
  apply (waitForFinger_stops_at_first_success 15 2
           (set_line [deliver (ack 0x02); []; deliver (ack 0x00);
                      deliver (ack 0x00)] world0)).
  - reflexivity.
  - vm_compute. reflexivity.
  - intros j Hj. destruct j as [|[|j]]; [reflexivity | reflexivity | lia].
  - reflexivity.
Defined.

(** ** Sensor commands with an answer to interpret *)

(** X13.  [getTemplateCount] never fails: it returns 0 unless the reply
    has at least 14 bytes and confirmation [0x00], and then the 16-bit
    big-endian value of bytes 10 and 11; it changes neither the store,
    the tallies nor the display. *)
Theorem getTemplateCount_defaults_to_zero (w : World) :
  length (packet w) = PACKET_SIZE →
  ∃ count w',
    getTemplateCount w = Done (count, w')
    ∧ quiet w w'
    ∧ let r := reply 32 (coming w) 1000 in
      (r.2 < 14 ∨ at_ r.1 9 ≠ 0x00 → count = 0)
      ∧ (14 <= r.2 → at_ r.1 9 = 0x00 → count = be16 r.1 10).
Proof.
  intros Hp. unfold getTemplateCount.
  destruct (exchange GET_TEMPLATE_COUNT [] 32 1000 w)
    as (w1 & w2 & -> & Hread & Hq & _);
    [done | unfold is_byte, GET_TEMPLATE_COUNT; lia | constructor
     | simpl; lia | lia |].
  rewrite bind_Done, Hread, bind_Done.
  set (r := reply 32 (coming w) 1000).
  destruct (Z.leb_spec 14 r.2) as [Hlen|Hlen];
    destruct (Z.eqb_spec (at_ r.1 9) 0x00) as [Hcode|Hcode]; cbn [andb];
    eexists _, w2; (split; [reflexivity|]); (split; [done|]);
    cbn zeta; split; try done; try lia.
Qed.

Lemma getTemplateCount_defaults_to_zero_witness :
  ∃ w', getTemplateCount (set_line [deliver (ack 0x00)] world0) = Done (0, w').
Proof.
  destruct (getTemplateCount_defaults_to_zero
              (set_line [deliver (ack 0x00)] world0))
    as (count & w' & Hrun & _ & Hzero & _); [reflexivity|].
  rewrite (Hzero ltac:(left; vm_compute; reflexivity)) in Hrun.
  by exists w'.
Defined.

Example getTemplateCount_reads_count :
  ∃ w', getTemplateCount (set_line [deliver (count_reply 300)] world0)
        = Done (300, w').
Proof. eexists. vm_compute. reflexivity. Qed.

(** X14.  [imageToTemplate] returns [true] exactly when the reply has at
    least 12 bytes and confirmation [0x00], and then the display is
    untouched; a reply shorter than 12 bytes fails without a word on the
    display; a non-zero confirmation fails with one error screen, by
    code: [0x06], [0x07], or the code in hexadecimal.  The store and the
    tallies are never touched. *)
Theorem imageToTemplate_reports (bufferID : Z) (w : World) :
  length (packet w) = PACKET_SIZE →
  ∃ ok w',
    imageToTemplate bufferID w = Done (ok, w')
    ∧ calm w w'
    ∧ let r := reply 64 (coming w) 5000 in
      let code := at_ r.1 9 in
      (ok = true ↔ 12 <= r.2 ∧ code = 0x00)
      ∧ (r.2 < 12 ∨ code = 0x00 → lcd w' = lcd w)
      ∧ (12 <= r.2 → code ≠ 0x00 →
         lcd w' = lcd w ++
           Clear ::
           (if code =? 0x06 then
              [Print "Too messy!"; SetCursor 0 1; Print "Clean sensor"]
            else if code =? 0x07 then
              [Print "Few features"; SetCursor 0 1; Print "Press harder"]
            else [Print "Error: 0x"; PrintHex code])).
Proof.
  intros Hp. unfold imageToTemplate.
  destruct (exchange IMAGE_TO_TZ [u8 bufferID] 64 5000 (drain w))
    as (w1 & w2 & -> & Hread & Hq & _);
    [done | unfold is_byte, IMAGE_TO_TZ; lia | | simpl; lia | lia |].
  { constructor; [apply u8_is_byte | constructor]. }
  rewrite bind_Done, Hread, bind_Done.
  change (coming (drain w)) with (coming w).
  set (r := reply 64 (coming w) 5000).
  assert (Hc : calm w w2).
  { apply (calm_trans _ (drain w)); [by repeat split | by apply quiet_calm]. }
  assert (Hl2 : lcd w2 = lcd w) by (by destruct Hq as (_&_&_&_&_&?&_)).
  destruct (Z.leb_spec 12 r.2) as [Hlen|Hlen].
  2:{ eexists _, w2. split; [reflexivity|]. split; [done|]. cbn zeta.
      split; [split; [done | lia]|]. split; [done | lia]. }
  destruct (Z.eqb_spec (at_ r.1 9) 0x00) as [Hcode|Hcode]; cbn [negb].
  - eexists _, w2. split; [reflexivity|]. split; [done|]. cbn zeta.
    split; [done|]. split; [done|]. done.
  - eexists _, _. split; [reflexivity|].
    split; [by apply (calm_trans _ w2), calm_lcd_do|]. cbn zeta.
    split; [split; [done | intros [_ ?]; done]|].
    split; [intros [?|?]; [lia | done]|].
    intros _ _. wsimpl. by rewrite Hl2.
Qed.

Lemma imageToTemplate_reports_witness :
  ∃ w', imageToTemplate 1 (set_line [deliver (ack 0x07)] world0)
        = Done (false, w')
        ∧ lcd w' = [Clear; Print "Few features"; SetCursor 0 1;
                    Print "Press harder"].
Proof.
  destruct (imageToTemplate_reports 1 (set_line [deliver (ack 0x07)] world0))
    as (ok & w' & Hrun & _ & Hok & _ & Hmsg); [reflexivity|].
  cbn zeta in Hok, Hmsg.
  exists w'. split.
  - destruct ok; [|exact Hrun].
    destruct Hok as [Hok _]. destruct (Hok eq_refl) as [_ Hcode].
    vm_compute in Hcode. discriminate.
  - apply Hmsg; vm_compute; discriminate.
Defined.

(** ** Selecting an ID *)

(** X15.  Whatever the operator presses, the ID that leaves the selection
    loop of [enrollFingerprint] or [deleteByID] is one of 1 to 25, and
    the selection has sent nothing to the sensor and written nothing to
    the EEPROM. *)
Theorem selectID_in_range (confirm cancel : pin) (w w' : World) (id : Z) :
  selectID confirm cancel w = Done (Some id, w') →
  1 <= id <= 25 ∧ sent w' = sent w ∧ eeprom w' = eeprom w.
Proof.
  intros Hsel. unfold selectID in Hsel.
  apply selectID_loop_spec in Hsel as (He & _ & _ & _ & _ & _ & Hs & Hr).
  split; [|done]. apply (Hr ltac:(unfold MAX_FINGERPRINTS; lia) id eq_refl).
Qed.

Lemma selectID_in_range_witness :
  ∃ w', selectID BTN_ENROLL BTN_DELETE
          (set_keys (replicate 3 (press 0 BTN_DOWN) ++ [press 0 BTN_ENROLL])
             world0) = Done (Some 23, w')
        ∧ 1 <= 23 <= 25.
Proof.
  eexists. split; [vm_compute; reflexivity|].
  eapply (selectID_in_range BTN_ENROLL BTN_DELETE
            (set_keys (replicate 3 (press 0 BTN_DOWN) ++ [press 0 BTN_ENROLL])
               world0)).
  vm_compute. reflexivity.
Defined.

Lemma selectID_loop_up confirm cancel ups : ∀ kc rest id w,
  Forall (fun k => k_low k BTN_UP = true ∧ k_low k BTN_DOWN = false
                   ∧ k_low k confirm = false ∧ k_low k cancel = false) ups →
  k_low kc confirm = true → k_low kc BTN_UP = false →
  k_low kc BTN_DOWN = false →
  1 <= id <= 25 →
  ∃ w', selectID_loop (ups ++ kc :: rest) confirm cancel id w
        = Done (Some ((id - 1 + Z.of_nat (length ups)) `mod` 25 + 1), w')
        ∧ keys w' = rest.
Proof.
  induction ups as [|k ups IH]; intros kc rest id w Hups Hc Hu Hd Hid;
    cbn [app selectID_loop length].
  - rewrite Hu, Hd, Hc. change (Z.of_nat 0) with 0.
    rewrite Z.add_0_r, Z.mod_small by lia.
    replace (id - 1 + 1) with id by lia.
    eexists. split; reflexivity.
  - inversion Hups as [|? ? (Hku & Hkd & Hkc & Hkx) Hups']; subst.
    rewrite Hku, Hkd, Hkc, Hkx. unfold MAX_FINGERPRINTS.
    change (Z.of_nat 25) with 25.
    destruct (Z.ltb_spec 25 (id + 1)) as [Hwrap|Hnext].
    + destruct (IH kc rest 1
                  (lcd_do [SetCursor 0 1; Print "ID: "; PrintNum id;
                           Print "    "] (set_keys (ups ++ kc :: rest) w)))
        as (w' & -> & Hk); [done.. | lia |].
      exists w'. split; [|done].
      assert (id = 25) as -> by lia.
      replace (25 - 1 + Z.of_nat (S (length ups)))
        with (1 - 1 + Z.of_nat (length ups) + 1 * 25) by lia.
      by rewrite Z_mod_plus_full.
    + destruct (IH kc rest (id + 1)
                  (lcd_do [SetCursor 0 1; Print "ID: "; PrintNum id;
                           Print "    "] (set_keys (ups ++ kc :: rest) w)))
        as (w' & -> & Hk); [done.. | lia |].
      exists w'. split; [|done].
      by replace (id + 1 - 1 + Z.of_nat (length ups))
        with (id - 1 + Z.of_nat (S (length ups))) by lia.
Qed.

(** X16.  UP counts the ID upwards from 1 and wraps from 25 to 1: after
    [n] polls that find only UP pressed, the poll that finds the
    confirming button pressed selects [n mod 25 + 1]. *)
Theorem selectID_counts_up (confirm cancel : pin) (ups : list KeyPoll)
    (kc : KeyPoll) (rest : list KeyPoll) (w : World) :
  keys w = ups ++ kc :: rest →
  Forall (fun k => k_low k BTN_UP = true ∧ k_low k BTN_DOWN = false
                   ∧ k_low k confirm = false ∧ k_low k cancel = false) ups →
  k_low kc confirm = true → k_low kc BTN_UP = false →
  k_low kc BTN_DOWN = false →
  ∃ w', selectID confirm cancel w
        = Done (Some (Z.of_nat (length ups) `mod` 25 + 1), w')
        ∧ keys w' = rest.
Proof.
  intros Hkeys Hups Hc Hu Hd. unfold selectID. rewrite Hkeys.
  destruct (selectID_loop_up confirm cancel ups kc rest 1 w Hups Hc Hu Hd)
    as (w' & Hrun & Hk); [lia|].
  exists w'. split; [|done]. rewrite Hrun.
  by replace (1 - 1 + Z.of_nat (length ups)) with (Z.of_nat (length ups))
    by lia.
Qed.

Lemma selectID_counts_up_witness :
  ∃ w', selectID BTN_DELETE BTN_ENROLL
          (set_keys (replicate 27 (press 0 BTN_UP)
                     ++ press 0 BTN_DELETE :: [press 0 BTN_VOTE]) world0)
        = Done (Some 3, w')
        ∧ keys w' = [press 0 BTN_VOTE].
Proof.
  apply (selectID_counts_up BTN_DELETE BTN_ENROLL
           (replicate 27 (press 0 BTN_UP)) (press 0 BTN_DELETE)
           [press 0 BTN_VOTE]
           (set_keys (replicate 27 (press 0 BTN_UP)
                      ++ press 0 BTN_DELETE :: [press 0 BTN_VOTE]) world0)).
  - reflexivity.
  - apply Forall_replicate. by repeat split.
  - reflexivity.
  - reflexivity.
  - reflexivity.
Defined.

(** ** What the workflows leave alone *)

Lemma calm_tallies w w' : calm w w' → tallies w' = tallies w.
Proof. intros (He & Ha & Hb & Hc & _). unfold tallies. congruence. Qed.

Lemma calm_eeprom w w' : calm w w' → eeprom w' = eeprom w.
Proof. by intros (He & _). Qed.

Lemma allocate_tally_cell id e a :
  a < EEPROM_VOTED_START →
  EEPROM_read (allocate id e) a = EEPROM_read e a.
Proof.
  intros Ha. unfold allocate. rewrite allocate_from_update_first.
  by apply update_first_tally_cell.
Qed.

(** X17.  [enrollFingerprint] never changes a tally, and the only change
    it ever makes to the EEPROM is the registry write of the selected
    ID, an ID from 1 to 25; on every other path (cancelled, timed out,
    failed capture, finger not lifted, mismatch, store refused) the
    EEPROM is as before. *)
Theorem enrollFingerprint_effect (w w' : World) :
  length (packet w) = PACKET_SIZE →
  enrollFingerprint w = Done w' →
  tallies w' = tallies w
  ∧ (eeprom w' = eeprom w
     ∨ ∃ id, 1 <= id <= 25 ∧ eeprom w' = allocate id (eeprom w)).
Proof.
  intros Hp Hrun. unfold enrollFingerprint, selectID in Hrun.
  destruct (selectID_loop_outcome BTN_ENROLL BTN_DELETE
              (keys (lcd_do [Clear; Print "Select ID:"] w)) 1
              (lcd_do [Clear; Print "Select ID:"] w))
    as [Hno|(sel & w1 & Hsel)]; [by rewrite Hno in Hrun|].
  rewrite Hsel, bind_Done in Hrun.
  apply selectID_loop_spec in Hsel
    as (He1 & Ha1 & Hb1 & Hc1 & Hpk & _ & _ & Hrange). wsimpl.
  assert (Ht1 : tallies w1 = tallies w) by (unfold tallies; congruence).
  destruct sel as [id|]; [|injection Hrun as <-; by split; [|left]].
  specialize (Hrange ltac:(unfold MAX_FINGERPRINTS; lia) id eq_refl).
  assert (Hp1 : length (packet w1) = PACKET_SIZE) by congruence.
  destruct (capture_first_returns 4 0
              (lcd_do [Clear; Print "Enrolling ID:"; PrintNum id;
                       SetCursor 0 1; Print "Place finger"] w1))
    as (captured & w2 & Hcap & Hc2); [done | lia |].
  rewrite Hcap, bind_Done in Hrun.
  assert (Hcalm2 : calm w1 w2)
    by (eapply calm_trans; [apply calm_lcd_do | exact Hc2]).
  assert (Hp2 : length (packet w2) = PACKET_SIZE)
    by (by apply (calm_packet _ _ Hcalm2)).
  assert (Hsame : ∀ w3 ops, calm w2 w3 → Done (lcd_do ops w3) = Done w' →
            tallies w' = tallies w
            ∧ (eeprom w' = eeprom w
               ∨ ∃ id, 1 <= id <= 25 ∧ eeprom w' = allocate id (eeprom w))).
  { intros w3 ops Hc3 [= <-].
    assert (Hc : calm w1 (lcd_do ops w3)).
    { eapply calm_trans; [exact Hcalm2|].
      eapply calm_trans; [exact Hc3 | apply calm_lcd_do]. }
    split; [by rewrite (calm_tallies _ _ Hc)|].
    left. by rewrite (calm_eeprom _ _ Hc). }
  destruct captured as [[|]|].
  2:{ apply (Hsame w2 _ (calm_refl w2) Hrun). }
  2:{ apply (Hsame w2 [] (calm_refl w2)).
      rewrite <- Hrun. f_equal. destruct w2. unfold lcd_do, set_lcd. cbn.
      by rewrite app_nil_r. }
  destruct (remove_finger_returns 51 0
              (lcd_do [Clear; Print "Image OK!"; SetCursor 0 1;
                       Print "Remove finger"] w2))
    as (n & w3 & Hrem & Hq3); [done | lia |].
  rewrite Hrem, bind_Done in Hrun.
  assert (Hc3 : calm w2 w3).
  { eapply calm_trans; [apply calm_lcd_do | by apply quiet_calm]. }
  assert (Hp3 : length (packet w3) = PACKET_SIZE)
    by (by apply (calm_packet _ _ Hc3)).
  destruct (50 <=? n); [apply (Hsame w3 _ Hc3 Hrun)|].
  destruct (capture_second_returns 4 0
              (lcd_do [Clear; Print "Place SAME"; SetCursor 0 1;
                       Print "finger again"] (drain w3)))
    as (captured & w4 & Hcap2 & Hc4); [done | lia |].
  rewrite Hcap2, bind_Done in Hrun.
  assert (Hcalm4 : calm w2 w4).
  { eapply calm_trans; [exact Hc3|].
    eapply calm_trans; [|exact Hc4]. by repeat split. }
  assert (Hp4 : length (packet w4) = PACKET_SIZE)
    by (by apply (calm_packet _ _ Hcalm4)).
  destruct captured as [[|]|].
  2:{ apply (Hsame w4 _ Hcalm4 Hrun). }
  2:{ apply (Hsame w4 [] Hcalm4).
      rewrite <- Hrun. f_equal. destruct w4. unfold lcd_do, set_lcd. cbn.
      by rewrite app_nil_r. }
  destruct (enrollFingerprint_store_spec id w4 Hp4)
    as (w5 & Hstore & Ha5 & Hb5 & Hc5 & _ & Hcases).
  rewrite Hstore in Hrun. injection Hrun as <-.
  assert (Hc14 : calm w1 w4) by (by apply (calm_trans _ w2)).
  destruct Hc14 as (He4 & Ha4 & Hb4 & Hc4' & _).
  assert (He5 : eeprom w5 = eeprom w
                ∨ eeprom w5 = allocate id (eeprom w)).
  { destruct (confirmed _); [destruct (confirmed _)|];
      destruct Hcases as [-> _]; rewrite He4, He1; auto. }
  split.
  - unfold tallies. rewrite Ha5, Hb5, Hc5, Ha4, Hb4, Hc4', Ha1, Hb1, Hc1.
    destruct He5 as [-> | ->]; [done|].
    by rewrite !allocate_tally_cell.
  - destruct He5 as [?|?]; [by left|right]. exists id.
    unfold MAX_FINGERPRINTS in Hrange. split; [lia|done].
Qed.

Lemma enrollFingerprint_effect_witness :
  ∃ w', enrollFingerprint world_fresh_enroll = Done w'
        ∧ tallies w' = tallies world_fresh_enroll
        ∧ (eeprom w' = eeprom world_fresh_enroll
           ∨ ∃ id, 1 <= id <= 25
                   ∧ eeprom w' = allocate id (eeprom world_fresh_enroll)).
Proof.
  eexists. split; [vm_compute; reflexivity|].
  apply enrollFingerprint_effect; [reflexivity|].
  vm_compute. reflexivity.
Defined.

(** X18.  The three workflows come back: [verifyAndVote] returns whatever
    the sensor and the voter do, and [enrollFingerprint] and [deleteByID]
    return unless the operator never confirms or cancels the ID
    selection.  None of them runs a bounded loop beyond its bound or
    indexes [packet] or a response buffer out of range. *)
Theorem workflows_return (w : World) :
  length (packet w) = PACKET_SIZE →
  (∃ w', verifyAndVote w = Done w')
  ∧ (enrollFingerprint w = NoInput ∨ ∃ w', enrollFingerprint w = Done w')
  ∧ (deleteByID w = NoInput ∨ ∃ w', deleteByID w = Done w').
Proof.
  intros Hp. split; [by apply verifyAndVote_returns|].
  split; [by apply enrollFingerprint_returns | by apply deleteByID_returns].
Qed.

Lemma workflows_return_witness :
  (∃ w', verifyAndVote world_vote_9 = Done w')
  ∧ (enrollFingerprint world_vote_9 = NoInput
     ∨ ∃ w', enrollFingerprint world_vote_9 = Done w')
  ∧ (deleteByID world_vote_9 = NoInput
     ∨ ∃ w', deleteByID world_vote_9 = Done w').
Proof. apply (workflows_return world_vote_9). reflexivity. Defined.

(** X19.  Without a match nothing is at stake: when [verifyAndVote] ends
    before the search (no finger, no template) or the search response
    has fewer than 16 bytes or a non-zero confirmation, the EEPROM and
    the tallies are as before and no button poll has been consumed.  A
    12-byte acknowledge with confirmation [0x00] is no match. *)
Theorem verifyAndVote_no_match (w w1 : World)
    (found : option (list Z * Z)) :
  length (packet w) = PACKET_SIZE →
  verifyAndVote_search w = Done (found, w1) →
  (∀ response len, found = Some (response, len) →
     len < 16 ∨ at_ response 9 ≠ 0x00) →
  ∃ w', verifyAndVote w = Done w'
        ∧ eeprom w' = eeprom w ∧ tallies w' = tallies w
        ∧ keys w' = keys w.
Proof.
  intros Hp Hsearch Hno.
  destruct (verifyAndVote_search_spec w Hp)
    as (found' & w1' & Hrun & He & Ha & Hb & Hc & Hk & _).
  rewrite Hsearch in Hrun. injection Hrun as <- <-.
  unfold verifyAndVote. rewrite Hsearch, bind_Done.
  destruct found as [[response len]|].
  - replace ((16 <=? len) && (at_ response 9 =? 0x00)) with false.
    + eexists. split; [reflexivity|]. wsimpl.
      split; [done|]. split; [unfold tallies; wsimpl; congruence | done].
    + symmetry. apply andb_false_iff.
      destruct (Hno response len eq_refl) as [Hlen|Hcode].
      * left. apply Z.leb_gt. lia.
      * right. by apply Z.eqb_neq.
  - exists w1. split; [done|].
    split; [done|]. split; [unfold tallies; congruence | done].
Qed.

Lemma verifyAndVote_no_match_witness :
  let w := set_line [deliver (ack 0x00); deliver (ack 0x00);
                     deliver (ack 0x00)] world_vote_7 in
  ∃ w', verifyAndVote w = Done w'
        ∧ eeprom w' = eeprom w ∧ tallies w' = tallies w
        ∧ keys w' = keys w.
Proof.
  eapply (verifyAndVote_no_match
            (set_line [deliver (ack 0x00); deliver (ack 0x00);
                       deliver (ack 0x00)] world_vote_7)).
  - reflexivity.
  - vm_compute. reflexivity.
  - intros response len [= <- <-]. left. lia.
Defined.

(** X20.  Cancelling the ID selection ends [deleteByID] and
    [enrollFingerprint] on the spot: no command has gone to the sensor,
    no reply has been consumed, and the EEPROM and the tallies are as
    before. *)
Theorem cancelled_selection_does_nothing (w w1 : World) :
  (selectID BTN_DELETE BTN_ENROLL (lcd_do [Clear; Print "Delete ID:"] w)
     = Done (None, w1) →
   deleteByID w = Done w1
   ∧ sent w1 = sent w ∧ line w1 = line w
   ∧ eeprom w1 = eeprom w ∧ tallies w1 = tallies w)
  ∧ (selectID BTN_ENROLL BTN_DELETE (lcd_do [Clear; Print "Select ID:"] w)
       = Done (None, w1) →
     enrollFingerprint w = Done w1
     ∧ sent w1 = sent w ∧ line w1 = line w
     ∧ eeprom w1 = eeprom w ∧ tallies w1 = tallies w).
Proof.
  split; intros Hsel.
  - unfold deleteByID. rewrite Hsel, bind_Done. split; [done|].
    apply selectID_loop_spec in Hsel as (He & Ha & Hb & Hc & _ & Hl & Hs & _).
    wsimpl. split_and!; try done. unfold tallies. congruence.
  - unfold enrollFingerprint. rewrite Hsel, bind_Done. split; [done|].
    apply selectID_loop_spec in Hsel as (He & Ha & Hb & Hc & _ & Hl & Hs & _).
    wsimpl. split_and!; try done. unfold tallies. congruence.
Qed.

Lemma cancelled_selection_does_nothing_witness :
  let w := set_keys [press 0 BTN_UP; press 0 BTN_ENROLL] world_delete_confirmed in
  ∃ w1, deleteByID w = Done w1
        ∧ sent w1 = sent w ∧ line w1 = line w
        ∧ eeprom w1 = eeprom w ∧ tallies w1 = tallies w.
Proof.
  eexists.
  eapply (cancelled_selection_does_nothing
            (set_keys [press 0 BTN_UP; press 0 BTN_ENROLL]
               world_delete_confirmed)).
  vm_compute. reflexivity.
Defined.

(** ** Showing the results *)

(** X21.  [showResults] names a winner only when one candidate has
    strictly more votes than each of the other two, and names that
    candidate; whenever the highest count is shared it shows a tie. *)
Theorem verdict_names_strict_winner (v1 v2 v3 : Z) :
  (v2 < v1 ∧ v3 < v1 → verdict v1 v2 v3 = winner_screen "Candidate 1")
  ∧ (v1 < v2 ∧ v3 < v2 → verdict v1 v2 v3 = winner_screen "Candidate 2")
  ∧ (v1 < v3 ∧ v2 < v3 → verdict v1 v2 v3 = winner_screen "Candidate 3")
  ∧ (¬ (v2 < v1 ∧ v3 < v1) → ¬ (v1 < v2 ∧ v3 < v2) → ¬ (v1 < v3 ∧ v2 < v3) →
     verdict v1 v2 v3 = tie_screen).
Proof.
  unfold verdict, winner_screen, tie_screen.
  split_and!; intros;
    destruct (Z.eqb_spec v1 (Z.max v1 (Z.max v2 v3)));
    destruct (Z.eqb_spec v2 (Z.max v1 (Z.max v2 v3)));
    destruct (Z.eqb_spec v3 (Z.max v1 (Z.max v2 v3)));
    cbn; try reflexivity; lia.
Qed.

Lemma verdict_names_strict_winner_witness :
  verdict 4 9 2 = winner_screen "Candidate 2"
  ∧ verdict 3 3 1 = tie_screen.
Proof.
  destruct (verdict_names_strict_winner 4 9 2) as (_ & H2 & _).
  destruct (verdict_names_strict_winner 3 3 1) as (_ & _ & _ & Ht).
  split; [apply H2; lia | apply Ht; lia].
Defined.

(** X22.  [showResults] changes nothing but the display; with counters
    from 0 to 255 it ends on "No votes yet!" exactly when all three are
    zero, and otherwise on the total followed by the verdict. *)
Theorem showResults_screens (w : World) :
  0 <= vote1 w <= 255 → 0 <= vote2 w <= 255 → 0 <= vote3 w <= 255 →
  eeprom (showResults w) = eeprom w
  ∧ tallies (showResults w) = tallies w
  ∧ ∃ head,
      lcd (showResults w) = lcd w ++ head ++
        (if (vote1 w =? 0) && (vote2 w =? 0) && (vote3 w =? 0)
         then [Clear; Print "No votes yet!"]
         else [Clear; Print "Total: ";
               PrintNum (vote1 w + vote2 w + vote3 w); Print "/";
               PrintNum (totalFingerprints w)]
              ++ verdict (vote1 w) (vote2 w) (vote3 w)).
Proof.
  intros H1 H2 H3. unfold showResults. wsimpl.
  rewrite (int16_small (vote1 w + vote2 w)) by lia.
  rewrite (int16_small (vote1 w + vote2 w + vote3 w)) by lia.
  destruct (Z.eqb_spec (vote1 w + vote2 w + vote3 w) 0) as [Hz|Hnz].
  - assert (vote1 w = 0 ∧ vote2 w = 0 ∧ vote3 w = 0) as (E1 & E2 & E3) by lia.
    wsimpl. rewrite E1, E2, E3. cbn [Z.eqb andb].
    split; [done|]. split; [done|]. rewrite <- app_assoc. eexists.
    reflexivity.
  - wsimpl. split; [done|]. split; [done|].
    replace ((vote1 w =? 0) && (vote2 w =? 0) && (vote3 w =? 0)) with false.
    + rewrite <- !app_assoc. eexists. reflexivity.
    + symmetry. apply not_true_is_false. rewrite !andb_true_iff, !Z.eqb_eq.
      lia.
Qed.

Lemma showResults_screens_witness :
  ∃ head,
    lcd (showResults world_voted) = lcd world_voted ++ head ++
      ([Clear; Print "Total: "; PrintNum 2; Print "/"; PrintNum 0]
       ++ tie_screen).
Proof.
  destruct (showResults_screens world_voted) as (_ & _ & head & Hl);
    [vm_compute; split; discriminate..|].
  exists head. exact Hl.
Defined.

(** ** Start-up *)

Lemma verifyPassword_spec w :
  length (packet w) = PACKET_SIZE →
  ∃ w', verifyPassword w = Done (confirmed (reply 32 (coming w) 2000), w')
        ∧ quiet w w' ∧ line w' = tail (line w)
        ∧ sent w' = sent w ++ [password_frame].
Proof.
  intros Hp. unfold verifyPassword.
  destruct (exchange VERIFY_PASSWORD [0x00; 0x00; 0x00; 0x00] 32 2000 w)
    as (w1 & w2 & -> & Hread & Hq & Hs & Hl);
    [done | unfold is_byte, VERIFY_PASSWORD; lia
     | repeat constructor; unfold is_byte; lia | simpl; lia | lia |].
  rewrite bind_Done, Hread, bind_Done. by exists w2.
Qed.

(** The sensor test: it stops at the first confirming reply and gives up
    after [n] attempts. *)
Lemma test_sensor_spec n : ∀ i w,
  length (packet w) = PACKET_SIZE →
  ∃ ok w' m,
    test_sensor n i w = Done (ok, w')
    ∧ calm w w'
    ∧ sent w' = sent w ++ replicate m password_frame
    ∧ line w' = drop m (line w)
    ∧ (m <= n)%nat
    ∧ (ok = false →
       m = n ∧ ∀ j, (j < n)%nat →
                 confirmed (reply 32 (script j w) 2000) = false)
    ∧ (ok = true →
       ∃ j, (j < n)%nat ∧ confirmed (reply 32 (script j w) 2000) = true).
Proof.
  induction n as [|n IH]; intros i w Hp; cbn [test_sensor].
  - exists false, w, 0%nat. rewrite app_nil_r.
    split_and!; try done.
    intros _. split; [done|]. intros j Hj. lia.
  - set (w0 := lcd_do _ w).
    destruct (verifyPassword_spec w0 Hp) as (w1 & -> & Hq & Hl & Hs).
    rewrite bind_Done. change (coming w0) with (script 0 w).
    assert (Hc1 : calm w w1).
    { apply (calm_trans _ w0); [apply calm_lcd_do | by apply quiet_calm]. }
    destruct (confirmed (reply 32 (script 0 w) 2000)) eqn:Hc.
    + eexists true, _, 1%nat. split; [reflexivity|].
      split; [by apply (calm_trans _ w1), calm_lcd_do|]. wsimpl.
      split; [done|]. split; [by rewrite Hl, drop_S_tail, drop_0|].
      split; [lia|]. split; [done|]. intros _. exists 0%nat.
      split; [lia|done].
    + destruct (IH (i + 1) w1)
        as (ok & w' & m & -> & Hc' & Hs' & Hl' & Hm & Hfalse & Htrue).
      { by apply (calm_packet w). }
      exists ok, w', (S m). split; [done|].
      split; [by apply (calm_trans _ w1)|].
      split; [rewrite Hs', Hs; unfold w0; wsimpl; by rewrite <- app_assoc|].
      split; [rewrite Hl', Hl; unfold w0; wsimpl; by rewrite <- drop_S_tail|].
      split; [lia|]. split.
      * intros Hok. destruct (Hfalse Hok) as [-> Hall]. split; [done|].
        intros j Hj. destruct j as [|j]; [done|].
        rewrite <- (script_tail j w w1) by (by rewrite Hl).
        apply Hall. lia.
      * intros Hok. destruct (Htrue Hok) as (j & Hj & Hcj).
        exists (S j). split; [lia|].
        by rewrite <- (script_tail j w w1) by (by rewrite Hl).
Qed.

(** The start-up reset is requested when RESULTS reads LOW twenty times
    running. *)
Lemma reset_requested_held n : ∀ held rest w,
  keys w = held ++ rest → length held = n →
  Forall (fun k => k_low k BTN_RESULTS = true) held →
  reset_requested n w = Done (true, set_keys rest w).
Proof.
  induction n as [|n IH]; intros held rest w Hk Hlen Hheld;
    cbn [reset_requested].
  - destruct held; [|done]. cbn in Hk. rewrite <- Hk. by destruct w.
  - destruct held as [|k held]; [done|].
    inversion Hheld as [|? ? Hlow Hheld']; subst.
    unfold pin_low. rewrite Hk. cbn [app]. rewrite bind_Done, Hlow.
    rewrite (IH held rest (set_keys (held ++ rest) w)); [done | done | | done].
    cbn in Hlen. lia.
Qed.

(** The first HIGH sample withdraws it. *)
Lemma reset_requested_released n : ∀ pre k rest w,
  keys w = pre ++ k :: rest → (length pre < n)%nat →
  Forall (fun k => k_low k BTN_RESULTS = true) pre →
  k_low k BTN_RESULTS = false →
  reset_requested n w = Done (false, set_keys rest w).
Proof.
  induction n as [|n IH]; intros pre k rest w Hk Hlen Hpre Hhigh; [lia|].
  cbn [reset_requested]. unfold pin_low. rewrite Hk.
  destruct pre as [|k0 pre]; cbn [app]; rewrite bind_Done.
  - by rewrite Hhigh.
  - inversion Hpre as [|? ? Hlow Hpre']; subst. rewrite Hlow.
    rewrite (IH pre k rest (set_keys (pre ++ k :: rest) w)); try done.
    cbn in Hlen. lia.
Qed.

Lemma resetSystem_slot w (i : nat) :
  (i < MAX_FINGERPRINTS)%nat → slot (eeprom (resetSystem w)) i = Empty.
Proof.
  intros Hi. unfold slot, resetSystem. wsimpl. rewrite wipe_from_read.
  unfold EEPROM_VOTED_START, MAX_FINGERPRINTS in *.
  destruct (decide _); [done|lia].
Qed.

(** [setup] after the reset check, from the state [w1] the check and the
    reset, if any, have left. *)
Lemma setup_tail_spec w1 :
  length (packet w1) = PACKET_SIZE →
  ∃ b, (let w := set_votes (load_vote (eeprom w1) EEPROM_VOTE1)
                   (load_vote (eeprom w1) EEPROM_VOTE2)
                   (load_vote (eeprom w1) EEPROM_VOTE3) w1 in
        let w := lcd_do [Clear; Print "Testing sensor"] w in
        '(sensorOK, w) ← test_sensor 6 0 w;
        if negb sensorOK then
          Done (Halted (lcd_do [Clear; Print "Sensor Error!"; SetCursor 0 1;
                                Print "Check wiring"] w))
        else
          '(count, w) ← getTemplateCount w;
          Done (Ready (showMainMenu (set_totalFingerprints count w))))
       = Done b
       ∧ eeprom (boot_world b) = eeprom w1
       ∧ keys (boot_world b) = keys w1
       ∧ vote1 (boot_world b) = load_vote (eeprom w1) EEPROM_VOTE1
       ∧ vote2 (boot_world b) = load_vote (eeprom w1) EEPROM_VOTE2
       ∧ vote3 (boot_world b) = load_vote (eeprom w1) EEPROM_VOTE3
       ∧ (halted b = true ↔
          ∀ j, (j < 6)%nat →
            confirmed (reply 32 (script j w1) 2000) = false)
       ∧ (halted b = true → sent (boot_world b)
                            = sent w1 ++ replicate 6 password_frame).
Proof.
  intros Hp. cbn zeta.
  set (w2 := lcd_do _ (set_votes _ _ _ w1)).
  destruct (test_sensor_spec 6 0 w2)
    as (ok & w3 & m & -> & Hc & Hs & Hl & Hm & Hfalse & Htrue); [done|].
  rewrite bind_Done.
  destruct Hc as (He & Ha & Hb & Hcc & Hk & Hp3). unfold w2 in *. wsimpl.
  destruct ok; cbn [negb].
  - destruct (getTemplateCount_spec w3) as (count & w4 & -> & Hq & _);
      [congruence|].
    rewrite bind_Done.
    destruct Hq as (He4 & Ha4 & Hb4 & Hc4 & _ & _ & Hk4 & _).
    eexists. split; [reflexivity|]. cbn [boot_world halted].
    unfold showMainMenu. wsimpl.
    split_and!; try congruence; try done.
    split; [done|]. intros Hall. destruct (Htrue eq_refl) as (j & Hj & Hcj).
    specialize (Hall j Hj). unfold script in *. wsimpl. congruence.
  - eexists. split; [reflexivity|]. cbn [boot_world halted]. wsimpl.
    destruct (Hfalse eq_refl) as [-> Hall].
    split_and!; try congruence.
    + split; [|done]. intros _ j Hj. specialize (Hall j Hj).
      unfold script in *. wsimpl. done.
Qed.

Lemma reset_requested_frame n : ∀ w r w',
  reset_requested n w = Done (r, w') → ∃ ks, w' = set_keys ks w.
Proof.
  induction n as [|n IH]; intros w r w' Hrun; cbn [reset_requested] in Hrun.
  - injection Hrun as <- <-. exists (keys w). by destruct w.
  - unfold pin_low in Hrun. destruct (keys w) as [|k ks]; [done|].
    rewrite bind_Done in Hrun. destruct (k_low k BTN_RESULTS).
    + apply IH in Hrun as (ks' & ->). by exists ks'.
    + injection Hrun as <- <-. by exists ks.
Qed.

(** X23.  Holding RESULTS through all twenty samples at start-up wipes the
    device: when [setup] ends, with the sensor found or not, all 25
    slots are Empty and the three tallies are zero in RAM and in EEPROM. *)
Theorem setup_full_reset (w : World) (held rest : list KeyPoll) :
  length (packet w) = PACKET_SIZE →
  keys w = held ++ rest → length held = 20%nat →
  Forall (fun k => k_low k BTN_RESULTS = true) held →
  ∃ b, setup w = Done b
       ∧ (∀ i : nat, (i < MAX_FINGERPRINTS)%nat →
            slot (eeprom (boot_world b)) i = Empty)
       ∧ tallies (boot_world b) = [0; 0; 0; 0; 0; 0]
       ∧ keys (boot_world b) = rest.
Proof.
  intros Hp Hk Hlen Hheld. unfold setup.
  set (w0 := lcd_do _ w).
  rewrite (reset_requested_held 20 held rest w0) by done.
  rewrite bind_Done.
  destruct (setup_tail_spec (resetSystem (set_keys rest w0)))
    as (b & Hrun & He & Hkeys & Ha & Hb & Hc & _); [done|].
  exists b. split; [exact Hrun|].
  split; [intros i Hi; rewrite He; by apply resetSystem_slot|].
  split; [|by rewrite Hkeys].
  unfold tallies. rewrite Ha, Hb, Hc, He. reflexivity.
Qed.

Lemma setup_full_reset_witness :
  ∃ b, setup (set_keys (replicate 20 (press 0 BTN_RESULTS)) world_voted)
       = Done b
       ∧ (∀ i : nat, (i < MAX_FINGERPRINTS)%nat →
            slot (eeprom (boot_world b)) i = Empty)
       ∧ tallies (boot_world b) = [0; 0; 0; 0; 0; 0]
       ∧ keys (boot_world b) = [].
Proof.
  apply (setup_full_reset
           (set_keys (replicate 20 (press 0 BTN_RESULTS)) world_voted)
           (replicate 20 (press 0 BTN_RESULTS)) []).
  - reflexivity.
  - reflexivity.
  - reflexivity.
  - apply Forall_replicate. reflexivity.
Defined.

(** X24.  When RESULTS reads HIGH at one of the twenty samples, [setup]
    leaves the EEPROM as it is and loads each RAM counter from its cell,
    a cell reading [0xFF] (erased, or a tally that has reached 255)
    counting as zero. *)
Theorem setup_keeps_store (w : World) (pre : list KeyPoll) (k : KeyPoll)
    (rest : list KeyPoll) :
  length (packet w) = PACKET_SIZE →
  keys w = pre ++ k :: rest → (length pre < 20)%nat →
  Forall (fun k => k_low k BTN_RESULTS = true) pre →
  k_low k BTN_RESULTS = false →
  ∃ b, setup w = Done b
       ∧ eeprom (boot_world b) = eeprom w
       ∧ keys (boot_world b) = rest
       ∧ vote1 (boot_world b) = load_vote (eeprom w) EEPROM_VOTE1
       ∧ vote2 (boot_world b) = load_vote (eeprom w) EEPROM_VOTE2
       ∧ vote3 (boot_world b) = load_vote (eeprom w) EEPROM_VOTE3
       ∧ ∀ a, load_vote (eeprom w) a
              = if EEPROM_read (eeprom w) a =? 0xFF then 0
                else EEPROM_read (eeprom w) a.
Proof.
  intros Hp Hk Hlen Hpre Hhigh. unfold setup.
  set (w0 := lcd_do _ w).
  rewrite (reset_requested_released 20 pre k rest w0) by done.
  rewrite bind_Done.
  destruct (setup_tail_spec (set_keys rest w0))
    as (b & Hrun & He & Hkeys & Ha & Hb & Hc & _); [done|].
  exists b. split; [exact Hrun|]. by split_and!.
Qed.

Lemma setup_keeps_store_witness :
  ∃ b, setup (set_keys [press 0 BTN_RESULTS; press 0 BTN_VOTE]
                (set_votes 0 0 0
                   (set_eeprom (EEPROM_write (eeprom world_voted)
                                  EEPROM_VOTE2 0xFF) world_voted)))
       = Done b
       ∧ vote1 (boot_world b) = 1 ∧ vote2 (boot_world b) = 0
       ∧ vote3 (boot_world b) = 1.
Proof.
  destruct (setup_keeps_store
              (set_keys [press 0 BTN_RESULTS; press 0 BTN_VOTE]
                 (set_votes 0 0 0
                    (set_eeprom (EEPROM_write (eeprom world_voted)
                                   EEPROM_VOTE2 0xFF) world_voted)))
              [press 0 BTN_RESULTS] (press 0 BTN_VOTE) [])
    as (b & Hrun & _ & _ & H1 & H2 & H3 & _).
  - reflexivity.
  - reflexivity.
  - simpl. lia.
  - repeat constructor.
  - reflexivity.
  - exists b. split; [exact Hrun|]. split_and!; [exact H1 | exact H2 | exact H3].
Defined.

(** X25.  [setup] halts for good exactly when none of six password
    attempts is confirmed, and then it has sent six password frames since
    it started and no other command. *)
Theorem setup_halts_without_sensor (w : World) (b : boot) :
  length (packet w) = PACKET_SIZE →
  setup w = Done b →
  (halted b = true ↔
   ∀ j, (j < 6)%nat → confirmed (reply 32 (script j w) 2000) = false)
  ∧ (halted b = true →
     sent (boot_world b) = sent w ++ replicate 6 password_frame).
Proof.
  intros Hp Hrun. unfold setup in Hrun.
  set (w0 := lcd_do _ w) in Hrun.
  destruct (reset_requested 20 w0) as [[r w1]| | |] eqn:Hreset; [|done..].
  rewrite bind_Done in Hrun.
  apply reset_requested_frame in Hreset as (ks & ->).
  set (w2 := if r then _ else _) in Hrun.
  assert (H2 : length (packet w2) = PACKET_SIZE ∧ line w2 = line w
               ∧ sent w2 = sent w).
  { unfold w2. by destruct r. }
  destruct H2 as (Hp2 & Hl2 & Hs2).
  destruct (setup_tail_spec w2 Hp2)
    as (b' & Hrun' & _ & _ & _ & _ & _ & Hiff & Hsent).
  cbn zeta in Hrun'. rewrite Hrun' in Hrun. injection Hrun as <-.
  unfold script in *. rewrite Hl2 in Hiff. rewrite Hs2 in Hsent. done.
Qed.

Lemma setup_halts_without_sensor_witness :
  ∃ b, setup (set_keys [press 0 BTN_VOTE] (set_line no_finger_line world0))
       = Done b
       ∧ halted b = true
       ∧ sent (boot_world b) = replicate 6 password_frame.
Proof.
  eexists. split; [vm_compute; reflexivity|].
  destruct (setup_halts_without_sensor
              (set_keys [press 0 BTN_VOTE] (set_line no_finger_line world0))
              _ eq_refl ltac:(vm_compute; reflexivity)) as [_ Hsent].
  split; [reflexivity|]. apply Hsent. reflexivity.
Defined.

(** ** The main loop *)

Lemma wait_release_loop_frame p ks : ∀ w w',
  wait_release_loop ks p w = Done w' → ∃ ks', w' = set_keys ks' w.
Proof.
  induction ks as [|k ks IH]; intros w w' Hrun;
    cbn [wait_release_loop] in Hrun; [done|].
  destruct (k_low k p).
  - apply IH in Hrun as (ks' & ->). by exists ks'.
  - injection Hrun as <-. by exists ks.
Qed.

(** The hold wait touches the display and the button script only. *)
Lemma hold_loop_frame ks : ∀ w,
  eeprom (hold_loop ks w).2 = eeprom w
  ∧ tallies (hold_loop ks w).2 = tallies w
  ∧ sent (hold_loop ks w).2 = sent w.
Proof.
  induction ks as [|k ks IH]; intros w; cbn [hold_loop]; [done|].
  destruct (u32 (k_elapsed k) <? 3000); [|done].
  destruct (k_low k BTN_RESET_VOTES); cbn [negb]; [|done].
  destruct (IH (lcd_do [SetCursor (11 + int16 (u32 (k_elapsed k) `div` 750)) 1;
                        Print "."] (set_keys ks w))) as (He & Ht & Hs).
  done.
Qed.

Lemma hold_loop_released pre : ∀ k rest w,
  Forall (fun k => u32 (k_elapsed k) < 3000
                   ∧ k_low k BTN_RESET_VOTES = true) pre →
  u32 (k_elapsed k) < 3000 → k_low k BTN_RESET_VOTES = false →
  (hold_loop (pre ++ k :: rest) w).1 = false.
Proof.
  induction pre as [|k0 pre IH]; intros k rest w Hpre Ht Hhigh;
    cbn [app hold_loop].
  - destruct (Z.ltb_spec (u32 (k_elapsed k)) 3000); [|lia].
    by rewrite Hhigh.
  - inversion Hpre as [|? ? [Ht0 Hlow] Hpre']; subst.
    destruct (Z.ltb_spec (u32 (k_elapsed k0)) 3000); [|lia].
    rewrite Hlow. cbn [negb]. by apply IH.
Qed.

Lemma hold_loop_held hold : ∀ tail w,
  Forall (fun k => k_low k BTN_RESET_VOTES = true) hold →
  match tail with
  | [] => True
  | kt :: _ => 3000 <= u32 (k_elapsed kt)
  end →
  (hold_loop (hold ++ tail) w).1 = true.
Proof.
  induction hold as [|k0 hold IH]; intros tail w Hhold Htail;
    cbn [app hold_loop].
  - destruct tail as [|kt rest]; [done|]. cbn [hold_loop].
    destruct (Z.ltb_spec (u32 (k_elapsed kt)) 3000); [lia|done].
  - inversion Hhold as [|? ? Hlow Hhold']; subst.
    destruct (u32 (k_elapsed k0) <? 3000); [|done].
    rewrite Hlow. cbn [negb]. by apply IH.
Qed.

(** Whether the hold lasted depends on the samples alone. *)
Lemma hold_loop_samples ks : ∀ wa wb,
  (hold_loop ks wa).1 = (hold_loop ks wb).1.
Proof.
  induction ks as [|k ks IH]; intros wa wb; cbn [hold_loop]; [done|].
  destruct (_ <? _); [|done]. destruct (negb _); [done|]. apply IH.
Qed.

(** [loop_reset_votes] once both debounce samples read LOW: the state it
    returns is that of the hold wait, reset or not, the display and the
    button script apart. *)
Lemma loop_reset_votes_spec k1 k2 ks w w' :
  keys w = k1 :: k2 :: ks →
  k_low k1 BTN_RESET_VOTES = true → k_low k2 BTN_RESET_VOTES = true →
  loop_reset_votes w = Done w' →
  let held := (hold_loop ks w).1 in
  eeprom w' = (if held then eeprom (resetVotesOnly w) else eeprom w)
  ∧ tallies w' = (if held then [0; 0; 0; 0; 0; 0] else tallies w)
  ∧ sent w' = sent w.
Proof.
  intros Hk Hl1 Hl2 Hrun. unfold loop_reset_votes, pin_low in Hrun.
  rewrite Hk, bind_Done, Hl1 in Hrun. wsimpl.
  rewrite bind_Done, Hl2 in Hrun. wsimpl.
  set (w0 := lcd_do _ (set_keys ks (set_keys (k2 :: ks) w))) in Hrun.
  pose proof (hold_loop_samples ks w0 w) as Hheld.
  destruct (hold_loop_frame ks w0) as (He & Ht & Hs).
  destruct (hold_loop ks w0) as [stillHeld w1]. cbn [fst snd] in *.
  cbn zeta. rewrite <- Hheld.
  apply wait_release_loop_frame in Hrun as (ks' & ->).
  unfold showMainMenu. wsimpl.
  destruct stillHeld.
  - split; [unfold resetVotesOnly; wsimpl; by rewrite He|].
    split; [|unfold resetVotesOnly; wsimpl; by rewrite Hs].
    exact (resetVotesOnly_tallies w1).
  - split; [wsimpl; by rewrite He|]. split; [|wsimpl; by rewrite Hs].
    exact Ht.
Qed.

(** X26.  The vote reset takes a full hold: after two LOW samples of
    RESET_VOTES, a HIGH sample before 3000 ms have passed cancels, and
    the EEPROM and the tallies are as before; a button LOW at every
    sample until the time is up brings [resetVotesOnly].  Either way
    nothing is sent to the sensor. *)
Theorem reset_votes_takes_full_hold (w w' : World) (k1 k2 k : KeyPoll)
    (pre rest : list KeyPoll) :
  keys w = k1 :: k2 :: pre ++ k :: rest →
  k_low k1 BTN_RESET_VOTES = true → k_low k2 BTN_RESET_VOTES = true →
  Forall (fun k => u32 (k_elapsed k) < 3000
                   ∧ k_low k BTN_RESET_VOTES = true) pre →
  loop_reset_votes w = Done w' →
  (u32 (k_elapsed k) < 3000 → k_low k BTN_RESET_VOTES = false →
   eeprom w' = eeprom w ∧ tallies w' = tallies w ∧ sent w' = sent w)
  ∧ (3000 <= u32 (k_elapsed k) →
     eeprom w' = eeprom (resetVotesOnly w)
     ∧ tallies w' = [0; 0; 0; 0; 0; 0] ∧ sent w' = sent w).
Proof.
  intros Hk Hl1 Hl2 Hpre Hrun.
  pose proof (loop_reset_votes_spec k1 k2 _ w w' Hk Hl1 Hl2 Hrun) as Hspec.
  cbn zeta in Hspec. split.
  - intros Ht Hhigh.
    by rewrite (hold_loop_released pre k rest w Hpre Ht Hhigh) in Hspec.
  - intros Ht.
    rewrite (hold_loop_held pre (k :: rest) w) in Hspec; [done| |done].
    eapply Forall_impl; [exact Hpre|]. by intros ? [_ ?].
Qed.

Lemma reset_votes_takes_full_hold_witness :
  (∃ w', loop_reset_votes world_reset_released = Done w'
         ∧ eeprom w' = eeprom world_voted
         ∧ tallies w' = tallies world_voted)
  ∧ (∃ w', loop_reset_votes world_reset_held = Done w'
           ∧ eeprom w' = eeprom (resetVotesOnly world_voted)
           ∧ tallies w' = [0; 0; 0; 0; 0; 0]).
Proof.
  split.
  - assert (∃ w', loop_reset_votes world_reset_released = Done w')
      as [w' Hrun] by (eexists; vm_compute; reflexivity).
    exists w'. split; [exact Hrun|].
    destruct (reset_votes_takes_full_hold world_reset_released w'
                (press 0 BTN_RESET_VOTES) (press 0 BTN_RESET_VOTES)
                (press 2000 BTN_VOTE)
                [press 50 BTN_RESET_VOTES; press 1500 BTN_RESET_VOTES]
                [press 2100 BTN_VOTE] eq_refl eq_refl eq_refl)
      as [Hcancel _]; [repeat constructor | exact Hrun |].
    destruct Hcancel as (He & Ht & _); [vm_compute; reflexivity | reflexivity|].
    by split.
  - assert (∃ w', loop_reset_votes world_reset_held = Done w')
      as [w' Hrun] by (eexists; vm_compute; reflexivity).
    exists w'. split; [exact Hrun|].
    destruct (reset_votes_takes_full_hold world_reset_held w'
                (press 0 BTN_RESET_VOTES) (press 0 BTN_RESET_VOTES)
                (press 3000 BTN_RESET_VOTES)
                [press 50 BTN_RESET_VOTES; press 1500 BTN_RESET_VOTES]
                [press 3100 BTN_VOTE] eq_refl eq_refl eq_refl)
      as [_ Hreset]; [repeat constructor | exact Hrun |].
    destruct Hreset as (He & Ht & _); [vm_compute; discriminate|].
    by split.
Defined.

(** X27.  A pass of [loop] that finds no button pressed does nothing: it
    takes its five samples and returns the state otherwise untouched,
    nothing sent, nothing displayed, nothing written. *)
Theorem loop_idle_pass (w : World) (k1 k2 k3 k4 k5 : KeyPoll)
    (rest : list KeyPoll) :
  keys w = k1 :: k2 :: k3 :: k4 :: k5 :: rest →
  k_low k1 BTN_ENROLL = false → k_low k2 BTN_DELETE = false →
  k_low k3 BTN_VOTE = false → k_low k4 BTN_RESULTS = false →
  k_low k5 BTN_RESET_VOTES = false →
  loop w = Done (set_keys rest w).
Proof.
  intros Hk H1 H2 H3 H4 H5. unfold loop, loop_reset_votes, pin_low.
  rewrite Hk, bind_Done, H1, bind_Done. wsimpl.
  rewrite bind_Done, H2, bind_Done. wsimpl.
  rewrite bind_Done, H3, bind_Done. wsimpl.
  rewrite bind_Done, H4, bind_Done. wsimpl.
  rewrite bind_Done, H5. reflexivity.
Qed.

Lemma loop_idle_pass_witness :
  loop (set_keys (replicate 5 (press 0 BTN_UP) ++ [press 0 BTN_VOTE])
          world_voted)
  = Done (set_keys [press 0 BTN_VOTE]
            (set_keys (replicate 5 (press 0 BTN_UP) ++ [press 0 BTN_VOTE])
               world_voted)).
Proof.
  by apply (loop_idle_pass
              (set_keys (replicate 5 (press 0 BTN_UP) ++ [press 0 BTN_VOTE])
                 world_voted)
              (press 0 BTN_UP) (press 0 BTN_UP) (press 0 BTN_UP)
              (press 0 BTN_UP) (press 0 BTN_UP) [press 0 BTN_VOTE]).
Defined.
